(** * DNS migration scripts of rinawarp-platform: a shallow embedding

    The scripts under [scripts/] are sequential Python programs that talk
    to Cloudflare, Route 53, ACM, kubectl and the resolver.  They are
    embedded here as state-passing programs over an abstract world: every
    external call asks the world for its answer and is recorded in a
    trace, Python exceptions are an explicit result, and [while True]
    loops take fuel. *)

From Stdlib Require Import ZArith String Ascii List Bool Lia.
From stdpp Require Import base option list gmap strings pretty.

Local Open Scope Z_scope.

(** ** Python string operations used by the scripts *)

Module PyStr.

(** [s.startswith(p)] *)
Fixpoint startswith (s p : string) {struct p} : bool :=
  match p with
  | EmptyString => true
  | String b p' =>
      match s with
      | EmptyString => false
      | String a s' => Ascii.eqb a b && startswith s' p'
      end
  end.

(** [s.endswith(p)]: some tail of [s] is [p]. *)
Fixpoint endswith (s p : string) : bool :=
  if String.eqb s p then true
  else match s with
       | EmptyString => false
       | String _ s' => endswith s' p
       end.

(** [sub in s] *)
Fixpoint contains (s sub : string) : bool :=
  if startswith s sub then true
  else match s with
       | EmptyString => false
       | String _ s' => contains s' sub
       end.

(** [s.lower()] on ASCII letters. *)
Definition lower_char (c : ascii) : ascii :=
  let n := nat_of_ascii c in
  if ((65 <=? n)%nat && (n <=? 90)%nat)%bool then ascii_of_nat (n + 32) else c.

Fixpoint lower (s : string) : string :=
  match s with
  | EmptyString => EmptyString
  | String c s' => String (lower_char c) (lower s')
  end.

(** Truth value of a string: the empty string is false. *)
Definition truthy (s : string) : bool := negb (String.eqb s EmptyString).

(** [s.replace(old, new)] for a non-empty [old]: the occurrences of [old]
    are replaced from the left, without overlap.  Each step consumes at
    least one character, so the length of [s] is fuel enough. *)
Fixpoint skip (n : nat) (s : string) : string :=
  match n, s with
  | O, _ => s
  | S n', String _ s' => skip n' s'
  | S _, EmptyString => EmptyString
  end.

Fixpoint replace_go (fuel : nat) (s old new : string) : string :=
  match fuel with
  | O => s
  | S fuel' =>
      match s with
      | EmptyString => EmptyString
      | String c s' =>
          if startswith s old
          then new +:+ replace_go fuel' (skip (String.length old) s) old new
          else String c (replace_go fuel' s' old new)
      end
  end.

Definition replace (s old new : string) : string :=
  replace_go (String.length s) s old new.

End PyStr.

(** ** Data model *)

(** A DNS record object as the Cloudflare API returns it.  ['ttl'] and
    ['priority'] are read with [dict.get], so they may be absent. *)
Record cf_record := {
  cf_id : string;
  cf_type : string;
  cf_name : string;
  cf_content : string;
  cf_ttl : option Z;
  cf_priority : option Z
}.

(** A record dictionary a script sends to Cloudflare. *)
Record dns_record := {
  dr_type : string;
  dr_name : string;
  dr_content : string;
  dr_proxied : bool;
  dr_ttl : option Z
}.

(** Route 53 change: [{'Action': .., 'ResourceRecordSet': {'Name': ..,
    'Type': .., 'TTL': .., 'ResourceRecords': [{'Value': ..}]}}]. *)
Record resource_record_set := {
  rrs_Name : string;
  rrs_Type : string;
  rrs_TTL : Z;
  rrs_ResourceRecords : list string
}.

Record change := {
  Action : string;
  ResourceRecordSet : resource_record_set
}.

(** A Cloudflare page rule with its forwarding actions. *)
Record page_action := {
  pa_id : string;
  pa_url : string;
  pa_status_code : Z
}.

Record page_rule := {
  pr_pattern : string;
  pr_actions : list page_action;
  pr_priority : Z;
  pr_status : string
}.

(** HTTP requests made through [requests]. *)
Inductive http_method := GET | PUT | POST | DELETE.

Inductive payload :=
| NoBody
| RecordBody (r : dns_record)
| PageRuleBody (p : page_rule).

Record request := {
  req_method : http_method;
  req_url : string;
  req_headers : list (string * string);
  req_params : list (string * string);
  req_json : payload
}.

(** Body of a Cloudflare API answer: [{'success': .., 'result': [..],
    'errors': ..}]; [errors] stands for its [json.dumps] rendering. *)
Record api_body := {
  success : bool;
  result : list cf_record;
  errors : string
}.

Record response := {
  status_code : Z;
  json : api_body
}.

(** ** Exceptions *)

(** Classes below [Exception] that these scripts can meet. *)
Inductive exc_class :=
| Exception
| CalledProcessError
| FileNotFoundError
| HTTPError
| ConnectionError
| ValueError
| KeyError
| ClientError
| gaierror
| NameError
| EOFError.

(** An exception instance; [exc_msg] is [str(e)]. *)
Record exc := { exc_cls : exc_class; exc_msg : string }.

(** What a Python computation can raise: an [Exception] subclass, or
    [SystemExit] (which [except Exception] does not catch). *)
Inductive raised :=
| SystemExit (code : Z)
| Exc (e : exc).

(** Outcome of a computation.  [OutOfFuel] marks a [while True] loop that
    is still running when its fuel is spent; no handler catches it. *)
Inductive res (A : Type) :=
| Ok (a : A)
| Raise (e : raised)
| OutOfFuel.
Arguments Ok {A} a.
Arguments Raise {A} e.
Arguments OutOfFuel {A}.

Definition exc_class_eqb (a b : exc_class) : bool :=
  match a, b with
  | Exception, Exception | CalledProcessError, CalledProcessError
  | FileNotFoundError, FileNotFoundError | HTTPError, HTTPError
  | ConnectionError, ConnectionError | ValueError, ValueError
  | KeyError, KeyError | ClientError, ClientError | gaierror, gaierror
  | NameError, NameError | EOFError, EOFError => true
  | _, _ => false
  end.

(** ** External calls and their trace *)

Inductive event :=
| EvPrint (s : string)
| EvRun (cmd : list string)
| EvHttp (r : request)
| EvResolve (host : string)
| EvBotoClient (service : string)
| EvChangeRRS (zone_id : string) (batch : list change)
| EvInput (prompt : string)
| EvSleep (secs : Z)
| EvCfClient (token : string)
| EvCfZonesGet (zone_name : string)
| EvCfRecordPost (zone_id : string) (r : dns_record).

(** The environment of a run.  [W] is the state of everything outside the
    process; each operation answers from it and may change it.  A failing
    operation answers with the exception it raises. *)
Class Env (W : Type) := {
  environ : gmap string string;
  argv : list string;
  subprocess_run : list string -> W -> (exc + string) * W;
  requests_send : request -> W -> (exc + response) * W;
  gethostbyname : string -> W -> (exc + string) * W;
  boto3_client : string -> W -> (exc + unit) * W;
  change_resource_record_sets : string -> list change -> W -> (exc + unit) * W;
  builtin_input : string -> W -> (exc + string) * W;
  time_sleep : Z -> W -> W;
  cf_client : string -> W -> (exc + unit) * W;
  cf_zones_get : string -> W -> (exc + list cf_record) * W;
  cf_dns_records_post : string -> dns_record -> W -> (exc + unit) * W;
  (** [base64.b64decode(stdout.strip()).decode('utf-8')] *)
  decode_secret : string -> exc + string;
  (** [json.loads(stdout)['Certificate']['Status']] *)
  certificate_status : string -> exc + string;
  (** [repr] of a list of strings, as an f-string prints it *)
  repr_values : list string -> string
}.

(** ** The monad of script computations *)

Section Scripts.

Context {W : Type} {E : Env W}.

Record st := { world : W; trace : list event }.

Definition M (A : Type) : Type := st -> res A * st.

Definition ret {A} (a : A) : M A := fun s => (Ok a, s).

Definition bind {A B} (m : M A) (k : A -> M B) : M B :=
  fun s => match m s with
           | (Ok a, s') => k a s'
           | (Raise e, s') => (Raise e, s')
           | (OutOfFuel, s') => (OutOfFuel, s')
           end.

Definition raise {A} (e : raised) : M A := fun s => (Raise e, s).

Definition raise_Exception {A} (msg : string) : M A :=
  raise (Exc {| exc_cls := Exception; exc_msg := msg |}).

Definition lift_res {A} (r : exc + A) : M A :=
  match r with
  | inl e => raise (Exc e)
  | inr a => ret a
  end.

(** An external call: log it, ask the world, raise on failure. *)
Definition call {A} (ev : event) (op : W -> (exc + A) * W) : M A :=
  fun s =>
    let '(r, w') := op (world s) in
    let s' := {| world := w'; trace := trace s ++ [ev] |} in
    match r with
    | inl e => (Raise (Exc e), s')
    | inr a => (Ok a, s')
    end.

Definition print (msg : string) : M unit :=
  fun s => (Ok tt, {| world := world s; trace := trace s ++ [EvPrint msg] |}).

Definition sleep (secs : Z) : M unit :=
  fun s => (Ok tt, {| world := time_sleep secs (world s);
                      trace := trace s ++ [EvSleep secs] |}).

(** [try: body except ...: handler].  The handler decides whether the
    clause matches the exception. *)
Definition try_except {A} (body : M A) (handler : raised -> option (M A)) : M A :=
  fun s => match body s with
           | (Ok a, s') => (Ok a, s')
           | (Raise e, s') =>
               match handler e with
               | Some h => h s'
               | None => (Raise e, s')
               end
           | (OutOfFuel, s') => (OutOfFuel, s')
           end.

(** [except Exception as e:] *)
Definition except_Exception {A} (h : exc -> M A) : raised -> option (M A) :=
  fun e => match e with
           | Exc x => Some (h x)
           | SystemExit _ => None
           end.

(** [except C:] for a leaf class [C] *)
Definition except_class {A} (c : exc_class) (h : exc -> M A) : raised -> option (M A) :=
  fun e => match e with
           | Exc x => if exc_class_eqb (exc_cls x) c then Some (h x) else None
           | SystemExit _ => None
           end.

(** bare [except:] *)
Definition except_any {A} (h : M A) : raised -> option (M A) :=
  fun _ => Some h.

(** [for x in l: body x] *)
Fixpoint for_each {A} (l : list A) (body : A -> M unit) : M unit :=
  match l with
  | [] => ret tt
  | x :: l' => bind (body x) (fun _ => for_each l' body)
  end.

(** [while True: body], where the body says whether it reached [break]. *)
Inductive ctl := Break | Continue.

Fixpoint while_true (fuel : nat) (body : M ctl) : M unit :=
  match fuel with
  | O => fun s => (OutOfFuel, s)
  | S fuel' =>
      bind body (fun c => match c with
                          | Break => ret tt
                          | Continue => while_true fuel' body
                          end)
  end.

(** [requests.get/put/post(..)] followed by [response.raise_for_status()]. *)
Definition requests (r : request) : M response :=
  call (EvHttp r) (requests_send r).

Definition raise_for_status (r : response) : M unit :=
  if (400 <=? status_code r) && (status_code r <? 600)
  then raise (Exc {| exc_cls := HTTPError; exc_msg := pretty (status_code r) |})
  else ret tt.

(** Exit status of the process when [main] is the whole script: [0] on a
    normal return, the code of [sys.exit], [1] for an exception nobody
    caught; none while the script is still running. *)
Definition exit_code (r : res unit) : option Z :=
  match r with
  | Ok _ => Some 0
  | Raise (SystemExit n) => Some n
  | Raise (Exc _) => Some 1
  | OutOfFuel => None
  end.

(** The state after more events, the world having become [w']. *)
Definition logged (s : st) (w' : W) (evs : list event) : st :=
  {| world := w'; trace := trace s ++ evs |}.

(** [m] raises nothing but [Exception]s: it neither exits the process nor
    loops for ever. *)
Definition only_exceptions {A} (m : M A) : Prop :=
  forall s, match fst (m s) with
            | Ok _ | Raise (Exc _) => True
            | Raise (SystemExit _) | OutOfFuel => False
            end.

(** [m] always returns normally. *)
Definition returns {A} (m : M A) : Prop :=
  forall s, exists a s', m s = (Ok a, s').

(** [m] only adds events to the trace, and the events it adds, taken
    together, satisfy [Q]. *)
Definition emits_list (Q : list event -> Prop) {A} (m : M A) : Prop :=
  forall s, exists evs, trace (snd (m s)) = trace s ++ evs /\ Q evs.

(** Each event [m] adds satisfies [P]. *)
Definition emits (P : event -> Prop) {A} (m : M A) : Prop :=
  emits_list (Forall P) m.

(** [m] always returns normally, and the events it adds satisfy [Q]. *)
Definition completes_with (Q : list event -> Prop) (m : M unit) : Prop :=
  forall s, exists evs s', m s = (Ok tt, s') /\ trace s' = trace s ++ evs /\ Q evs.

(** [m] never ends the process by [sys.exit]: it returns, raises an
    exception, or is still running. *)
Definition no_exit {A} (m : M A) : Prop :=
  forall s, match fst (m s) with
            | Raise (SystemExit _) => False
            | _ => True
            end.

Definition run {A} (m : M A) (w : W) : res A * st :=
  m {| world := w; trace := [] |}.

End Scripts.

Declare Scope py_scope.
Delimit Scope py_scope with py.
Notation "x <- m ;; k" := (bind m (fun x => k))
  (at level 100, m at next level, right associativity) : py_scope.
Notation "m ;; k" := (bind m (fun _ => k))
  (at level 100, right associativity) : py_scope.
Local Open Scope py_scope.

Definition nl : string := String (ascii_of_nat 10) EmptyString.

(** The one-character string holding a double quote. *)
Definition dquote : string := String (ascii_of_nat 34) EmptyString.

Definition api_headers (token : string) : list (string * string) :=
  [("Authorization", "Bearer " +:+ token); ("Content-Type", "application/json")].

Definition api : string := "https://api.cloudflare.com/client/v4/zones".

(** Truth value of a string that may be [None] (a token, a record id). *)
Definition truthy_opt (t : option string) : bool :=
  match t with
  | Some s => PyStr.truthy s
  | None => false
  end.

Definition kubectl_get_secret : list string :=
  ["kubectl"; "get"; "secret"; "cloudflare-credentials"; "-n"; "rinawarp-staging";
   "-o"; "jsonpath={.data.api-token}"].

(** UTF-8 bytes of the check mark and the cross the scripts print. *)
Definition check_mark : string :=
  String (ascii_of_nat 226) (String (ascii_of_nat 156) (String (ascii_of_nat 147) EmptyString)).
Definition cross_mark : string :=
  String (ascii_of_nat 226) (String (ascii_of_nat 168) (String (ascii_of_nat 175) EmptyString)).

(** ** scripts/sync_dns_records.py *)

Module sync_dns_records.
Section Defs.
Context {W : Type} {E : Env W}.

Definition get_cloudflare_token : M (option string) :=
  try_except
    (stdout <- call (EvRun kubectl_get_secret) (subprocess_run kubectl_get_secret) ;;
     token <- lift_res (decode_secret stdout) ;;
     ret (Some token))
    (except_class CalledProcessError
       (fun _ => ret (environ !! "CLOUDFLARE_API_TOKEN"))).

Definition get_cloudflare_records (zone_name token : string) : M (list cf_record) :=
  let headers := api_headers token in
  response <- requests {| req_method := GET; req_url := api; req_headers := headers;
                          req_params := [("name", zone_name)]; req_json := NoBody |} ;;
  raise_for_status response ;;
  let data := json response in
  match success data, result data with
  | true, zone :: _ =>
      let zone_id := cf_id zone in
      response <- requests {| req_method := GET;
                              req_url := api +:+ "/" +:+ zone_id +:+ "/dns_records";
                              req_headers := headers; req_params := [];
                              req_json := NoBody |} ;;
      raise_for_status response ;;
      let data := json response in
      if negb (success data) then raise_Exception "Failed to get DNS records"
      else ret (result data)
  | _, _ => raise_Exception "Zone not found"
  end.

Definition resolve_railway_cname (name content : string) (ttl : Z) : M (option change) :=
  try_except
    (ip <- call (EvResolve content) (gethostbyname content) ;;
     ret (Some {| Action := "UPSERT";
                  ResourceRecordSet := {| rrs_Name := name; rrs_Type := "A";
                                          rrs_TTL := ttl;
                                          rrs_ResourceRecords := [ip] |} |}))
    (except_any (ret None)).

(** The record name in Route 53 form: names inside the zone get the
    final dot. *)
Definition route53_name (name zone_name : string) : string :=
  if String.eqb name zone_name then zone_name +:+ "."
  else if PyStr.endswith name zone_name then name +:+ "."
  else name.

Definition cloudflare_to_route53_record (cf_record : cf_record) (zone_name : string)
  : M (option change) :=
  if existsb (String.eqb (cf_type cf_record)) ["NS"; "SOA"] then ret None
  else
    let name := route53_name (cf_name cf_record) zone_name in
    result <- (if String.eqb (cf_type cf_record) "CNAME"
                  && PyStr.contains (cf_content cf_record) "railway.app"
               then resolve_railway_cname name (cf_content cf_record)
                      (default 300 (cf_ttl cf_record))
               else ret None) ;;
    match result with
    | Some converted => ret (Some converted)
    | None =>
        let value :=
          if String.eqb (cf_type cf_record) "MX"
          then pretty (default 10 (cf_priority cf_record)) +:+ " " +:+ cf_content cf_record
          else if String.eqb (cf_type cf_record) "TXT"
          then
            let content := cf_content cf_record in
            let content := if negb (PyStr.startswith content dquote)
                           then dquote +:+ content +:+ dquote else content in
            let content := if negb (PyStr.endswith content dquote)
                           then content +:+ dquote else content in
            content
          else cf_content cf_record in
        ret (Some {| Action := "UPSERT";
                     ResourceRecordSet :=
                       {| rrs_Name := name; rrs_Type := cf_type cf_record;
                          rrs_TTL := default 300 (cf_ttl cf_record);
                          rrs_ResourceRecords := [value] |} |})
    end.

(** [range(start, stop, step)] for a positive [step]; at most [stop]
    values are produced, which bounds the recursion. *)
Fixpoint range_go (fuel start stop step : nat) : list nat :=
  match fuel with
  | O => []
  | S fuel' =>
      if (start <? stop)%nat then start :: range_go fuel' (start + step)%nat stop step
      else []
  end.

Definition range (start stop step : nat) : list nat :=
  range_go stop start stop step.

(** [records[i:j]] for [i <= j] *)
Definition slice {A} (l : list A) (i j : nat) : list A :=
  take (j - i) (drop i l).

Definition batch_size : nat := 100.

(** The list comprehension of [sync_to_route53]. *)
Definition batches_of (records : list change) : list (list change) :=
  map (fun i => slice records i (i + batch_size)) (range 0 (length records) batch_size).

Definition sync_to_route53 (records : list change) (zone_id : string) : M unit :=
  call (EvBotoClient "route53") (boto3_client "route53") ;;
  let batches := batches_of records in
  for_each batches (fun batch =>
    call (EvChangeRRS zone_id batch) (change_resource_record_sets zone_id batch)).

Definition ZONE_NAME : string := "rinawarptech.com".
Definition ROUTE53_ZONE_ID : string := "Z0713202NJO49ZHK5ER1".

Definition show_record (record : cf_record) : string :=
  "Type: " +:+ cf_type record +:+ ", Name: " +:+ cf_name record
  +:+ ", Content: " +:+ cf_content record.

(** The test [record['type'] == 'CNAME' and record['name'] == ZONE_NAME] *)
Definition is_apex_cname (record : cf_record) : bool :=
  String.eqb (cf_type record) "CNAME" && String.eqb (cf_name record) ZONE_NAME.

Definition not_apex_cname (record : cf_record) : bool := negb (is_apex_cname record).

(** The conversion loop of [main]: apex CNAMEs go to [skipped_records],
    every other record is converted and kept when the result is not
    [None]. *)
Fixpoint convert_records (cf_records : list cf_record)
    (r53_records : list change) (skipped_records : list cf_record)
  : M (list change * list cf_record) :=
  match cf_records with
  | [] => ret (r53_records, skipped_records)
  | record :: rest =>
      if is_apex_cname record
      then convert_records rest r53_records (skipped_records ++ [record])
      else
        r53_record <- cloudflare_to_route53_record record ZONE_NAME ;;
        match r53_record with
        | Some c => convert_records rest (r53_records ++ [c]) skipped_records
        | None => convert_records rest r53_records skipped_records
        end
  end.

(** The [try] block of [main]. *)
Definition main_body : M unit :=
  token <- get_cloudflare_token ;;
  if negb (truthy_opt token) then raise_Exception "Cloudflare API token not found"
  else
    let token := default EmptyString token in
    print ("Fetching DNS records from Cloudflare for " +:+ ZONE_NAME +:+ "...") ;;
    cf_records <- get_cloudflare_records ZONE_NAME token ;;
    print ("Found " +:+ pretty (length cf_records) +:+ " records in Cloudflare") ;;
    print (nl +:+ "Cloudflare records:") ;;
    for_each cf_records (fun record => print (show_record record)) ;;
    converted <- convert_records cf_records [] [] ;;
    let '(r53_records, skipped_records) := converted in
    print (nl +:+ "Converting " +:+ pretty (length r53_records)
           +:+ " records to Route 53 format...") ;;
    (if bool_decide (skipped_records <> [])
     then print (nl +:+ "Skipped records that need manual handling:") ;;
          for_each skipped_records (fun record => print (show_record record))
     else ret tt) ;;
    print (nl +:+ "Records to be created in Route 53:") ;;
    for_each r53_records (fun record =>
      let rrs := ResourceRecordSet record in
      let values := rrs_ResourceRecords rrs in
      print ("Type: " +:+ rrs_Type rrs +:+ ", Name: " +:+ rrs_Name rrs
             +:+ ", Values: " +:+ repr_values values)) ;;
    response <- call (EvInput (nl +:+ "Do you want to proceed with the DNS sync? (yes/no): "))
                  (builtin_input (nl +:+ "Do you want to proceed with the DNS sync? (yes/no): ")) ;;
    if negb (String.eqb (PyStr.lower response) "yes")
    then print "Sync cancelled"
    else
      print (nl +:+ "Syncing records to Route 53...") ;;
      sync_to_route53 r53_records ROUTE53_ZONE_ID ;;
      print "Successfully synced DNS records to Route 53".

Definition main : M unit :=
  try_except main_body (except_Exception (fun e => print ("Error: " +:+ exc_msg e))).

End Defs.
End sync_dns_records.

(** ** scripts/cf-dns.py *)

Module cf_dns.
Section Defs.
Context {W : Type} {E : Env W}.

Definition add_cname_record (token zone_name record_name target : string) : M bool :=
  call (EvCfClient token) (cf_client token) ;;
  zone_id <- try_except
               (zones <- call (EvCfZonesGet zone_name) (cf_zones_get zone_name) ;;
                match zones with
                | [] => print ("Error: Zone " +:+ zone_name +:+ " not found") ;; ret None
                | zone :: _ => ret (Some (cf_id zone))
                end)
               (except_Exception (fun e =>
                  print ("Error getting zone: " +:+ exc_msg e) ;; ret None)) ;;
  match zone_id with
  | None => ret false
  | Some zone_id =>
      let record := {| dr_type := "CNAME"; dr_name := record_name; dr_content := target;
                       dr_proxied := true; dr_ttl := None |} in
      try_except
        (call (EvCfRecordPost zone_id record) (cf_dns_records_post zone_id record) ;;
         print ("Successfully added CNAME record: " +:+ record_name +:+ " -> " +:+ target) ;;
         ret true)
        (except_Exception (fun e =>
           print ("Error creating DNS record: " +:+ exc_msg e) ;; ret false))
  end.

(** The [if __name__ == "__main__":] block. *)
Definition main : M unit :=
  match argv with
  | [_; token; zone; record; target] =>
      add_cname_record token zone record target ;; ret tt
  | _ =>
      print "Usage: python3 cf-dns.py <api_token> <zone_name> <record_name> <target>" ;;
      print "Example: python3 cf-dns.py YOUR_TOKEN rinawarptech.com docs 548iv9i4.up.railway.app" ;;
      raise (SystemExit 1)
  end.

End Defs.
End cf_dns.

(** ** scripts/setup_cloudflare_redirects.py *)

Module setup_cloudflare_redirects.
Section Defs.
Context {W : Type} {E : Env W}.

Definition get_cloudflare_token : M (option string) :=
  try_except
    (stdout <- call (EvRun kubectl_get_secret) (subprocess_run kubectl_get_secret) ;;
     token <- lift_res (decode_secret stdout) ;;
     ret (Some token))
    (except_class CalledProcessError
       (fun _ => ret (environ !! "CLOUDFLARE_API_TOKEN"))).

Definition get_zone_id (token : string) : M string :=
  response <- requests {| req_method := GET; req_url := api;
                          req_headers := api_headers token;
                          req_params := [("name", "rinawarptech.com")];
                          req_json := NoBody |} ;;
  raise_for_status response ;;
  let data := json response in
  match success data, result data with
  | true, zone :: _ => ret (cf_id zone)
  | _, _ => raise_Exception "Zone not found"
  end.

Definition create_page_rule (zone_id token url_pattern : string)
    (actions : list page_action) : M api_body :=
  let data := {| pr_pattern := url_pattern; pr_actions := actions;
                 pr_priority := 1; pr_status := "active" |} in
  response <- requests {| req_method := POST;
                          req_url := api +:+ "/" +:+ zone_id +:+ "/pagerules";
                          req_headers := api_headers token; req_params := [];
                          req_json := PageRuleBody data |} ;;
  raise_for_status response ;;
  ret (json response).

Definition update_dns_record (zone_id token name type : string) : M api_body :=
  let headers := api_headers token in
  response <- requests {| req_method := GET;
                          req_url := api +:+ "/" +:+ zone_id +:+ "/dns_records";
                          req_headers := headers;
                          req_params := [("name", name +:+ ".rinawarptech.com");
                                         ("type", type)];
                          req_json := NoBody |} ;;
  raise_for_status response ;;
  let data := json response in
  if negb (success data) then raise_Exception "Failed to get DNS records"
  else
    let record_id := match result data with
                     | r :: _ => Some (cf_id r)
                     | [] => None
                     end in
    let record := {| dr_type := type; dr_name := name; dr_content := "rinawarptech.com";
                     dr_proxied := true; dr_ttl := Some 1 |} in
    response <- (if truthy_opt record_id
                 then requests {| req_method := PUT;
                                  req_url := api +:+ "/" +:+ zone_id +:+ "/dns_records/"
                                             +:+ default EmptyString record_id;
                                  req_headers := headers; req_params := [];
                                  req_json := RecordBody record |}
                 else requests {| req_method := POST;
                                  req_url := api +:+ "/" +:+ zone_id +:+ "/dns_records";
                                  req_headers := headers; req_params := [];
                                  req_json := RecordBody record |}) ;;
    raise_for_status response ;;
    ret (json response).

Definition redirects : list (string * string) :=
  [("api.rinawarptech.com/*", "rinawarptech.com/api/$1");
   ("docs.rinawarptech.com/*", "rinawarptech.com/docs/$1")].

Definition main : M unit :=
  token <- get_cloudflare_token ;;
  if negb (truthy_opt token) then print "Error: Cloudflare API token not found"
  else
    let token := default EmptyString token in
    print "Getting zone ID..." ;;
    zone_id <- get_zone_id token ;;
    print (nl +:+ "Updating DNS records...") ;;
    for_each ["api"; "docs"] (fun subdomain =>
      print (nl +:+ "Updating " +:+ subdomain +:+ ".rinawarptech.com...") ;;
      try_except
        (result <- update_dns_record zone_id token subdomain "CNAME" ;;
         if success result
         then print (check_mark +:+ " Successfully updated DNS record")
         else print (cross_mark +:+ " Failed to update DNS record") ;;
              print ("Error: " +:+ errors result))
        (except_Exception (fun e =>
           print (cross_mark +:+ " Error updating DNS record: " +:+ exc_msg e)))) ;;
    print (nl +:+ "Setting up page rules...") ;;
    for_each redirects (fun redirect =>
      print (nl +:+ "Creating page rule for " +:+ fst redirect +:+ "...") ;;
      try_except
        (result <- create_page_rule zone_id token (fst redirect)
                     [{| pa_id := "forwarding_url";
                         pa_url := "https://" +:+ snd redirect;
                         pa_status_code := 301 |}] ;;
         if success result
         then print (check_mark +:+ " Successfully created page rule")
         else print (cross_mark +:+ " Failed to create page rule") ;;
              print ("Error: " +:+ errors result))
        (except_Exception (fun e =>
           print (cross_mark +:+ " Error creating page rule: " +:+ exc_msg e)))) ;;
    print (nl +:+ "Setup complete!").

End Defs.
End setup_cloudflare_redirects.

Definition cert_arn : string :=
  "arn:aws:acm:us-east-1:720237151757:certificate/b6fb0750-a12b-4a4a-b793-bb67f789ca52".

Definition describe_certificate : list string :=
  ["aws"; "acm"; "describe-certificate"; "--certificate-arn"; cert_arn;
   "--region"; "us-east-1"].

Definition route53_nameservers : list string :=
  ["ns-1525.awsdns-62.org"; "ns-1686.awsdns-18.co.uk";
   "ns-769.awsdns-32.net"; "ns-455.awsdns-56.com"].

Definition validation_record : dns_record :=
  {| dr_type := "CNAME"; dr_name := "_87dcf068b52efd9d35831bcc920b95ff";
     dr_content := "_805ceb83cfdb2e0600616d81ffac9513.xlfgrmvvlj.acm-validations.aws";
     dr_proxied := false; dr_ttl := Some 300 |}.

(** ** scripts/cleanup_dns.py *)

Module cleanup_dns.
Section Defs.
Context {W : Type} {E : Env W}.

Definition get_cloudflare_token : M (option string) :=
  try_except
    (stdout <- call (EvRun kubectl_get_secret) (subprocess_run kubectl_get_secret) ;;
     token <- lift_res (decode_secret stdout) ;;
     ret (Some token))
    (except_class CalledProcessError
       (fun _ => ret (environ !! "CLOUDFLARE_API_TOKEN"))).

Definition get_zone_id (token : string) : M string :=
  response <- requests {| req_method := GET; req_url := api;
                          req_headers := api_headers token;
                          req_params := [("name", "rinawarptech.com")];
                          req_json := NoBody |} ;;
  raise_for_status response ;;
  let data := json response in
  match success data, result data with
  | true, zone :: _ => ret (cf_id zone)
  | _, _ => raise_Exception "Zone not found"
  end.

Definition get_dns_records (zone_id token : string) (record_type : option string)
  : M api_body :=
  let params := if truthy_opt record_type
                then [("type", default EmptyString record_type)] else [] in
  response <- requests {| req_method := GET;
                          req_url := api +:+ "/" +:+ zone_id +:+ "/dns_records";
                          req_headers := api_headers token; req_params := params;
                          req_json := NoBody |} ;;
  raise_for_status response ;;
  ret (json response).

Definition delete_dns_record (zone_id token record_id : string) : M api_body :=
  response <- requests {| req_method := DELETE;
                          req_url := api +:+ "/" +:+ zone_id +:+ "/dns_records/" +:+ record_id;
                          req_headers := api_headers token; req_params := [];
                          req_json := NoBody |} ;;
  raise_for_status response ;;
  ret (json response).

Definition create_dns_record (zone_id token : string) (record : dns_record) : M api_body :=
  response <- requests {| req_method := POST;
                          req_url := api +:+ "/" +:+ zone_id +:+ "/dns_records";
                          req_headers := api_headers token; req_params := [];
                          req_json := RecordBody record |} ;;
  raise_for_status response ;;
  ret (json response).

(** One turn of the [while True:] loop at the end of [main]. *)
Definition poll_once : M ctl :=
  try_except
    (stdout <- call (EvRun describe_certificate) (subprocess_run describe_certificate) ;;
     status <- lift_res (certificate_status stdout) ;;
     print (nl +:+ "Certificate status: " +:+ status) ;;
     if String.eqb status "ISSUED"
     then print (check_mark +:+ " Certificate has been validated!") ;; ret Break
     else if String.eqb status "FAILED"
     then print (cross_mark +:+ " Certificate validation failed") ;; ret Break
     else print "Checking again in 30 seconds..." ;; sleep 30 ;; ret Continue)
    (except_Exception (fun e =>
       print ("Error checking certificate status: " +:+ exc_msg e) ;; ret Break)).

Definition poll_certificate (fuel : nat) : M unit := while_true fuel poll_once.

(** The loop of [main] over the NS records of the zone. *)
Definition remove_route53_ns (zone_id token : string) (records : list cf_record) : M unit :=
  for_each records (fun record =>
    if existsb (String.eqb (cf_content record)) route53_nameservers
    then print ("Deleting NS record: " +:+ cf_content record) ;;
         result <- delete_dns_record zone_id token (cf_id record) ;;
         if success result
         then print (check_mark +:+ " Successfully deleted NS record")
         else print (cross_mark +:+ " Failed to delete NS record")
    else ret tt).

Definition main (fuel : nat) : M unit :=
  try_except
    (token <- get_cloudflare_token ;;
     if negb (truthy_opt token) then raise_Exception "Cloudflare API token not found"
     else
       let token := default EmptyString token in
       print "Getting zone ID..." ;;
       zone_id <- get_zone_id token ;;
       print (nl +:+ "Looking for Route 53 NS records to remove...") ;;
       records <- get_dns_records zone_id token (Some "NS") ;;
       remove_route53_ns zone_id token (result records) ;;
       print (nl +:+ "Adding ACM validation record...") ;;
       result <- create_dns_record zone_id token validation_record ;;
       (if success result
        then print (check_mark +:+ " Successfully added ACM validation record")
        else print (cross_mark +:+ " Failed to add ACM validation record") ;;
             print ("Error: " +:+ errors result)) ;;
       print (nl +:+ "Waiting for ACM to validate the certificate...") ;;
       poll_certificate fuel)
    (except_Exception (fun e => print ("Error: " +:+ exc_msg e))).

End Defs.
End cleanup_dns.

(** ** scripts/update_cloudflare_dns.py

    The file is cut off inside a signature at line 76, so it is not a
    Python program as it stands; [update_dns_record] and the polling loop
    of [main] are complete in the text and are embedded as written.  The
    text that remains never imports [time]: [imported_names] lists what
    lines 2-7 bind.  The loop is embedded with the binding of [time] as the
    parameter [time_imported], which is [time_bound] for the text as it
    stands. *)

Module update_cloudflare_dns.
Section Defs.
Context {W : Type} {E : Env W}.

Definition update_dns_record (zone_id token : string) (record : dns_record) : M api_body :=
  let headers := api_headers token in
  response <- requests {| req_method := GET;
                          req_url := api +:+ "/" +:+ zone_id +:+ "/dns_records";
                          req_headers := headers;
                          req_params := [("name", dr_name record); ("type", dr_type record)];
                          req_json := NoBody |} ;;
  raise_for_status response ;;
  let data := json response in
  response <- match success data, result data with
              | true, existing :: _ =>
                  let record_id := cf_id existing in
                  requests {| req_method := PUT;
                              req_url := api +:+ "/" +:+ zone_id +:+ "/dns_records/"
                                         +:+ record_id;
                              req_headers := headers; req_params := [];
                              req_json := RecordBody record |}
              | _, _ =>
                  requests {| req_method := POST;
                              req_url := api +:+ "/" +:+ zone_id +:+ "/dns_records";
                              req_headers := headers; req_params := [];
                              req_json := RecordBody record |}
              end ;;
  raise_for_status response ;;
  ret (json response).

(** [import os], [import requests], [import base64], [import subprocess],
    [from typing import Dict, Any], [import json] *)
Definition imported_names : list string :=
  ["os"; "requests"; "base64"; "subprocess"; "Dict"; "Any"; "json"].

Definition time_bound : bool := existsb (String.eqb "time") imported_names.

(** [time.sleep(30)]: the name [time] is looked up when the statement runs. *)
Definition time_sleep_30 (time_imported : bool) : M unit :=
  if time_imported then sleep 30
  else raise (Exc {| exc_cls := NameError; exc_msg := "name 'time' is not defined" |}).

(** One turn of the [while True:] loop: here the wait comes after the
    [try] statement. *)
Definition poll_once (time_imported : bool) : M ctl :=
  c <- try_except
         (stdout <- call (EvRun describe_certificate) (subprocess_run describe_certificate) ;;
          status <- lift_res (certificate_status stdout) ;;
          print ("Certificate status: " +:+ status) ;;
          if String.eqb status "ISSUED"
          then print (nl +:+ check_mark +:+ " Certificate has been validated!") ;; ret Break
          else if String.eqb status "FAILED"
          then print (nl +:+ cross_mark +:+ " Certificate validation failed") ;; ret Break
          else ret Continue)
         (except_Exception (fun e =>
            print ("Error checking certificate status: " +:+ exc_msg e) ;; ret Break)) ;;
  match c with
  | Break => ret Break
  | Continue =>
      print "Checking again in 30 seconds..." ;;
      time_sleep_30 time_imported ;;
      ret Continue
  end.

Definition poll_certificate (time_imported : bool) (fuel : nat) : M unit :=
  while_true fuel (poll_once time_imported).

End Defs.
End update_cloudflare_dns.

(** ** scripts/update_cloudfront_dns.py *)

Module update_cloudfront_dns.
Section Defs.
Context {W : Type} {E : Env W}.

Definition get_dns_records (zone_id token : string) : M api_body :=
  response <- requests {| req_method := GET;
                          req_url := api +:+ "/" +:+ zone_id +:+ "/dns_records";
                          req_headers := api_headers token; req_params := [];
                          req_json := NoBody |} ;;
  raise_for_status response ;;
  ret (json response).

(** [f"{record['name']}.rinawarptech.com"], or the name itself at the apex *)
Definition full_name_of (record : dns_record) : string :=
  if String.eqb (dr_name record) "rinawarptech.com" then dr_name record
  else dr_name record +:+ ".rinawarptech.com".

(** The scan [for r in records['result']: if ..: record_id = r['id']; break] *)
Definition find_record_id (records : list cf_record) (full_name type : string)
  : option string :=
  cf_id <$> List.find (fun r => String.eqb (cf_name r) full_name
                               && String.eqb (cf_type r) type) records.

Definition update_dns_record (zone_id token : string) (record : dns_record) : M api_body :=
  let headers := api_headers token in
  records <- get_dns_records zone_id token ;;
  let full_name := full_name_of record in
  let record_id := find_record_id (result records) full_name (dr_type record) in
  response <- (if truthy_opt record_id
               then print ("Found existing record with ID " +:+ default EmptyString record_id) ;;
                    requests {| req_method := PUT;
                                req_url := api +:+ "/" +:+ zone_id +:+ "/dns_records/"
                                           +:+ default EmptyString record_id;
                                req_headers := headers; req_params := [];
                                req_json := RecordBody record |}
               else print "Creating new record" ;;
                    requests {| req_method := POST;
                                req_url := api +:+ "/" +:+ zone_id +:+ "/dns_records";
                                req_headers := headers; req_params := [];
                                req_json := RecordBody record |}) ;;
  raise_for_status response ;;
  ret (json response).

Definition get_cloudflare_token : M (option string) :=
  try_except
    (stdout <- call (EvRun kubectl_get_secret) (subprocess_run kubectl_get_secret) ;;
     token <- lift_res (decode_secret stdout) ;;
     ret (Some token))
    (except_class CalledProcessError
       (fun _ => ret (environ !! "CLOUDFLARE_API_TOKEN"))).

Definition get_zone_id (token : string) : M string :=
  response <- requests {| req_method := GET; req_url := api;
                          req_headers := api_headers token;
                          req_params := [("name", "rinawarptech.com")];
                          req_json := NoBody |} ;;
  raise_for_status response ;;
  let data := json response in
  match success data, result data with
  | true, zone :: _ => ret (cf_id zone)
  | _, _ => raise_Exception "Zone not found"
  end.

(** The CloudFront distributions of [main]: domain and distribution. *)
Definition distributions : list (string * string) :=
  [("api.rinawarptech.com", "d9db5a94dictq.cloudfront.net");
   ("docs.rinawarptech.com", "d1cabz99ab90wf.cloudfront.net");
   ("rinawarptech.com", "dbj4krew5gpfp.cloudfront.net");
   ("www.rinawarptech.com", "d361asqhi0ugoo.cloudfront.net")].

(** The record [main] builds for a distribution: the apex keeps its
    name, a subdomain is cut down to its first part. *)
Definition record_for (domain cloudfront : string) : dns_record :=
  let name := if String.eqb domain "rinawarptech.com" then domain
              else PyStr.replace domain ".rinawarptech.com" EmptyString in
  {| dr_type := "CNAME"; dr_name := name; dr_content := cloudfront;
     dr_proxied := true; dr_ttl := Some 1 |}.

(** The [try] statement of [main] around one update; [dumps] stands for
    [json.dumps(record, indent=2)]. *)
Definition update_one (dumps : dns_record -> string) (zone_id token : string)
    (record : dns_record) : M unit :=
  try_except
    (result <- update_dns_record zone_id token record ;;
     if success result
     then print (check_mark +:+ " Successfully updated DNS record")
     else print (cross_mark +:+ " Failed to update DNS record") ;;
          print ("Error: " +:+ errors result))
    (except_Exception (fun e =>
       print (cross_mark +:+ " Error updating DNS record: " +:+ exc_msg e) ;;
       print "Details of the error:" ;;
       print ("Record data: " +:+ dumps record))).

Definition main (dumps : dns_record -> string) : M unit :=
  try_except
    (token <- get_cloudflare_token ;;
     if negb (truthy_opt token) then raise_Exception "Cloudflare API token not found"
     else
       let token := default EmptyString token in
       print "Getting zone ID..." ;;
       zone_id <- get_zone_id token ;;
       print (nl +:+ "Updating DNS records to use CloudFront:") ;;
       print "Fetching current DNS records..." ;;
       current_records <- get_dns_records zone_id token ;;
       print ("Found " +:+ pretty (length (result current_records)) +:+ " records") ;;
       for_each distributions (fun dist =>
         let domain := fst dist in
         let cloudfront := snd dist in
         let record := record_for domain cloudfront in
         print (nl +:+ "Updating " +:+ domain +:+ " to point to CloudFront distribution "
                +:+ cloudfront +:+ "...") ;;
         update_one dumps zone_id token record) ;;
       print (nl +:+ "DNS update complete!") ;;
       print (nl +:+ "Please note:") ;;
       print "1. DNS changes may take a few minutes to propagate" ;;
       print "2. CloudFront distributions may take 15-30 minutes to fully deploy" ;;
       print "3. Keep Cloudflare proxy enabled (orange cloud) for added protection")
    (except_Exception (fun e => print ("Error: " +:+ exc_msg e))).

End Defs.
End update_cloudfront_dns.

(** ** The scripts as processes *)

Inductive script := CfDns | SyncDnsRecords | SetupCloudflareRedirects.

Definition script_main {W : Type} {E : Env W} (sc : script) : M unit :=
  match sc with
  | CfDns => cf_dns.main
  | SyncDnsRecords => sync_dns_records.main
  | SetupCloudflareRedirects => setup_cloudflare_redirects.main
  end.

(** A malformed invocation is a wrong argument count; only [cf-dns.py]
    reads its arguments. *)
Definition malformed_invocation {W : Type} {E : Env W} (sc : script) : bool :=
  match sc with
  | CfDns => negb (length argv =? 5)%nat
  | SyncDnsRecords | SetupCloudflareRedirects => false
  end.

Definition process_exit {W : Type} {E : Env W} (sc : script) (w : W) : option Z :=
  exit_code (fst (run (script_main sc) w)).

(** ** The Route 53 zone the changes are applied to

    Route 53 itself is outside the repository.  The zone is a map keyed by
    (name, type) holding the TTL and the values; [UPSERT] writes the
    entry, [CREATE] needs the key to be free and [DELETE] needs the entry
    to be there as given. *)

Module route53.

Definition key_of (c : change) : string * string :=
  (rrs_Name (ResourceRecordSet c), rrs_Type (ResourceRecordSet c)).

Definition entry_of (c : change) : Z * list string :=
  (rrs_TTL (ResourceRecordSet c), rrs_ResourceRecords (ResourceRecordSet c)).

Definition apply_change (z : gmap (string * string) (Z * list string)) (c : change)
  : option (gmap (string * string) (Z * list string)) :=
  if String.eqb (Action c) "UPSERT" then Some (<[key_of c := entry_of c]> z)
  else if String.eqb (Action c) "CREATE" then
    match z !! key_of c with
    | None => Some (<[key_of c := entry_of c]> z)
    | Some _ => None
    end
  else if String.eqb (Action c) "DELETE" then
    match z !! key_of c with
    | Some e => if bool_decide (e = entry_of c) then Some (delete (key_of c) z) else None
    | None => None
    end
  else None.

Fixpoint apply_changes (z : gmap (string * string) (Z * list string)) (cs : list change)
  : option (gmap (string * string) (Z * list string)) :=
  match cs with
  | [] => Some z
  | c :: cs' =>
      match apply_change z c with
      | Some z' => apply_changes z' cs'
      | None => None
      end
  end.

(** The entry the last change of [cs] for key [k] writes, if any. *)
Definition last_write (cs : list change) (k : string * string) : option (Z * list string) :=
  fold_left (fun acc c => if bool_decide (key_of c = k) then Some (entry_of c) else acc)
    cs None.

End route53.

(** ** Properties of emitted values and of traces *)

(** [v] is some text between one pair of double quotes, the text itself
    neither starting nor ending with a double quote. *)
Definition quoted_once (v : string) : Prop :=
  exists inner, v = dquote +:+ inner +:+ dquote
                /\ PyStr.startswith inner dquote = false
                /\ PyStr.endswith inner dquote = false.

(** Status fetches and waits of a polling trace. *)
Definition is_observation (ev : event) : bool :=
  match ev with
  | EvRun cmd => bool_decide (cmd = describe_certificate)
  | _ => false
  end.

Definition is_wait (ev : event) : bool :=
  match ev with
  | EvSleep _ => true
  | _ => false
  end.

Definition observations (tr : list event) : nat := length (List.filter is_observation tr).
Definition waits (tr : list event) : nat := length (List.filter is_wait tr).

(** ** Scripted worlds

    The world is the number of external calls answered so far; answers
    are given by functions of that count. *)

Definition scripted (env : gmap string string) (args : list string)
    (proc : nat -> list string -> exc + string)
    (http : nat -> request -> exc + response)
    (dns : string -> exc + string) (answer : string) : Env nat :=
  {| environ := env;
     argv := args;
     subprocess_run := fun cmd n => (proc n cmd, S n);
     requests_send := fun r n => (http n r, S n);
     gethostbyname := fun h n => (dns h, S n);
     boto3_client := fun _ n => (inr tt, S n);
     change_resource_record_sets := fun _ _ n => (inr tt, S n);
     builtin_input := fun _ n => (inr answer, S n);
     time_sleep := fun _ n => n;
     cf_client := fun _ n => (inr tt, S n);
     cf_zones_get := fun _ n => (inr [], S n);
     cf_dns_records_post := fun _ _ n => (inr tt, S n);
     decode_secret := fun out => inr out;
     certificate_status := fun out => inr out;
     repr_values := fun vs => String.concat ", " vs |}.

Definition an_exc (c : exc_class) (msg : string) : exc :=
  {| exc_cls := c; exc_msg := msg |}.

Definition no_proc : nat -> list string -> exc + string :=
  fun _ _ => inl (an_exc CalledProcessError "returned non-zero exit status 1").

Definition no_http : nat -> request -> exc + response :=
  fun _ _ => inl (an_exc ConnectionError "connection refused").

Definition no_dns : string -> exc + string :=
  fun _ => inl (an_exc gaierror "Name or service not known").

(** A feed of certificate statuses: the [n]-th fetch prints the [n]-th
    status, and [rest] afterwards. *)
Definition status_feed (statuses : list string) (rest : nat -> exc + string)
  : nat -> exc + string :=
  fun n => match statuses !! n with
           | Some st => inr st
           | None => rest (n - length statuses)%nat
           end.

Definition feed_world (feed : nat -> exc + string) : Env nat :=
  scripted empty [] (fun n _ => feed n) no_http no_dns EmptyString.

(** A world whose resolver knows no host, and one where every host is at
    one address. *)
Definition dns_down : Env nat :=
  scripted empty [] no_proc no_http no_dns EmptyString.

Definition dns_up (ip : string) : Env nat :=
  scripted empty [] no_proc no_http (fun _ => inr ip) EmptyString.

Definition sample_record (type name content : string) : cf_record :=
  {| cf_id := "372e67954025e0ba6aaa6d586b9e0b59"; cf_type := type; cf_name := name;
     cf_content := content; cf_ttl := Some 300; cf_priority := None |}.

Definition sample_change (n : nat) : change :=
  {| Action := "UPSERT";
     ResourceRecordSet := {| rrs_Name := pretty n +:+ ".rinawarptech.com.";
                             rrs_Type := "A"; rrs_TTL := 300;
                             rrs_ResourceRecords := ["35.212.94.98"] |} |}.

(** Worlds for the credential lookup: the token is in the environment,
    and [kubectl] either exits with an error or is not installed. *)
Definition token_env : gmap string string :=
  {[ "CLOUDFLARE_API_TOKEN" := "cf-token-from-env" ]}.

Definition kubectl_failing : Env nat :=
  scripted token_env [] no_proc no_http no_dns EmptyString.

Definition kubectl_missing : Env nat :=
  scripted token_env []
    (fun _ _ => inl (an_exc FileNotFoundError "[Errno 2] No such file or directory: 'kubectl'"))
    no_http no_dns EmptyString.

(** A world where the token is at hand but Cloudflare knows no zone of
    that name: every request is answered with an empty result. *)
Definition zone_missing : Env nat :=
  scripted token_env ["setup_cloudflare_redirects.py"] no_proc
    (fun _ _ => inr {| status_code := 200;
                       json := {| success := true; result := []; errors := "[]" |} |})
    no_dns "yes".

Definition usage_lines : list event :=
  [EvPrint "Usage: python3 cf-dns.py <api_token> <zone_name> <record_name> <target>";
   EvPrint "Example: python3 cf-dns.py YOUR_TOKEN rinawarptech.com docs 548iv9i4.up.railway.app"].

Definition PENDING_VALIDATION : string := "PENDING_VALIDATION".

(** The requests of the create-or-update functions: the lookup with the
    (name, type) filter, the unfiltered listing, the update of a record by
    its id and the creation of a record. *)
Definition dns_records_url (zone_id : string) : string :=
  api +:+ "/" +:+ zone_id +:+ "/dns_records".

Definition lookup_request (zone_id token name type : string) : request :=
  {| req_method := GET; req_url := dns_records_url zone_id;
     req_headers := api_headers token;
     req_params := [("name", name); ("type", type)]; req_json := NoBody |}.

Definition list_request (zone_id token : string) : request :=
  {| req_method := GET; req_url := dns_records_url zone_id;
     req_headers := api_headers token; req_params := []; req_json := NoBody |}.

Definition put_request (zone_id token record_id : string) (record : dns_record) : request :=
  {| req_method := PUT;
     req_url := api +:+ "/" +:+ zone_id +:+ "/dns_records/" +:+ record_id;
     req_headers := api_headers token; req_params := [];
     req_json := RecordBody record |}.

Definition post_request (zone_id token : string) (record : dns_record) : request :=
  {| req_method := POST; req_url := dns_records_url zone_id;
     req_headers := api_headers token; req_params := [];
     req_json := RecordBody record |}.

(** [raise_for_status] lets the response through. *)
Definition status_ok (r : response) : bool :=
  negb ((400 <=? status_code r) && (status_code r <? 600)).

(** A Cloudflare zone that already holds a CNAME for [api], and the
    answers of its API: the listing first, then a plain success. *)
Definition api_record : cf_record :=
  {| cf_id := "9a7806061c88ada191ed06f989cc3dac"; cf_type := "CNAME";
     cf_name := "api.rinawarptech.com"; cf_content := "old-target.example.net";
     cf_ttl := Some 1; cf_priority := None |}.

Definition listing (records : list cf_record) : response :=
  {| status_code := 200;
     json := {| success := true; result := records; errors := "[]" |} |}.

Definition zone_with_api : Env nat :=
  scripted token_env [] no_proc
    (fun n _ => inr (listing (if (n =? 0)%nat
                              then [sample_record "A" "rinawarptech.com" "76.76.21.21";
                                    api_record]
                              else [])))
    no_dns EmptyString.

Definition cloudfront_record : dns_record :=
  {| dr_type := "CNAME"; dr_name := "api"; dr_content := "d9db5a94dictq.cloudfront.net";
     dr_proxied := true; dr_ttl := Some 1 |}.

(** The lines the loop of cleanup_dns.py prints on its way out. *)
Definition validated_line : event :=
  EvPrint (check_mark +:+ " Certificate has been validated!").
Definition failed_line : event :=
  EvPrint (cross_mark +:+ " Certificate validation failed").

(** ** Sorting the source records of the conversion loop *)

(** Records the converter answers with [None]. *)
Definition is_dropped (record : cf_record) : bool :=
  existsb (String.eqb (cf_type record)) ["NS"; "SOA"].

(** Records that reach the change list: neither skipped nor dropped. *)
Definition is_kept (record : cf_record) : bool :=
  negb (sync_dns_records.is_apex_cname record) && negb (is_dropped record).

(** Records the converter hands to the resolver. *)
Definition is_railway_cname (record : cf_record) : bool :=
  String.eqb (cf_type record) "CNAME" && PyStr.contains (cf_content record) "railway.app".

Definition change_name (c : change) : string := rrs_Name (ResourceRecordSet c).
Definition change_type (c : change) : string := rrs_Type (ResourceRecordSet c).
Definition change_values (c : change) : list string :=
  rrs_ResourceRecords (ResourceRecordSet c).

(** A Route 53 that turns down the batches [reject] picks and accepts
    the others. *)
Definition route53_rejecting (reject : list change -> bool) : Env nat :=
  {| environ := token_env;
     argv := [];
     subprocess_run := fun cmd n => (no_proc n cmd, S n);
     requests_send := fun r n => (no_http n r, S n);
     gethostbyname := fun h n => (no_dns h, S n);
     boto3_client := fun _ n => (inr tt, S n);
     change_resource_record_sets := fun _ batch n =>
       (if reject batch then inl (an_exc ClientError "InvalidChangeBatch") else inr tt, S n);
     builtin_input := fun _ n => (inr "yes", S n);
     time_sleep := fun _ n => n;
     cf_client := fun _ n => (inr tt, S n);
     cf_zones_get := fun _ n => (inr [], S n);
     cf_dns_records_post := fun _ _ n => (inr tt, S n);
     decode_secret := fun out => inr out;
     certificate_status := fun out => inr out;
     repr_values := fun vs => String.concat ", " vs |}.

(** The batch that begins with the change numbered 100. *)
Definition starts_at_100 (batch : list change) : bool :=
  match batch with
  | c :: _ => String.eqb (change_name c) "100.rinawarptech.com."
  | [] => false
  end.

(** ** Kinds of events *)

(** Calls that reach Route 53. *)
Definition is_route53_call (ev : event) : bool :=
  match ev with
  | EvBotoClient _ | EvChangeRRS _ _ => true
  | _ => false
  end.

Definition is_input (ev : event) : bool :=
  match ev with
  | EvInput _ => true
  | _ => false
  end.

(** The trace reaches Route 53 only after the operator has been asked. *)
Definition asked_first (evs : list event) : Prop :=
  Forall (fun ev => is_route53_call ev = false) evs
  \/ exists before after prompt,
       evs = before ++ EvInput prompt :: after
       /\ Forall (fun ev => is_route53_call ev = false) before.

Definition delete_request (zone_id token record_id : string) : request :=
  {| req_method := DELETE;
     req_url := api +:+ "/" +:+ zone_id +:+ "/dns_records/" +:+ record_id;
     req_headers := api_headers token; req_params := []; req_json := NoBody |}.

(** NS records that point at Route 53. *)
Definition is_route53_ns (record : cf_record) : bool :=
  existsb (String.eqb (cf_content record)) route53_nameservers.

(** What [remove_route53_ns] may put on the trace for [records]: prints,
    and deletions of listed records that point at Route 53. *)
Definition removal_event (zone_id token : string) (records : list cf_record)
    (ev : event) : Prop :=
  match ev with
  | EvPrint _ => True
  | EvHttp r => exists record, In record records /\ is_route53_ns record = true
                               /\ r = delete_request zone_id token (cf_id record)
  | _ => False
  end.

Definition requests_of (evs : list event) : list request :=
  omap (fun ev => match ev with EvHttp r => Some r | _ => None end) evs.

(** Events that do not change the Cloudflare zone: anything but an HTTP
    request other than GET. *)
Definition reads_cloudflare_only (ev : event) : Prop :=
  match ev with
  | EvHttp r => req_method r = GET
  | EvCfRecordPost _ _ => False
  | _ => True
  end.

Definition no_route53_call (ev : event) : Prop := is_route53_call ev = false.

(** The cluster holds an empty secret while the environment holds a
    token. *)
Definition empty_secret : Env nat :=
  scripted token_env [] (fun _ _ => inr EmptyString) no_http no_dns EmptyString.



(** The NS records of a zone half-way through the migration. *)
Definition ns_listing : list cf_record :=
  [{| cf_id := "ns-a"; cf_type := "NS"; cf_name := "rinawarptech.com";
      cf_content := "amir.ns.cloudflare.com"; cf_ttl := Some 86400; cf_priority := None |};
   {| cf_id := "ns-b"; cf_type := "NS"; cf_name := "rinawarptech.com";
      cf_content := "ns-769.awsdns-32.net"; cf_ttl := Some 86400; cf_priority := None |};
   {| cf_id := "ns-c"; cf_type := "NS"; cf_name := "rinawarptech.com";
      cf_content := "ns-455.awsdns-56.com"; cf_ttl := Some 86400; cf_priority := None |}].

(** The lookup did not get through: the request raised, or the answer
    carries an HTTP error status. *)
Definition lookup_failed (reply : exc + response) : bool :=
  match reply with
  | inl _ => true
  | inr resp => negb (status_ok resp)
  end.

(** The record setup_cloudflare_redirects.py writes for a subdomain. *)
Definition redirect_record (name type : string) : dns_record :=
  {| dr_type := type; dr_name := name; dr_content := "rinawarptech.com";
     dr_proxied := true; dr_ttl := Some 1 |}.

(** The record cf-dns.py posts. *)
Definition cname_record (record_name target : string) : dns_record :=
  {| dr_type := "CNAME"; dr_name := record_name; dr_content := target;
     dr_proxied := true; dr_ttl := None |}.

(** Cloudflare is unreachable. *)
Definition cloudflare_down : Env nat :=
  scripted token_env [] no_proc no_http no_dns EmptyString.

(** Cloudflare answers the lookup with the one record asked for. *)
Definition zone_filtered : Env nat :=
  scripted token_env [] no_proc
    (fun n _ => inr (listing (if (n =? 0)%nat then [api_record] else [])))
    no_dns EmptyString.

(** The SDK finds the zone and accepts the record. *)
Definition sdk_ready : Env nat :=
  {| environ := token_env;
     argv := ["cf-dns.py"; "cf-token"; "rinawarptech.com"; "docs"; "548iv9i4.up.railway.app"];
     subprocess_run := fun cmd n => (no_proc n cmd, S n);
     requests_send := fun r n => (no_http n r, S n);
     gethostbyname := fun h n => (no_dns h, S n);
     boto3_client := fun _ n => (inr tt, S n);
     change_resource_record_sets := fun _ _ n => (inr tt, S n);
     builtin_input := fun _ n => (inr EmptyString, S n);
     time_sleep := fun _ n => n;
     cf_client := fun _ n => (inr tt, S n);
     cf_zones_get := fun _ n =>
       (inr [sample_record EmptyString "rinawarptech.com" EmptyString], S n);
     cf_dns_records_post := fun _ _ n => (inr tt, S n);
     decode_secret := fun out => inr out;
     certificate_status := fun out => inr out;
     repr_values := fun vs => String.concat ", " vs |}.

(** The requests setup_cloudflare_redirects.py is there to make: the
    lookups of the records and the page rules. *)
Definition is_attempt (r : request) : bool :=
  match req_json r, req_method r with
  | PageRuleBody _, _ => true
  | NoBody, GET => true
  | _, _ => false
  end.

(** The attempts among the events of a run. *)
Definition attempts_of (evs : list event) : list request :=
  List.filter is_attempt (requests_of evs).

Definition page_rule_request (zone_id token pattern target : string) : request :=
  {| req_method := POST;
     req_url := api +:+ "/" +:+ zone_id +:+ "/pagerules";
     req_headers := api_headers token; req_params := [];
     req_json := PageRuleBody
                   {| pr_pattern := pattern;
                      pr_actions := [{| pa_id := "forwarding_url";
                                        pa_url := "https://" +:+ target;
                                        pa_status_code := 301 |}];
                      pr_priority := 1; pr_status := "active" |} |}.

(** The last character of a string, if it has one. *)
Fixpoint last_char (s : string) : option ascii :=
  match s with
  | EmptyString => None
  | String c s' => match last_char s' with
                   | Some d => Some d
                   | None => Some c
                   end
  end.

(** A host label: no dot in it. *)
Definition no_dot (label : string) : bool := negb (PyStr.contains label ".").

(** The zone lookup works and every later request fails. *)
Definition cloudflare_flaky : Env nat :=
  scripted token_env [] no_proc
    (fun n r => if (n =? 1)%nat
                then inr (listing [sample_record EmptyString "rinawarptech.com" EmptyString])
                else no_http n r)
    no_dns EmptyString.

(** The operator declines. *)
Definition declining : Env nat :=
  scripted token_env ["sync_dns_records.py"] no_proc
    (fun n _ => inr (listing (if (n =? 1)%nat
                              then [sample_record "A" "rinawarptech.com" "76.76.21.21"]
                              else [])))
    no_dns "no".

(** * Theorems *)

(** ** Strings *)

Lemma endswith_unfold (s p : string) :
  PyStr.endswith s p =
  if String.eqb s p then true
  else match s with
       | EmptyString => false
       | String _ s' => PyStr.endswith s' p
       end.
Proof. destruct s; reflexivity. Qed.

Lemma endswith_self (p : string) : PyStr.endswith p p = true.
Proof. rewrite endswith_unfold, String.eqb_refl. reflexivity. Qed.

Lemma endswith_app (a p : string) : PyStr.endswith (a +:+ p) p = true.
Proof.
  induction a as [|c a IH].
  - apply endswith_self.
  - rewrite endswith_unfold. change (String c a +:+ p) with (String c (a +:+ p)).
    destruct (String.eqb (String c (a +:+ p)) p); [reflexivity | exact IH].
Qed.

Lemma startswith_dquote_cons (s : string) :
  PyStr.startswith (dquote +:+ s) dquote = true.
Proof. reflexivity. Qed.

Lemma startswith_dquote_app (s t : string) :
  PyStr.startswith s dquote = true -> PyStr.startswith (s +:+ t) dquote = true.
Proof.
  destruct s as [|a s]; [discriminate|].
  change (String a s +:+ t) with (String a (s +:+ t)).
  unfold dquote. cbn [PyStr.startswith]. exact (fun H => H).
Qed.

Lemma app_assoc_dquote (a : string) : (dquote +:+ a) +:+ dquote = dquote +:+ a +:+ dquote.
Proof. reflexivity. Qed.

(** ** Running the monad *)

Section Running.
Context {W : Type} {E : Env W}.

Lemma call_ok {A} (ev : event) (op : W -> (exc + A) * W) (s : @st W) a w' :
  op (world s) = (inr a, w') -> call ev op s = (Ok a, logged s w' [ev]).
Proof. intros H. unfold call. rewrite H. reflexivity. Qed.

Lemma call_raises {A} (ev : event) (op : W -> (exc + A) * W) (s : @st W) e w' :
  op (world s) = (inl e, w') -> call ev op s = (Raise (Exc e), logged s w' [ev]).
Proof. intros H. unfold call. rewrite H. reflexivity. Qed.

Lemma bind_ok {A B} (m : @M W A) (k : A -> @M W B) (s s' : @st W) a :
  m s = (Ok a, s') -> bind m k s = k a s'.
Proof. intros H. unfold bind. rewrite H. reflexivity. Qed.

Lemma bind_raises {A B} (m : @M W A) (k : A -> @M W B) (s s' : @st W) e :
  m s = (Raise e, s') -> bind m k s = (Raise e, s').
Proof. intros H. unfold bind. rewrite H. reflexivity. Qed.

Lemma try_ok {A} (m : @M W A) h (s s' : @st W) a :
  m s = (Ok a, s') -> try_except m h s = (Ok a, s').
Proof. intros H. unfold try_except. rewrite H. reflexivity. Qed.

Lemma try_raises {A} (m : @M W A) h (s s' : @st W) e :
  m s = (Raise e, s') ->
  try_except m h s = match h e with
                     | Some handler => handler s'
                     | None => (Raise e, s')
                     end.
Proof. intros H. unfold try_except. rewrite H. reflexivity. Qed.

Lemma logged_logged (s : @st W) w1 w2 evs1 evs2 :
  logged (logged s w1 evs1) w2 evs2 = logged s w2 (evs1 ++ evs2).
Proof. unfold logged. cbn. rewrite <- app_assoc. reflexivity. Qed.

Lemma print_logged (msg : string) (s : @st W) :
  print msg s = (Ok tt, logged s (world s) [EvPrint msg]).
Proof. reflexivity. Qed.

Lemma print_then {A B} (msg : string) (k : unit -> @M W A) (k2 : A -> @M W B) (s : @st W) :
  bind (bind (print msg) k) k2 s = bind (k tt) k2 (logged s (world s) [EvPrint msg]).
Proof. reflexivity. Qed.

End Running.

(** ** The record converter of sync_dns_records.py *)

Section Converter.
Context {W : Type} {E : Env W}.

Import sync_dns_records.

(** The resolver call inside [resolve_railway_cname], by cases on its
    answer. *)
Lemma resolve_railway_cname_ok (name content : string) (ttl : Z) (s : st) ip w' :
  gethostbyname content (world s) = (inr ip, w') ->
  resolve_railway_cname name content ttl s =
    (Ok (Some {| Action := "UPSERT";
                 ResourceRecordSet := {| rrs_Name := name; rrs_Type := "A"; rrs_TTL := ttl;
                                         rrs_ResourceRecords := [ip] |} |}),
     {| world := w'; trace := trace s ++ [EvResolve content] |}).
Proof.
  intros H. unfold resolve_railway_cname, try_except, bind, call, ret. rewrite H. reflexivity.
Qed.

Lemma resolve_railway_cname_fails (name content : string) (ttl : Z) (s : st) e w' :
  gethostbyname content (world s) = (inl e, w') ->
  resolve_railway_cname name content ttl s =
    (Ok None, {| world := w'; trace := trace s ++ [EvResolve content] |}).
Proof.
  intros H. unfold resolve_railway_cname, try_except, bind, call, ret. rewrite H. reflexivity.
Qed.

(** C4.  A source record of type NS or SOA whose name is the zone apex
    yields no change: the converter returns [None] without any effect,
    and in the conversion loop of [main] the change list, the skipped
    list and the trace are those of the source without that record. *)
Theorem ns_soa_at_apex_dropped (r : cf_record) (zone_name : string) :
  cf_type r = "NS" \/ cf_type r = "SOA" ->
  cf_name r = zone_name ->
  (forall s, cloudflare_to_route53_record r zone_name s = (Ok None, s)) /\
  (zone_name = ZONE_NAME ->
   forall before after r53_records skipped_records s,
     convert_records (before ++ r :: after) r53_records skipped_records s =
     convert_records (before ++ after) r53_records skipped_records s).
Proof.
  intros Ht Hn.
  assert (Hconv : forall z s, cloudflare_to_route53_record r z s = (Ok None, s)).
  { intros z s. unfold cloudflare_to_route53_record.
    destruct Ht as [-> | ->]; reflexivity. }
  split; [apply Hconv|].
  intros _ before.
  assert (Hapex : is_apex_cname r = false).
  { unfold is_apex_cname. destruct Ht as [-> | ->]; reflexivity. }
  induction before as [|x before IH]; intros after acc sk s; simpl.
  - rewrite Hapex. unfold bind. rewrite Hconv. reflexivity.
  - destruct (is_apex_cname x); [apply IH|].
    unfold bind. destruct (cloudflare_to_route53_record x ZONE_NAME s) as [[[c|]| |] s'];
      try reflexivity; apply IH.
Qed.

(** C2 (as amended).  For a TXT record the converter emits one value that
    starts with a double quote and ends with a double quote: content that
    does not start with a quote is put whole between one new pair; content
    that starts with a quote is kept, and gets a closing quote only when
    it does not end with one. *)
Theorem txt_value_quoted (r : cf_record) (zone_name : string) (s : st) :
  cf_type r = "TXT" ->
  exists c v,
    cloudflare_to_route53_record r zone_name s = (Ok (Some c), s)
    /\ rrs_Type (ResourceRecordSet c) = "TXT"
    /\ rrs_ResourceRecords (ResourceRecordSet c) = [v]
    /\ PyStr.startswith v dquote = true
    /\ PyStr.endswith v dquote = true
    /\ (PyStr.startswith (cf_content r) dquote = false ->
        v = dquote +:+ cf_content r +:+ dquote)
    /\ (PyStr.startswith (cf_content r) dquote = true ->
        PyStr.endswith (cf_content r) dquote = true -> v = cf_content r)
    /\ (PyStr.startswith (cf_content r) dquote = true ->
        PyStr.endswith (cf_content r) dquote = false -> v = cf_content r +:+ dquote).
Proof.
  intros Ht. unfold cloudflare_to_route53_record. rewrite Ht.
  cbn [existsb String.eqb Ascii.eqb Bool.eqb orb andb bind ret].
  destruct (PyStr.startswith (cf_content r) dquote) eqn:Hs; cbn [negb].
  - destruct (PyStr.endswith (cf_content r) dquote) eqn:He; cbn [negb].
    all: eexists _, _; split; [reflexivity|];
      cbn [rrs_Type ResourceRecordSet rrs_ResourceRecords].
    + repeat split; congruence.
    + repeat split; try congruence.
      * apply startswith_dquote_app, Hs.
      * apply endswith_app.
  - rewrite <- app_assoc_dquote, endswith_app. cbn [negb].
    eexists _, _; split; [reflexivity|];
      cbn [rrs_Type ResourceRecordSet rrs_ResourceRecords].
    repeat split; try congruence.
    apply endswith_app.
Qed.

(** C1 (as amended).  For a CNAME record whose content contains
    [railway.app] the converter asks the resolver for the target: when it
    answers, the change is an A record whose single value is that address;
    when it fails, the record is emitted as the CNAME it was. *)
Theorem railway_cname_converted (r : cf_record) (zone_name : string) (s : st) :
  cf_type r = "CNAME" ->
  PyStr.contains (cf_content r) "railway.app" = true ->
  let after w' := {| world := w'; trace := trace s ++ [EvResolve (cf_content r)] |} in
  let emitted type value :=
    {| Action := "UPSERT";
       ResourceRecordSet := {| rrs_Name := route53_name (cf_name r) zone_name;
                               rrs_Type := type;
                               rrs_TTL := default 300 (cf_ttl r);
                               rrs_ResourceRecords := [value] |} |} in
  match gethostbyname (cf_content r) (world s) with
  | (inr ip, w') =>
      cloudflare_to_route53_record r zone_name s = (Ok (Some (emitted "A" ip)), after w')
  | (inl _, w') =>
      cloudflare_to_route53_record r zone_name s =
        (Ok (Some (emitted "CNAME" (cf_content r))), after w')
  end.
Proof.
  intros Ht Hc after emitted. unfold cloudflare_to_route53_record.
  rewrite Ht, Hc. cbn [existsb String.eqb Ascii.eqb Bool.eqb orb andb].
  destruct (gethostbyname (cf_content r) (world s)) as [[e|ip] w'] eqn:Hg; unfold bind.
  - erewrite resolve_railway_cname_fails by exact Hg. reflexivity.
  - erewrite resolve_railway_cname_ok by exact Hg. reflexivity.
Qed.

(** The converter never raises, and whatever it emits is an UPSERT. *)
Lemma converter_total (r : cf_record) (zone_name : string) (s : st) :
  exists o s', cloudflare_to_route53_record r zone_name s = (Ok o, s')
               /\ (forall c, o = Some c -> Action c = "UPSERT").
Proof.
  unfold cloudflare_to_route53_record.
  destruct (existsb _ _); [eexists _, _; split; [reflexivity | discriminate]|].
  destruct (String.eqb (cf_type r) "CNAME" && _).
  - unfold bind at 1.
    destruct (gethostbyname (cf_content r) (world s)) as [[e|ip] w'] eqn:Hg.
    + erewrite resolve_railway_cname_fails by exact Hg.
      eexists _, _. split; [reflexivity|]. intros c [= <-]. reflexivity.
    + erewrite resolve_railway_cname_ok by exact Hg.
      eexists _, _. split; [reflexivity|]. intros c [= <-]. reflexivity.
  - unfold bind, ret. eexists _, _. split; [reflexivity|]. intros c [= <-]. reflexivity.
Qed.

(** The conversion loop always ends normally; its skipped list is the
    apex CNAMEs in order, its changes are UPSERTs, and the changes and the
    final state are those of the source with the apex CNAMEs removed. *)
Lemma convert_records_total (cf_records : list cf_record) :
  forall r53_records skipped_records skipped_records' s,
    Forall (fun c => Action c = "UPSERT") r53_records ->
    exists out s',
      convert_records cf_records r53_records skipped_records s =
        (Ok (out, skipped_records ++ List.filter is_apex_cname cf_records), s')
      /\ convert_records (List.filter not_apex_cname cf_records)
           r53_records skipped_records' s = (Ok (out, skipped_records'), s')
      /\ Forall (fun c => Action c = "UPSERT") out.
Proof.
  induction cf_records as [|x l IH]; intros acc sk sk' s Hacc.
  - exists acc, s. cbn. rewrite app_nil_r. auto.
  - cbn [convert_records List.filter]. unfold not_apex_cname at 1.
    destruct (is_apex_cname x) eqn:Hx; cbn [negb].
    + destruct (IH acc (sk ++ [x]) sk' s Hacc) as (out & s' & H1 & H2 & H3).
      exists out, s'. rewrite H1, <- app_assoc. auto.
    + cbn [convert_records]. rewrite Hx. unfold bind.
      destruct (converter_total x ZONE_NAME s) as (o & s1 & -> & Hup).
      destruct o as [c|].
      * assert (Hacc' : Forall (fun c => Action c = "UPSERT") (acc ++ [c])).
        { apply Forall_app. split; [exact Hacc|]. constructor; [|constructor]. auto. }
        destruct (IH (acc ++ [c]) sk sk' s1 Hacc') as (out & s' & H1 & H2 & H3).
        exists out, s'. auto.
      * destruct (IH acc sk sk' s1 Hacc) as (out & s' & H1 & H2 & H3).
        exists out, s'. auto.
Qed.

(** C10.  In [main] every record of type CNAME named as the zone goes to
    [skipped_records] and is left out before conversion, whatever its
    content: the change list and every effect of the loop (the resolver
    calls among them) are those of the source without these records. *)
Theorem apex_cname_skipped (cf_records : list cf_record) (w : W) :
  exists r53_records s',
    run (convert_records cf_records [] []) w =
      (Ok (r53_records, List.filter is_apex_cname cf_records), s')
    /\ run (convert_records (List.filter not_apex_cname cf_records) [] []) w =
         (Ok (r53_records, []), s')
    /\ (forall r, In r cf_records -> cf_type r = "CNAME" -> cf_name r = ZONE_NAME ->
                  In r (List.filter is_apex_cname cf_records))
    /\ (forall r rest r53 skipped s,
           cf_type r = "CNAME" -> cf_name r = ZONE_NAME ->
           convert_records (r :: rest) r53 skipped s =
           convert_records rest r53 (skipped ++ [r]) s).
Proof.
  destruct (convert_records_total cf_records [] [] [] {| world := w; trace := [] |}
              (List.Forall_nil _)) as (out & s' & H1 & H2 & _).
  exists out, s'. unfold run. repeat split; try assumption.
  - intros r Hin Ht Hn. apply filter_In. split; [exact Hin|].
    unfold is_apex_cname. rewrite Ht, Hn. reflexivity.
  - intros r rest r53 skipped s Ht Hn. cbn [convert_records].
    unfold is_apex_cname. rewrite Ht, Hn. reflexivity.
Qed.

End Converter.

(** ** Applying UPSERT changes to a zone *)

Section Zone.

Import route53.

Lemma fold_last_write (cs : list change) (k : string * string) :
  forall acc,
    fold_left (fun acc c => if bool_decide (key_of c = k) then Some (entry_of c) else acc)
      cs acc
    = match last_write cs k with
      | Some e => Some e
      | None => acc
      end.
Proof.
  unfold last_write. induction cs as [|c cs IH]; intros acc; [reflexivity|].
  cbn [fold_left]. rewrite IH, (IH (if bool_decide _ then _ else None)).
  destruct (fold_left _ cs None); [reflexivity|].
  destruct (bool_decide _); reflexivity.
Qed.

(** A list of UPSERTs always applies, and the resulting zone holds, at
    each key, the last entry written for it or else the old one. *)
Lemma apply_upserts (cs : list change) :
  Forall (fun c => Action c = "UPSERT") cs ->
  forall z, exists z',
    apply_changes z cs = Some z'
    /\ forall k, z' !! k = match last_write cs k with
                           | Some e => Some e
                           | None => z !! k
                           end.
Proof.
  induction 1 as [|c cs Hc _ IH]; intros z.
  - exists z. split; reflexivity.
  - cbn [apply_changes]. unfold apply_change. rewrite Hc. cbn [String.eqb Ascii.eqb Bool.eqb].
    destruct (IH (<[key_of c := entry_of c]> z)) as (z' & Hz' & Hlook).
    exists z'. split; [exact Hz'|]. intros k. rewrite Hlook.
    unfold last_write at 2. cbn [fold_left]. rewrite fold_last_write.
    destruct (last_write cs k); [reflexivity|].
    rewrite lookup_insert. destruct (decide (key_of c = k)) as [Heq|Hne].
    + rewrite bool_decide_eq_true_2 by exact Heq. reflexivity.
    + rewrite bool_decide_eq_false_2 by exact Hne. reflexivity.
Qed.

Lemma apply_upserts_twice (cs : list change) :
  Forall (fun c => Action c = "UPSERT") cs ->
  forall z, exists z',
    apply_changes z cs = Some z' /\ apply_changes z' cs = Some z'.
Proof.
  intros Hcs z.
  destruct (apply_upserts cs Hcs z) as (z1 & H1 & L1).
  destruct (apply_upserts cs Hcs z1) as (z2 & H2 & L2).
  exists z1. split; [exact H1|]. rewrite H2. f_equal.
  apply map_eq. intros k. rewrite L2, L1.
  destruct (last_write cs k); reflexivity.
Qed.

End Zone.

Section Reconcile.
Context {W : Type} {E : Env W}.

Import sync_dns_records.

(** C9.  Every change the converter emits, the A record of the CNAME
    conversion included, has Action UPSERT; so the change list [main]
    builds from a source always applies to a zone keyed by (name, type),
    and applying it once more leaves that zone as it is. *)
Theorem reconciliation_idempotent (cf_records : list cf_record) (w : W)
    (z : gmap (string * string) (Z * list string)) :
  (forall r zone_name s,
      match fst (cloudflare_to_route53_record r zone_name s) with
      | Ok (Some c) => Action c = "UPSERT"
      | Ok None => True
      | _ => False
      end)
  /\ exists r53_records skipped_records s' z',
      run (convert_records cf_records [] []) w = (Ok (r53_records, skipped_records), s')
      /\ Forall (fun c => Action c = "UPSERT") r53_records
      /\ route53.apply_changes z r53_records = Some z'
      /\ route53.apply_changes z' r53_records = Some z'.
Proof.
  split.
  - intros r zone_name s.
    destruct (converter_total r zone_name s) as (o & s' & -> & Hup).
    destruct o as [c|]; cbn; auto.
  - destruct (convert_records_total cf_records [] [] [] {| world := w; trace := [] |}
                (List.Forall_nil _)) as (out & s' & H1 & _ & Hup).
    destruct (apply_upserts_twice out Hup z) as (z' & Hz1 & Hz2).
    eexists out, _, s', z'. unfold run. rewrite H1. auto.
Qed.

End Reconcile.

(** ** Batching in [sync_to_route53] *)

Section Batches.
Context {W : Type} {E : Env W}.

Import sync_dns_records.

Lemma slice_length {A} (l : list A) (i : nat) :
  (length (slice l i (i + batch_size)) <= batch_size)%nat.
Proof.
  unfold slice. replace (i + batch_size - i)%nat with batch_size by lia.
  rewrite length_take. lia.
Qed.

Lemma concat_range_go {A} (l : list A) :
  forall fuel i,
    (length l - i <= fuel)%nat ->
    concat (map (fun i => slice l i (i + batch_size))
              (range_go fuel i (length l) batch_size)) = drop i l.
Proof.
  induction fuel as [|fuel IH]; intros i Hfuel.
  - cbn. symmetry. apply drop_ge. lia.
  - cbn [range_go]. destruct (i <? length l)%nat eqn:Hi.
    + apply Nat.ltb_lt in Hi. cbn [map concat]. rewrite IH by (unfold batch_size; lia).
      unfold slice. replace (i + batch_size - i)%nat with batch_size by lia.
      rewrite <- (drop_drop l batch_size i). apply take_drop.
    + apply Nat.ltb_ge in Hi. cbn. symmetry. apply drop_ge. lia.
Qed.

Lemma batches_concat (records : list change) : concat (batches_of records) = records.
Proof. unfold batches_of, range. rewrite concat_range_go by lia. reflexivity. Qed.

Lemma batches_bounded (records : list change) :
  Forall (fun batch => (length batch <= 100)%nat) (batches_of records).
Proof.
  unfold batches_of. apply Forall_map, Forall_forall. intros i _. apply slice_length.
Qed.

(** The [for batch in batches:] loop against a service that accepts every
    call: one call per batch, in order. *)
Lemma for_each_batches (zone_id : string) (batches : list (list change)) :
  (forall batch w, fst (change_resource_record_sets zone_id batch w) = inr tt) ->
  forall s, exists w',
    for_each batches (fun batch =>
      call (EvChangeRRS zone_id batch) (change_resource_record_sets zone_id batch)) s
    = (Ok tt, {| world := w'; trace := trace s ++ map (EvChangeRRS zone_id) batches |}).
Proof.
  intros Hok. induction batches as [|b bs IH]; intros s.
  - exists (world s). cbn. rewrite app_nil_r. destruct s; reflexivity.
  - cbn [for_each]. unfold bind at 1, call at 1.
    specialize (Hok b (world s)).
    destruct (change_resource_record_sets zone_id b (world s)) as [r w1].
    cbn in Hok. subst r.
    destruct (IH {| world := w1; trace := trace s ++ [EvChangeRRS zone_id b] |}) as (w' & ->).
    exists w'. cbn [trace map]. rewrite <- app_assoc. reflexivity.
Qed.

Lemma sync_to_route53_run (records : list change) (zone_id : string) (s : st) :
  fst (boto3_client "route53" (world s)) = inr tt ->
  (forall batch w, fst (change_resource_record_sets zone_id batch w) = inr tt) ->
  exists w',
    sync_to_route53 records zone_id s =
    (Ok tt, {| world := w';
               trace := trace s ++ EvBotoClient "route53"
                                   :: map (EvChangeRRS zone_id) (batches_of records) |}).
Proof.
  intros Hclient Hok. unfold sync_to_route53, bind at 1, call at 1.
  destruct (boto3_client "route53" (world s)) as [r w1]. cbn in Hclient. subst r.
  destruct (for_each_batches zone_id (batches_of records) Hok
              {| world := w1; trace := trace s ++ [EvBotoClient "route53"] |}) as (w' & ->).
  exists w'. cbn [trace]. rewrite <- app_assoc. reflexivity.
Qed.

(** C8.  [sync_to_route53] cuts the change list into consecutive batches
    of at most 100 changes whose concatenation is the list itself, and,
    the service accepting the calls, issues exactly one
    [change_resource_record_sets] call per batch, in order. *)
Theorem sync_to_route53_batches (records : list change) (zone_id : string) (s : st) :
  fst (boto3_client "route53" (world s)) = inr tt ->
  (forall batch w, fst (change_resource_record_sets zone_id batch w) = inr tt) ->
  concat (batches_of records) = records
  /\ Forall (fun batch => (length batch <= 100)%nat) (batches_of records)
  /\ fst (sync_to_route53 records zone_id s) = Ok tt
  /\ trace (snd (sync_to_route53 records zone_id s)) =
       trace s ++ EvBotoClient "route53" :: map (EvChangeRRS zone_id) (batches_of records).
Proof.
  intros Hclient Hok.
  split; [apply batches_concat|]. split; [apply batches_bounded|].
  destruct (sync_to_route53_run records zone_id s Hclient Hok) as (w' & ->).
  split; reflexivity.
Qed.

End Batches.

(** ** Credential lookup *)

Section Credentials.
Context {W : Type} {E : Env W}.

Import sync_dns_records.

(** C7 (as amended).  [get_cloudflare_token] first runs [kubectl get
    secret]; when that command exits with an error (CalledProcessError)
    the function returns the CLOUDFLARE_API_TOKEN environment variable,
    when it succeeds the decoded secret is returned, and an exception of
    another class raised by the call is not caught. *)
Theorem token_fallback (s : st) :
  let after w' := {| world := w'; trace := trace s ++ [EvRun kubectl_get_secret] |} in
  match subprocess_run kubectl_get_secret (world s) with
  | (inl e, w') =>
      (exc_cls e = CalledProcessError ->
       get_cloudflare_token s = (Ok (environ !! "CLOUDFLARE_API_TOKEN"), after w'))
      /\ (exc_cls e <> CalledProcessError ->
          get_cloudflare_token s = (Raise (Exc e), after w'))
  | (inr stdout, w') =>
      forall token, decode_secret stdout = inr token ->
                    get_cloudflare_token s = (Ok (Some token), after w')
  end.
Proof.
  intros after. unfold get_cloudflare_token.
  destruct (subprocess_run kubectl_get_secret (world s)) as [[e|stdout] w'] eqn:Hrun.
  - pose proof (call_raises (EvRun kubectl_get_secret) _ s e w' Hrun) as Hcall.
    split; intros Hc.
    + erewrite try_raises by (apply bind_raises, Hcall).
      unfold except_class. rewrite Hc. reflexivity.
    + erewrite try_raises by (apply bind_raises, Hcall).
      unfold except_class. destruct (exc_cls e); cbn [exc_class_eqb]; try reflexivity.
      exfalso. apply Hc. reflexivity.
  - intros token Hd.
    pose proof (call_ok (EvRun kubectl_get_secret) _ s stdout w' Hrun) as Hcall.
    apply try_ok. rewrite (bind_ok _ _ _ _ _ Hcall).
    unfold bind, lift_res. rewrite Hd. reflexivity.
Qed.

End Credentials.

(** ** The certificate poller of cleanup_dns.py *)

Section Poller.
Context {W : Type} {E : Env W}.

Import cleanup_dns.

(** One turn on a status that is neither ISSUED nor FAILED: the status is
    printed, the loop waits 30 seconds and goes on. *)
Lemma poll_once_pending (s : @st W) stdout status w' :
  subprocess_run describe_certificate (world s) = (inr stdout, w') ->
  certificate_status stdout = inr status ->
  status <> "ISSUED" -> status <> "FAILED" ->
  poll_once s =
    (Ok Continue,
     logged s (time_sleep 30 w')
       [EvRun describe_certificate;
        EvPrint (nl +:+ "Certificate status: " +:+ status);
        EvPrint "Checking again in 30 seconds...";
        EvSleep 30]).
Proof.
  intros Hrun Hst Hi Hf. unfold poll_once. apply try_ok.
  rewrite (bind_ok _ _ _ _ _ (call_ok (EvRun describe_certificate) _ s stdout w' Hrun)).
  rewrite Hst. cbn [lift_res]. unfold bind at 1. cbn [ret]. unfold bind at 1. cbn [print].
  apply String.eqb_neq in Hi, Hf. rewrite Hi, Hf.
  unfold bind, print, sleep, ret, logged. cbn [world trace].
  rewrite <- !app_assoc. reflexivity.
Qed.

Lemma observations_app (tr1 tr2 : list event) :
  observations (tr1 ++ tr2) = (observations tr1 + observations tr2)%nat.
Proof. unfold observations. rewrite List.filter_app, length_app. reflexivity. Qed.

Lemma waits_app (tr1 tr2 : list event) :
  waits (tr1 ++ tr2) = (waits tr1 + waits tr2)%nat.
Proof. unfold waits. rewrite List.filter_app, length_app. reflexivity. Qed.

End Poller.

(** Against a feed that only ever shows non-terminal statuses the loop is
    still running after any number of turns, each turn being one
    observation and one wait. *)
Lemma poll_certificate_pending (feed : nat -> exc + string) :
  (forall n, exists status,
      feed n = inr status /\ status <> "ISSUED" /\ status <> "FAILED") ->
  forall fuel (s : @st nat),
  exists s',
    cleanup_dns.poll_certificate (E := feed_world feed) fuel s = (OutOfFuel, s')
    /\ observations (trace s') = (observations (trace s) + fuel)%nat
    /\ waits (trace s') = (waits (trace s) + fuel)%nat.
Proof.
  intros Hfeed. induction fuel as [|fuel IH]; intros s.
  - exists s. cbn. rewrite !Nat.add_0_r. auto.
  - destruct (Hfeed (world s)) as (status & Hst & Hi & Hf).
    unfold cleanup_dns.poll_certificate. cbn [while_true].
    erewrite bind_ok; cycle 1.
    { apply (poll_once_pending (E := feed_world feed) s status status (S (world s)));
        [cbn; rewrite Hst; reflexivity | reflexivity | exact Hi | exact Hf]. }
    destruct (IH (logged s (time_sleep (Env := feed_world feed) 30 (S (world s)))
                    [EvRun describe_certificate;
                     EvPrint (nl +:+ "Certificate status: " +:+ status);
                     EvPrint "Checking again in 30 seconds...";
                     EvSleep 30])) as (s' & Hrun & Hobs & Hwait).
    exists s'. split; [exact Hrun|].
    rewrite Hobs, Hwait. unfold logged. cbn [trace].
    rewrite observations_app, waits_app. cbn.
    rewrite bool_decide_eq_true_2 by reflexivity. cbn. lia.
Qed.

(** One turn of the loop of update_cloudflare_dns.py on a status that is
    neither ISSUED nor FAILED, [time] being unbound as in the text of the
    file: the status and the announcement of the wait are printed, and the
    wait itself raises NameError. *)
Lemma update_poll_once_name_error {W : Type} {E : Env W} (s : @st W) stdout status w' :
  subprocess_run describe_certificate (world s) = (inr stdout, w') ->
  certificate_status stdout = inr status ->
  status <> "ISSUED" -> status <> "FAILED" ->
  update_cloudflare_dns.poll_once update_cloudflare_dns.time_bound s =
    (Raise (Exc (an_exc NameError "name 'time' is not defined")),
     logged s w'
       [EvRun describe_certificate;
        EvPrint ("Certificate status: " +:+ status);
        EvPrint "Checking again in 30 seconds..."]).
Proof.
  intros Hrun Hst Hi Hf. unfold update_cloudflare_dns.poll_once.
  erewrite bind_ok; cycle 1.
  { apply try_ok.
    rewrite (bind_ok _ _ _ _ _ (call_ok (EvRun describe_certificate) _ s stdout w' Hrun)).
    rewrite Hst. cbn [lift_res]. unfold bind at 1. cbn [ret]. unfold bind at 1. cbn [print].
    apply String.eqb_neq in Hi, Hf. rewrite Hi, Hf. reflexivity. }
  cbv beta iota.
  unfold bind, print, update_cloudflare_dns.time_sleep_30, raise, logged, an_exc.
  cbn [world trace update_cloudflare_dns.time_bound].
  change update_cloudflare_dns.time_bound with false. cbv iota.
  rewrite <- !app_assoc. reflexivity.
Qed.

(** C5.  The two certificate polling loops.  The loop of cleanup_dns.py
    does what the claim says: fed PENDING_VALIDATION, PENDING_VALIDATION,
    ISSUED it stops with the success line after exactly 3 status
    observations and 2 waits; fed PENDING_VALIDATION, FAILED it stops with
    the failure line after 2 observations and 1 wait; and while the
    statuses are non-terminal it does not stop, whatever the number of
    turns.  The loop of update_cloudflare_dns.py does not: its file never
    imports [time], so whenever the first status fetched is neither ISSUED
    nor FAILED (as in both sequences of the claim) the loop is left by a
    NameError after exactly 1 observation and no wait, with neither the
    success nor the failure result. *)
Theorem poll_certificate_sequences :
  (forall rest fuel,
      (3 <= fuel)%nat ->
      let out := run (cleanup_dns.poll_certificate
                        (E := feed_world
                                (status_feed [PENDING_VALIDATION; PENDING_VALIDATION; "ISSUED"]
                                   rest)) fuel) 0%nat in
      fst out = Ok tt
      /\ observations (trace (snd out)) = 3%nat
      /\ waits (trace (snd out)) = 2%nat
      /\ last (trace (snd out)) = Some validated_line)
  /\ (forall rest fuel,
        (2 <= fuel)%nat ->
        let out := run (cleanup_dns.poll_certificate
                          (E := feed_world (status_feed [PENDING_VALIDATION; "FAILED"] rest))
                          fuel) 0%nat in
        fst out = Ok tt
        /\ observations (trace (snd out)) = 2%nat
        /\ waits (trace (snd out)) = 1%nat
        /\ last (trace (snd out)) = Some failed_line)
  /\ (forall feed,
        (forall n, exists status,
            feed n = inr status /\ status <> "ISSUED" /\ status <> "FAILED") ->
        forall fuel,
          let out := run (cleanup_dns.poll_certificate (E := feed_world feed) fuel) 0%nat in
          fst out = OutOfFuel
          /\ observations (trace (snd out)) = fuel
          /\ waits (trace (snd out)) = fuel)
  /\ (forall feed status fuel,
        feed 0%nat = inr status -> status <> "ISSUED" -> status <> "FAILED" ->
        (1 <= fuel)%nat ->
        let out := run (update_cloudflare_dns.poll_certificate (E := feed_world feed)
                          update_cloudflare_dns.time_bound fuel) 0%nat in
        fst out = Raise (Exc (an_exc NameError "name 'time' is not defined"))
        /\ observations (trace (snd out)) = 1%nat
        /\ waits (trace (snd out)) = 0%nat).
Proof.
  split; [|split; [|split]].
  - intros rest fuel Hfuel.
    destruct fuel as [|[|[|fuel]]]; try lia.
    vm_compute. auto.
  - intros rest fuel Hfuel.
    destruct fuel as [|[|fuel]]; try lia.
    vm_compute. auto.
  - intros feed Hfeed fuel out. subst out. unfold run.
    destruct (poll_certificate_pending feed Hfeed fuel {| world := 0%nat; trace := [] |})
      as (s' & -> & Hobs & Hwait).
    cbn [fst snd]. rewrite Hobs, Hwait. cbn. auto.
  - intros feed status fuel Hfeed Hi Hf Hfuel out. subst out. unfold run.
    destruct fuel as [|fuel]; [lia|].
    unfold update_cloudflare_dns.poll_certificate. cbn [while_true].
    erewrite bind_raises; cycle 1.
    { apply (update_poll_once_name_error (E := feed_world feed)
               {| world := 0%nat; trace := [] |} status status 1%nat);
        [cbn; rewrite Hfeed; reflexivity | reflexivity | exact Hi | exact Hf]. }
    cbn [fst snd logged trace]. rewrite observations_app, waits_app. cbn.
    rewrite bool_decide_eq_true_2 by reflexivity. auto.
Qed.

(** The loop of update_cloudflare_dns.py has the same turns when [time]
    is bound; when it is not, the first wait raises NameError and the loop
    is left after one observation. *)
Lemma update_cloudflare_dns_poll_with_time (rest : nat -> exc + string) (fuel : nat) :
  (3 <= fuel)%nat ->
  let out := run (update_cloudflare_dns.poll_certificate
                    (E := feed_world
                            (status_feed [PENDING_VALIDATION; PENDING_VALIDATION; "ISSUED"]
                               rest)) true fuel) 0%nat in
  fst out = Ok tt
  /\ observations (trace (snd out)) = 3%nat
  /\ waits (trace (snd out)) = 2%nat.
Proof.
  intros Hfuel. destruct fuel as [|[|[|fuel]]]; try lia. vm_compute. auto.
Qed.

Lemma update_cloudflare_dns_poll_without_time (rest : nat -> exc + string) (fuel : nat) :
  (1 <= fuel)%nat ->
  let out := run (update_cloudflare_dns.poll_certificate
                    (E := feed_world
                            (status_feed [PENDING_VALIDATION; PENDING_VALIDATION; "ISSUED"]
                               rest)) false fuel) 0%nat in
  fst out = Raise (Exc (an_exc NameError "name 'time' is not defined"))
  /\ observations (trace (snd out)) = 1%nat
  /\ waits (trace (snd out)) = 0%nat.
Proof.
  intros Hfuel. destruct fuel as [|fuel]; try lia. vm_compute. auto.
Qed.

(** An MX record carries its priority in front of the target. *)
Example mx_value :
  fst (run (sync_dns_records.cloudflare_to_route53_record (E := dns_down)
              {| cf_id := "f1"; cf_type := "MX"; cf_name := "rinawarptech.com";
                 cf_content := "mx1.improvmx.com"; cf_ttl := None;
                 cf_priority := Some 10 |} "rinawarptech.com") 0%nat)
  = Ok (Some {| Action := "UPSERT";
                ResourceRecordSet :=
                  {| rrs_Name := "rinawarptech.com."; rrs_Type := "MX"; rrs_TTL := 300;
                     rrs_ResourceRecords := ["10 mx1.improvmx.com"] |} |}).
Proof. vm_compute. reflexivity. Qed.

(** ** Create or update *)

Section Upsert.
Context {W : Type} {E : Env W}.

Lemma raise_for_status_ok (r : response) (s : @st W) :
  status_ok r = true -> raise_for_status r s = (Ok tt, s).
Proof.
  unfold status_ok, raise_for_status. intros H.
  destruct ((400 <=? status_code r) && (status_code r <? 600)); [discriminate|reflexivity].
Qed.

(** A request followed by [raise_for_status] and [return response.json()]
    adds exactly that request to the trace, whatever the answer. *)
Lemma send_trace (r : request) (s : @st W) :
  trace (snd ((response <- requests r ;; raise_for_status response ;; ret (json response)) s))
  = trace s ++ [EvHttp r].
Proof.
  unfold bind, requests, call.
  destruct (requests_send r (world s)) as [[e|resp] w']; [reflexivity|].
  unfold raise_for_status. destruct (_ && _); reflexivity.
Qed.

(** C6.  Both [update_dns_record] functions begin with a lookup of the
    target record by name and type: update_cloudflare_dns.py asks the API
    for the records with that name and type, update_cloudfront_dns.py
    lists the zone and takes the first record with that full name and
    type.  When a record is found the next request is a PUT on the found
    record's id with the new record as body; otherwise it is a POST that
    creates the record. *)
Theorem update_or_create (zone_id token : string) (record : dns_record) (s : @st W) :
  (forall resp w1,
      requests_send (lookup_request zone_id token (dr_name record) (dr_type record)) (world s)
        = (inr resp, w1) ->
      status_ok resp = true ->
      trace (snd (update_cloudflare_dns.update_dns_record zone_id token record s)) =
        trace s ++
        [EvHttp (lookup_request zone_id token (dr_name record) (dr_type record));
         EvHttp (match success (json resp), result (json resp) with
                 | true, existing :: _ => put_request zone_id token (cf_id existing) record
                 | _, _ => post_request zone_id token record
                 end)])
  /\ (forall resp w1,
        requests_send (list_request zone_id token) (world s) = (inr resp, w1) ->
        status_ok resp = true ->
        match List.find (fun r => String.eqb (cf_name r) (update_cloudfront_dns.full_name_of record)
                                  && String.eqb (cf_type r) (dr_type record))
                (result (json resp)) with
        | Some existing =>
            cf_id existing <> EmptyString ->
            trace (snd (update_cloudfront_dns.update_dns_record zone_id token record s)) =
              trace s ++
              [EvHttp (list_request zone_id token);
               EvPrint ("Found existing record with ID " +:+ cf_id existing);
               EvHttp (put_request zone_id token (cf_id existing) record)]
        | None =>
            trace (snd (update_cloudfront_dns.update_dns_record zone_id token record s)) =
              trace s ++
              [EvHttp (list_request zone_id token);
               EvPrint "Creating new record";
               EvHttp (post_request zone_id token record)]
        end).
Proof.
  split; intros resp w1 Hget Hok.
  - unfold update_cloudflare_dns.update_dns_record.
    erewrite bind_ok by (apply call_ok; exact Hget).
    erewrite bind_ok by (apply raise_for_status_ok; exact Hok).
    destruct (success (json resp)), (result (json resp)) as [|existing rest];
      rewrite send_trace; unfold logged; cbn [trace]; rewrite <- app_assoc;
      try reflexivity.
  - unfold update_cloudfront_dns.update_dns_record, update_cloudfront_dns.get_dns_records.
    assert (Hlist : (response <- requests (list_request zone_id token) ;;
                     raise_for_status response ;; ret (json response)) s
                    = (Ok (json resp), logged s w1 [EvHttp (list_request zone_id token)])).
    { erewrite bind_ok by (apply call_ok; exact Hget).
      erewrite bind_ok by (apply raise_for_status_ok; exact Hok). reflexivity. }
    unfold list_request, dns_records_url in Hlist.
    erewrite bind_ok by exact Hlist.
    unfold update_cloudfront_dns.find_record_id.
    destruct (List.find _ (result (json resp))) as [existing|]; cbn [fmap option_fmap option_map].
    + intros Hid. unfold truthy_opt, PyStr.truthy.
      apply String.eqb_neq in Hid. rewrite Hid. cbn [negb default].
      rewrite print_then. cbv beta. rewrite send_trace.
      unfold logged. cbn [trace]. rewrite <- !app_assoc. reflexivity.
    + cbn [truthy_opt].
      rewrite print_then. cbv beta. rewrite send_trace.
      unfold logged. cbn [trace]. rewrite <- !app_assoc. reflexivity.
Qed.

End Upsert.

(** ** Exit codes *)

Section ExitCodes.
Context {W : Type} {E : Env W}.

Lemma only_exceptions_ret {A} (a : A) : only_exceptions (W := W) (ret a).
Proof. intros s. exact I. Qed.

Lemma only_exceptions_raise {A} (e : exc) : only_exceptions (W := W) (A := A) (raise (Exc e)).
Proof. intros s. exact I. Qed.

Lemma only_exceptions_print (msg : string) : only_exceptions (W := W) (print msg).
Proof. intros s. exact I. Qed.

Lemma only_exceptions_call {A} (ev : event) (op : W -> (exc + A) * W) :
  only_exceptions (call ev op).
Proof. intros s. unfold call. destruct (op (world s)) as [[e|a] w']; exact I. Qed.

Lemma only_exceptions_lift {A} (r : exc + A) : only_exceptions (W := W) (lift_res r).
Proof. destruct r; intros s; exact I. Qed.

Lemma only_exceptions_bind {A B} (m : @M W A) (k : A -> @M W B) :
  only_exceptions m -> (forall a, only_exceptions (k a)) -> only_exceptions (bind m k).
Proof.
  intros Hm Hk s. unfold bind. specialize (Hm s).
  destruct (m s) as [[a|[c|e]|] s']; cbn in *; try contradiction; try exact I.
  apply Hk.
Qed.

Lemma only_exceptions_for_each {A} (l : list A) (body : A -> @M W unit) :
  (forall x, only_exceptions (body x)) -> only_exceptions (for_each l body).
Proof.
  intros Hb. induction l as [|x l IH]; cbn [for_each].
  - apply only_exceptions_ret.
  - apply only_exceptions_bind; [apply Hb | intros _; exact IH].
Qed.

Lemma only_exceptions_try {A} (m : @M W A) (h : raised -> option (@M W A)) :
  only_exceptions m ->
  (forall e handler, h (Exc e) = Some handler -> only_exceptions handler) ->
  only_exceptions (try_except m h).
Proof.
  intros Hm Hh s. unfold try_except. specialize (Hm s).
  destruct (m s) as [[a|[c|e]|] s']; cbn in *; try contradiction; try exact I.
  destruct (h (Exc e)) as [handler|] eqn:Hhe; [|exact I].
  apply (Hh e handler Hhe).
Qed.

Lemma returns_only_exceptions {A} (m : @M W A) : returns m -> only_exceptions m.
Proof. intros H s. destruct (H s) as (a & s' & ->). exact I. Qed.

(** [try: m except Exception as e: h e] returns normally as soon as the
    body raises nothing but exceptions and the handler returns. *)
Lemma returns_try_Exception {A} (m : @M W A) (h : exc -> @M W A) :
  only_exceptions m -> (forall e, returns (h e)) -> returns (try_except m (except_Exception h)).
Proof.
  intros Hm Hh s. unfold try_except. specialize (Hm s).
  destruct (m s) as [[a|[c|e]|] s']; cbn in *; try contradiction.
  - eauto.
  - apply Hh.
Qed.

Lemma returns_print (msg : string) : returns (W := W) (print msg).
Proof. intros s. eexists _, _. reflexivity. Qed.

Lemma returns_ret {A} (a : A) : returns (W := W) (ret a).
Proof. intros s. eexists _, _. reflexivity. Qed.

Lemma returns_bind {A B} (m : @M W A) (k : A -> @M W B) :
  returns m -> (forall a, returns (k a)) -> returns (bind m k).
Proof.
  intros Hm Hk s. destruct (Hm s) as (a & s' & Ha). unfold bind. rewrite Ha. apply Hk.
Qed.

Lemma returns_for_each {A} (l : list A) (body : A -> @M W unit) :
  (forall x, returns (body x)) -> returns (for_each l body).
Proof.
  intros Hb. induction l as [|x l IH]; cbn [for_each].
  - apply returns_ret.
  - apply returns_bind; [apply Hb | intros _; exact IH].
Qed.

End ExitCodes.

Ltac only_exceptions_step :=
  lazymatch goal with
  | |- only_exceptions (bind _ _) => apply only_exceptions_bind; [|intros ?]
  | |- only_exceptions (ret _) => apply only_exceptions_ret
  | |- only_exceptions (print _) => apply only_exceptions_print
  | |- only_exceptions (call _ _) => apply only_exceptions_call
  | |- only_exceptions (requests _) => apply only_exceptions_call
  | |- only_exceptions (lift_res _) => apply only_exceptions_lift
  | |- only_exceptions (raise (Exc _)) => apply only_exceptions_raise
  | |- only_exceptions (raise_Exception _) => apply only_exceptions_raise
  | |- only_exceptions (for_each _ _) => apply only_exceptions_for_each; intros ?
  | |- only_exceptions (raise_for_status ?r) =>
      unfold raise_for_status; destruct (_ && _)
  | |- only_exceptions (if ?b then _ else _) => destruct b
  | |- only_exceptions (match ?x with _ => _ end) => destruct x
  end.

Ltac only_exceptions_tac := repeat only_exceptions_step.

Section ExitCodesOfScripts.
Context {W : Type} {E : Env W}.

Lemma get_cloudflare_token_only_exceptions :
  only_exceptions (W := W) sync_dns_records.get_cloudflare_token.
Proof.
  unfold sync_dns_records.get_cloudflare_token.
  apply only_exceptions_try; [only_exceptions_tac|].
  intros e handler. unfold except_class.
  destruct (exc_class_eqb _ _); [|discriminate].
  intros [= <-]. apply only_exceptions_ret.
Qed.

Lemma convert_records_returns cf_records r53_records skipped_records :
  returns (W := W) (sync_dns_records.convert_records cf_records r53_records skipped_records).
Proof.
  revert r53_records skipped_records.
  induction cf_records as [|x l IH]; intros acc sk s; cbn [sync_dns_records.convert_records].
  - eexists _, _. reflexivity.
  - destruct (sync_dns_records.is_apex_cname x); [apply IH|].
    destruct (converter_total x sync_dns_records.ZONE_NAME s) as (o & s1 & Ho & _).
    rewrite (bind_ok _ _ _ _ _ Ho). destruct o; apply IH.
Qed.

Lemma sync_main_body_only_exceptions :
  only_exceptions (W := W) sync_dns_records.main_body.
Proof.
  unfold sync_dns_records.main_body.
  apply only_exceptions_bind; [apply get_cloudflare_token_only_exceptions|].
  intros token. destruct (negb (truthy_opt token)); [apply only_exceptions_raise|].
  apply only_exceptions_bind; [apply only_exceptions_print|]. intros _.
  apply only_exceptions_bind.
  { unfold sync_dns_records.get_cloudflare_records. only_exceptions_tac. }
  intros cf_records.
  do 3 (apply only_exceptions_bind; [only_exceptions_tac|]; intros _).
  apply only_exceptions_bind;
    [apply returns_only_exceptions, convert_records_returns|].
  intros [r53_records skipped_records].
  unfold sync_dns_records.sync_to_route53.
  only_exceptions_tac.
Qed.

(** sync_dns_records.py always ends with exit code 0: whatever is raised
    in the [try] block of [main] is printed as [Error: ...]. *)
Lemma sync_main_returns : returns (W := W) sync_dns_records.main.
Proof.
  apply returns_try_Exception; [apply sync_main_body_only_exceptions|].
  intros e. apply returns_print.
Qed.

(** Once the client object is there, [add_cname_record] of cf-dns.py
    catches every failure. *)
Lemma add_cname_record_returns (token zone_name record_name target : string) (s : @st W) :
  fst (cf_client token (world s)) = inr tt ->
  exists ok s', cf_dns.add_cname_record token zone_name record_name target s = (Ok ok, s').
Proof.
  intros Hclient. unfold cf_dns.add_cname_record.
  destruct (cf_client token (world s)) as [r w1] eqn:Hc. cbn in Hclient. subst r.
  rewrite (bind_ok _ _ _ _ _ (call_ok (EvCfClient token) _ s tt w1 Hc)).
  apply returns_bind.
  - apply returns_try_Exception.
    + only_exceptions_tac.
    + intros e. apply returns_bind; [apply returns_print | intros _; apply returns_ret].
  - intros [zone_id|]; [|apply returns_ret].
    apply returns_try_Exception.
    + only_exceptions_tac.
    + intros e. apply returns_bind; [apply returns_print | intros _; apply returns_ret].
Qed.

(** In setup_cloudflare_redirects.py everything after the zone lookup is
    inside a [try] of its own. *)
Lemma setup_after_zone_returns (zone_id token : string) :
  returns (W := W)
    (print (nl +:+ "Updating DNS records...") ;;
     for_each ["api"; "docs"] (fun subdomain =>
       print (nl +:+ "Updating " +:+ subdomain +:+ ".rinawarptech.com...") ;;
       try_except
         (result <- setup_cloudflare_redirects.update_dns_record zone_id token subdomain "CNAME" ;;
          if success result
          then print (check_mark +:+ " Successfully updated DNS record")
          else print (cross_mark +:+ " Failed to update DNS record") ;;
               print ("Error: " +:+ errors result))
         (except_Exception (fun e =>
            print (cross_mark +:+ " Error updating DNS record: " +:+ exc_msg e)))) ;;
     print (nl +:+ "Setting up page rules...") ;;
     for_each setup_cloudflare_redirects.redirects (fun redirect =>
       print (nl +:+ "Creating page rule for " +:+ fst redirect +:+ "...") ;;
       try_except
         (result <- setup_cloudflare_redirects.create_page_rule zone_id token (fst redirect)
                      [{| pa_id := "forwarding_url";
                          pa_url := "https://" +:+ snd redirect;
                          pa_status_code := 301 |}] ;;
          if success result
          then print (check_mark +:+ " Successfully created page rule")
          else print (cross_mark +:+ " Failed to create page rule") ;;
               print ("Error: " +:+ errors result))
         (except_Exception (fun e =>
            print (cross_mark +:+ " Error creating page rule: " +:+ exc_msg e)))) ;;
     print (nl +:+ "Setup complete!")).
Proof.
  apply returns_bind; [apply returns_print | intros _].
  apply returns_bind.
  { apply returns_for_each. intros subdomain.
    apply returns_bind; [apply returns_print | intros _].
    apply returns_try_Exception; [|intros e; apply returns_print].
    unfold setup_cloudflare_redirects.update_dns_record. only_exceptions_tac. }
  intros _. apply returns_bind; [apply returns_print | intros _].
  apply returns_bind; [|intros _; apply returns_print].
  apply returns_for_each. intros redirect.
  apply returns_bind; [apply returns_print | intros _].
  apply returns_try_Exception; [|intros e; apply returns_print].
  unfold setup_cloudflare_redirects.create_page_rule. only_exceptions_tac.
Qed.

End ExitCodesOfScripts.

Section ExitCodeClaim.
Context {W : Type} {E : Env W}.

(** C3 (as amended).  cf-dns.py exits with code 1 when its argument count
    is wrong and with 0 once its client object is built, whatever fails
    later.  sync_dns_records.py always exits with 0: every exception
    raised in [main] is caught and printed as [Error: ...].
    setup_cloudflare_redirects.py exits with 0 when no token is found and
    whenever the zone id was obtained, later failures being caught and
    printed; but an exception raised by [get_cloudflare_token] or by
    [get_zone_id] (zone not found, HTTP error) is not caught by [main]. *)
Theorem exit_codes :
  (forall w, process_exit SyncDnsRecords w = Some 0)
  /\ (forall w e s1,
        sync_dns_records.main_body {| world := w; trace := [] |} = (Raise (Exc e), s1) ->
        run sync_dns_records.main w =
          (Ok tt, logged s1 (world s1) [EvPrint ("Error: " +:+ exc_msg e)]))
  /\ (forall w,
        malformed_invocation CfDns = true ->
        run cf_dns.main w = (Raise (SystemExit 1), {| world := w; trace := usage_lines |})
        /\ process_exit CfDns w = Some 1)
  /\ (forall w prog token zone record target,
        argv = [prog; token; zone; record; target] ->
        fst (cf_client token w) = inr tt ->
        process_exit CfDns w = Some 0)
  /\ (forall (s : @st W) token s1,
        setup_cloudflare_redirects.get_cloudflare_token s = (Ok token, s1) ->
        truthy_opt token = false ->
        setup_cloudflare_redirects.main s =
          (Ok tt, logged s1 (world s1) [EvPrint "Error: Cloudflare API token not found"]))
  /\ (forall (s : @st W) e s1,
        setup_cloudflare_redirects.get_cloudflare_token s = (Raise e, s1) ->
        setup_cloudflare_redirects.main s = (Raise e, s1))
  /\ (forall (s : @st W) token s1 e s2,
        setup_cloudflare_redirects.get_cloudflare_token s = (Ok token, s1) ->
        truthy_opt token = true ->
        setup_cloudflare_redirects.get_zone_id (default EmptyString token)
          (logged s1 (world s1) [EvPrint "Getting zone ID..."]) = (Raise e, s2) ->
        setup_cloudflare_redirects.main s = (Raise e, s2))
  /\ (forall (s : @st W) token s1 zone_id s2,
        setup_cloudflare_redirects.get_cloudflare_token s = (Ok token, s1) ->
        truthy_opt token = true ->
        setup_cloudflare_redirects.get_zone_id (default EmptyString token)
          (logged s1 (world s1) [EvPrint "Getting zone ID..."]) = (Ok zone_id, s2) ->
        exists s', setup_cloudflare_redirects.main s = (Ok tt, s')).
Proof.
  repeat apply conj.
  - intros w. unfold process_exit, run. cbn [script_main].
    destruct (sync_main_returns {| world := w; trace := [] |}) as ([] & s' & ->).
    reflexivity.
  - intros w e s1 Hbody. unfold run, sync_dns_records.main.
    rewrite (try_raises _ _ _ _ _ Hbody). reflexivity.
  - intros w Hbad. unfold process_exit, run. cbn [script_main malformed_invocation] in *.
    unfold cf_dns.main.
    destruct argv as [|a0 [|a1 [|a2 [|a3 [|a4 [|a5 rest]]]]]];
      try discriminate Hbad; split; reflexivity.
  - intros w prog token zone record target Hargv Hclient.
    unfold process_exit, run. cbn [script_main]. unfold cf_dns.main. rewrite Hargv.
    destruct (add_cname_record_returns token zone record target
                {| world := w; trace := [] |} Hclient) as (ok & s' & Hrun).
    rewrite (bind_ok _ _ _ _ _ Hrun). reflexivity.
  - intros s token s1 Htok Hfalsy. unfold setup_cloudflare_redirects.main.
    rewrite (bind_ok _ _ _ _ _ Htok), Hfalsy. reflexivity.
  - intros s e s1 Htok. unfold setup_cloudflare_redirects.main.
    apply bind_raises. exact Htok.
  - intros s token s1 e s2 Htok Htruthy Hzone. unfold setup_cloudflare_redirects.main.
    rewrite (bind_ok _ _ _ _ _ Htok), Htruthy. cbn [negb].
    rewrite (bind_ok _ _ _ _ _ (print_logged _ _)).
    apply bind_raises. exact Hzone.
  - intros s token s1 zone_id s2 Htok Htruthy Hzone. unfold setup_cloudflare_redirects.main.
    rewrite (bind_ok _ _ _ _ _ Htok), Htruthy. cbn [negb].
    rewrite (bind_ok _ _ _ _ _ (print_logged _ _)).
    rewrite (bind_ok _ _ _ _ _ Hzone).
    destruct (setup_after_zone_returns zone_id (default EmptyString token) s2)
      as ([] & s' & Hrest).
    exists s'. exact Hrest.
Qed.

End ExitCodeClaim.

Lemma ns_soa_at_apex_dropped_witness :
  sync_dns_records.cloudflare_to_route53_record (E := dns_down)
    (sample_record "NS" "rinawarptech.com" "ns1.cloudflare.com") "rinawarptech.com"
    {| world := 0%nat; trace := [] |}
  = (Ok None, {| world := 0%nat; trace := [] |}).
Proof.
  apply (ns_soa_at_apex_dropped (E := dns_down)
           (sample_record "NS" "rinawarptech.com" "ns1.cloudflare.com") "rinawarptech.com").
  - left. reflexivity.
  - reflexivity.
Defined.

(** C2, as stated, fails: for the content made of abc and a closing
    double quote, the value is that content behind a new opening quote and
    before a second closing quote, so it ends with two double quotes. *)
Lemma txt_value_not_quoted_once :
  fst (run (sync_dns_records.cloudflare_to_route53_record (E := dns_down)
              (sample_record "TXT" "rinawarptech.com" ("abc" +:+ dquote))
              "rinawarptech.com") 0%nat)
  = Ok (Some {| Action := "UPSERT";
                ResourceRecordSet :=
                  {| rrs_Name := "rinawarptech.com."; rrs_Type := "TXT"; rrs_TTL := 300;
                     rrs_ResourceRecords := [dquote +:+ "abc" +:+ dquote +:+ dquote] |} |})
  /\ ~ quoted_once (dquote +:+ "abc" +:+ dquote +:+ dquote).
Proof.
  split; [vm_compute; reflexivity|].
  intros [inner (Hv & _ & He)].
  injection Hv as Hv.
  do 4 (destruct inner as [|a inner]; [discriminate Hv|];
        injection Hv as Ha Hv; subst a).
  destruct inner as [|a inner]; [discriminate He|].
  destruct inner; discriminate Hv.
Qed.

Lemma txt_value_quoted_witness :
  exists c v,
    sync_dns_records.cloudflare_to_route53_record (E := dns_down)
      (sample_record "TXT" "rinawarptech.com" "v=spf1 -all") "rinawarptech.com"
      {| world := 0%nat; trace := [] |}
    = (Ok (Some c), {| world := 0%nat; trace := [] |})
    /\ rrs_ResourceRecords (ResourceRecordSet c) = [v]
    /\ v = dquote +:+ "v=spf1 -all" +:+ dquote.
Proof.
  destruct (txt_value_quoted (E := dns_down)
              (sample_record "TXT" "rinawarptech.com" "v=spf1 -all") "rinawarptech.com"
              {| world := 0%nat; trace := [] |} eq_refl)
    as (c & v & Hrun & _ & Hv & _ & _ & Hwrap & _).
  exists c, v. split; [exact Hrun|]. split; [exact Hv|].
  apply Hwrap. reflexivity.
Defined.

(** C1, as stated, fails: when the resolver fails the converter does not
    return [None]; the record comes out as a CNAME change. *)
Lemma railway_cname_kept_on_failure :
  fst (run (sync_dns_records.cloudflare_to_route53_record (E := dns_down)
              (sample_record "CNAME" "docs.rinawarptech.com" "548iv9i4.up.railway.app")
              "rinawarptech.com") 0%nat)
  = Ok (Some {| Action := "UPSERT";
                ResourceRecordSet :=
                  {| rrs_Name := "docs.rinawarptech.com."; rrs_Type := "CNAME";
                     rrs_TTL := 300;
                     rrs_ResourceRecords := ["548iv9i4.up.railway.app"] |} |})
  /\ fst (run (sync_dns_records.cloudflare_to_route53_record (E := dns_down)
                 (sample_record "CNAME" "docs.rinawarptech.com" "548iv9i4.up.railway.app")
                 "rinawarptech.com") 0%nat)
     <> Ok None.
Proof. split; [vm_compute; reflexivity | vm_compute; discriminate]. Qed.

Lemma railway_cname_converted_witness :
  sync_dns_records.cloudflare_to_route53_record (E := dns_up "35.212.94.98")
    (sample_record "CNAME" "docs.rinawarptech.com" "548iv9i4.up.railway.app")
    "rinawarptech.com" {| world := 0%nat; trace := [] |}
  = (Ok (Some {| Action := "UPSERT";
                 ResourceRecordSet :=
                   {| rrs_Name := "docs.rinawarptech.com."; rrs_Type := "A";
                      rrs_TTL := 300; rrs_ResourceRecords := ["35.212.94.98"] |} |}),
     {| world := 1%nat; trace := [EvResolve "548iv9i4.up.railway.app"] |}).
Proof.
  exact (railway_cname_converted (E := dns_up "35.212.94.98")
           (sample_record "CNAME" "docs.rinawarptech.com" "548iv9i4.up.railway.app")
           "rinawarptech.com" {| world := 0%nat; trace := [] |} eq_refl eq_refl).
Defined.

Lemma apex_cname_skipped_witness :
  let apex := sample_record "CNAME" "rinawarptech.com" "548iv9i4.up.railway.app" in
  sync_dns_records.convert_records (E := dns_up "35.212.94.98") [apex] [] []
    {| world := 0%nat; trace := [] |}
  = (Ok ([], [apex]), {| world := 0%nat; trace := [] |}).
Proof.
  intros apex.
  destruct (apex_cname_skipped (E := dns_up "35.212.94.98") [apex] 0%nat)
    as (r53 & s' & _ & _ & _ & Hskip).
  rewrite (Hskip apex [] [] [] {| world := 0%nat; trace := [] |} eq_refl eq_refl).
  reflexivity.
Defined.

Lemma sync_to_route53_batches_witness :
  let records := map sample_change (seq 0 250) in
  map (@length change) (sync_dns_records.batches_of records) = [100; 100; 50]%nat
  /\ fst (sync_dns_records.sync_to_route53 (E := dns_down) records "Z0713202NJO49ZHK5ER1"
            {| world := 0%nat; trace := [] |}) = Ok tt.
Proof.
  intros records.
  destruct (sync_to_route53_batches (E := dns_down) records "Z0713202NJO49ZHK5ER1"
              {| world := 0%nat; trace := [] |} eq_refl (fun _ _ => eq_refl))
    as (_ & _ & Hok & _).
  split; [vm_compute; reflexivity | exact Hok].
Defined.

(** C7, as stated, fails: with [kubectl] not installed the call raises
    FileNotFoundError, and the function raises it too although the
    environment holds a token. *)
Lemma token_not_fallback_without_kubectl :
  environ (Env := kubectl_missing) !! "CLOUDFLARE_API_TOKEN" = Some "cf-token-from-env"
  /\ fst (run (sync_dns_records.get_cloudflare_token (E := kubectl_missing)) 0%nat)
     = Raise (Exc (an_exc FileNotFoundError
                     "[Errno 2] No such file or directory: 'kubectl'")).
Proof. split; vm_compute; reflexivity. Qed.

Lemma token_fallback_witness :
  sync_dns_records.get_cloudflare_token (E := kubectl_failing)
    {| world := 0%nat; trace := [] |}
  = (Ok (Some "cf-token-from-env"),
     {| world := 1%nat; trace := [EvRun kubectl_get_secret] |}).
Proof.
  exact (proj1 (token_fallback (E := kubectl_failing) {| world := 0%nat; trace := [] |})
           eq_refl).
Defined.

Lemma poll_certificate_sequences_witness :
  fst (run (cleanup_dns.poll_certificate
              (E := feed_world
                      (status_feed [PENDING_VALIDATION; PENDING_VALIDATION; "ISSUED"]
                         (fun _ => inr PENDING_VALIDATION))) 5) 0%nat) = Ok tt
  /\ fst (run (cleanup_dns.poll_certificate
                 (E := feed_world (fun _ => inr PENDING_VALIDATION)) 40) 0%nat) = OutOfFuel
  /\ (let out := run (update_cloudflare_dns.poll_certificate
                       (E := feed_world
                               (status_feed
                                  [PENDING_VALIDATION; PENDING_VALIDATION; "ISSUED"]
                                  (fun _ => inr PENDING_VALIDATION)))
                       update_cloudflare_dns.time_bound 5) 0%nat in
      fst out = Raise (Exc (an_exc NameError "name 'time' is not defined"))
      /\ observations (trace (snd out)) = 1%nat
      /\ waits (trace (snd out)) = 0%nat).
Proof.
  destruct poll_certificate_sequences as (Hissued & _ & Hpending & Hunbound).
  split; [|split].
  - apply (Hissued (fun _ => inr PENDING_VALIDATION) 5%nat). lia.
  - apply (Hpending (fun _ => inr PENDING_VALIDATION)).
    intros n. exists PENDING_VALIDATION. repeat split; discriminate.
  - apply (Hunbound _ PENDING_VALIDATION 5%nat);
      [reflexivity | discriminate | discriminate | lia].
Defined.

(** C3, as stated, fails: setup_cloudflare_redirects.py is invoked
    correctly (it takes no arguments), Cloudflare answers that there is no
    such zone, and the exception of [get_zone_id] leaves [main]: the
    process ends with exit code 1, while sync_dns_records.py in the same
    world ends with 0. *)
Lemma zone_not_found_exits_nonzero :
  malformed_invocation (E := zone_missing) SetupCloudflareRedirects = false
  /\ fst (run (setup_cloudflare_redirects.main (E := zone_missing)) 0%nat)
     = Raise (Exc (an_exc Exception "Zone not found"))
  /\ process_exit (E := zone_missing) SetupCloudflareRedirects 0%nat = Some 1
  /\ process_exit (E := zone_missing) SyncDnsRecords 0%nat = Some 0.
Proof. repeat split; vm_compute; reflexivity. Qed.

Lemma exit_codes_witness :
  setup_cloudflare_redirects.main (E := zone_missing) {| world := 0%nat; trace := [] |}
  = (Raise (Exc (an_exc Exception "Zone not found")),
     {| world := 2%nat;
        trace := [EvRun kubectl_get_secret; EvPrint "Getting zone ID...";
                  EvHttp {| req_method := GET; req_url := api;
                            req_headers := api_headers "cf-token-from-env";
                            req_params := [("name", "rinawarptech.com")];
                            req_json := NoBody |}] |}).
Proof.
  destruct (exit_codes (E := zone_missing)) as (_ & _ & _ & _ & _ & _ & Hzone & _).
  apply (Hzone {| world := 0%nat; trace := [] |} (Some "cf-token-from-env")
           {| world := 1%nat; trace := [EvRun kubectl_get_secret] |}).
  - vm_compute. reflexivity.
  - reflexivity.
  - vm_compute. reflexivity.
Defined.

Lemma update_or_create_witness :
  trace (snd (update_cloudfront_dns.update_dns_record (E := zone_with_api)
                "023e105f4ecef8ad9ca31a8372d0c353" "cf-token-from-env" cloudfront_record
                {| world := 0%nat; trace := [] |}))
  = [EvHttp (list_request "023e105f4ecef8ad9ca31a8372d0c353" "cf-token-from-env");
     EvPrint "Found existing record with ID 9a7806061c88ada191ed06f989cc3dac";
     EvHttp (put_request "023e105f4ecef8ad9ca31a8372d0c353" "cf-token-from-env"
               "9a7806061c88ada191ed06f989cc3dac" cloudfront_record)].
Proof.
  pose proof (proj2 (update_or_create (E := zone_with_api)
                       "023e105f4ecef8ad9ca31a8372d0c353" "cf-token-from-env"
                       cloudfront_record {| world := 0%nat; trace := [] |})
                (listing [sample_record "A" "rinawarptech.com" "76.76.21.21"; api_record])
                1%nat eq_refl eq_refl) as H.
  hnf in H. apply H. discriminate.
Defined.

(** * Further properties of the scripts *)

(** ** The converter, record type by record type *)

Section ConverterCases.
Context {W : Type} {E : Env W}.

Import sync_dns_records.

(** An MX record is emitted with its priority, or 10 when the record
    has none, in front of the target, separated by one space; nothing
    outside the process is asked. *)
Theorem mx_priority_in_value (r : cf_record) (zone_name : string) (s : @st W) :
  cf_type r = "MX" ->
  cloudflare_to_route53_record r zone_name s =
    (Ok (Some {| Action := "UPSERT";
                 ResourceRecordSet :=
                   {| rrs_Name := route53_name (cf_name r) zone_name;
                      rrs_Type := "MX";
                      rrs_TTL := default 300 (cf_ttl r);
                      rrs_ResourceRecords :=
                        [pretty (default 10 (cf_priority r)) +:+ " " +:+ cf_content r] |} |}),
     s).
Proof.
  intros Ht. unfold cloudflare_to_route53_record. rewrite Ht. reflexivity.
Qed.

(** X2.  Only a CNAME whose content contains [railway.app] makes the
    converter touch the outside world: for every other record the state
    (world and trace) is left as it was, and a record that is neither NS,
    SOA, MX nor TXT comes out with its own type and its content as the
    single value. *)
Theorem converter_pure_unless_railway (r : cf_record) (zone_name : string) (s : @st W) :
  is_railway_cname r = false ->
  snd (cloudflare_to_route53_record r zone_name s) = s
  /\ (existsb (String.eqb (cf_type r)) ["NS"; "SOA"; "MX"; "TXT"] = false ->
      fst (cloudflare_to_route53_record r zone_name s) =
        Ok (Some {| Action := "UPSERT";
                    ResourceRecordSet :=
                      {| rrs_Name := route53_name (cf_name r) zone_name;
                         rrs_Type := cf_type r;
                         rrs_TTL := default 300 (cf_ttl r);
                         rrs_ResourceRecords := [cf_content r] |} |})).
Proof.
  unfold is_railway_cname. intros Hr. unfold cloudflare_to_route53_record.
  rewrite Hr. split.
  - destruct (existsb _ _); reflexivity.
  - cbn [existsb]. intros H.
    apply orb_false_iff in H as [Hns H]. apply orb_false_iff in H as [Hsoa H].
    apply orb_false_iff in H as [Hmx H]. apply orb_false_iff in H as [Htxt _].
    rewrite Hns, Hsoa, Hmx, Htxt. reflexivity.
Qed.

(** What the converter answers, by the sort of record: nothing for a
    dropped one, otherwise one UPSERT under the normalised name, of the
    record's own type or of type A. *)
Lemma converter_answer (r : cf_record) (zone_name : string) (s : @st W) :
  exists o s',
    cloudflare_to_route53_record r zone_name s = (Ok o, s')
    /\ (is_dropped r = true -> o = None)
    /\ (is_dropped r = false ->
        exists c, o = Some c
                  /\ change_name c = route53_name (cf_name r) zone_name
                  /\ (change_type c = cf_type r
                      \/ (is_railway_cname r = true /\ change_type c = "A"))).
Proof.
  unfold cloudflare_to_route53_record, is_dropped.
  destruct (existsb _ _) eqn:Hd.
  - eexists _, _. split; [reflexivity|]. split; [reflexivity | discriminate].
  - fold (is_railway_cname r). destruct (is_railway_cname r) eqn:Hr.
    + unfold bind at 1.
      destruct (gethostbyname (cf_content r) (world s)) as [[e|ip] w'] eqn:Hg.
      * erewrite resolve_railway_cname_fails by exact Hg.
        eexists _, _. split; [reflexivity|]. split; [discriminate|]. intros _.
        eexists. split; [reflexivity|]. split; [reflexivity|]. left. reflexivity.
      * erewrite resolve_railway_cname_ok by exact Hg.
        eexists _, _. split; [reflexivity|]. split; [discriminate|]. intros _.
        eexists. split; [reflexivity|]. split; [reflexivity|]. right. auto.
    + eexists _, _. split; [reflexivity|]. split; [discriminate|]. intros _.
      eexists. split; [reflexivity|]. split; [reflexivity|]. left. reflexivity.
Qed.

Lemma convert_records_names (cf_records : list cf_record) :
  forall r53_records skipped_records (s : @st W),
  exists out s',
    convert_records cf_records r53_records skipped_records s =
      (Ok (out, skipped_records ++ List.filter is_apex_cname cf_records), s')
    /\ map change_name out =
       map change_name r53_records
       ++ map (fun r => route53_name (cf_name r) ZONE_NAME) (List.filter is_kept cf_records).
Proof.
  induction cf_records as [|x l IH]; intros acc sk s.
  - exists acc, s. cbn. rewrite !app_nil_r. auto.
  - cbn [convert_records List.filter]. unfold is_kept at 1.
    destruct (is_apex_cname x) eqn:Hx; cbn [negb andb].
    + destruct (IH acc (sk ++ [x]) s) as (out & s' & H1 & H2).
      exists out, s'. rewrite H1, <- app_assoc. auto.
    + destruct (converter_answer x ZONE_NAME s) as (o & s1 & Ho & Hdrop & Hkeep).
      rewrite (bind_ok _ _ _ _ _ Ho).
      destruct (is_dropped x) eqn:Hd; cbn [negb].
      * rewrite (Hdrop eq_refl). apply IH.
      * destruct (Hkeep eq_refl) as (c & -> & Hname & _).
        destruct (IH (acc ++ [c]) sk s1) as (out & s' & H1 & H2).
        exists out, s'. split; [exact H1|].
        rewrite H2, map_app, <- app_assoc. cbn [map app]. rewrite Hname. reflexivity.
Qed.

(** X4.  The conversion loop of [main] loses no record silently: every
    source record is either skipped (an apex CNAME), dropped (NS or SOA)
    or turned into exactly one change, so the changes come in source
    order under the normalised names of the kept records, and the three
    groups add up to the source. *)
Theorem convert_records_accounting (cf_records : list cf_record) (w : W) :
  exists r53_records skipped_records s',
    run (convert_records cf_records [] []) w = (Ok (r53_records, skipped_records), s')
    /\ skipped_records = List.filter is_apex_cname cf_records
    /\ map change_name r53_records =
       map (fun r => route53_name (cf_name r) ZONE_NAME) (List.filter is_kept cf_records)
    /\ (length r53_records + length skipped_records
        + length (List.filter (fun r => negb (is_apex_cname r) && is_dropped r) cf_records)
        = length cf_records)%nat.
Proof.
  destruct (convert_records_names cf_records [] [] {| world := w; trace := [] |})
    as (out & s' & Hrun & Hnames).
  cbn [map app] in Hnames.
  exists out, (List.filter is_apex_cname cf_records), s'.
  unfold run. split; [exact Hrun|]. split; [reflexivity|].
  split; [exact Hnames|].
  apply (f_equal (@length string)) in Hnames. rewrite !length_map in Hnames.
  rewrite Hnames. cbn [app]. clear.
  induction cf_records as [|x l IH]; [reflexivity|].
  cbn [List.filter length]. unfold is_kept at 1.
  destruct (is_apex_cname x), (is_dropped x); cbn [negb andb length]; lia.
Qed.

End ConverterCases.

Lemma mx_priority_in_value_witness :
  sync_dns_records.cloudflare_to_route53_record (E := dns_down)
    {| cf_id := "f1"; cf_type := "MX"; cf_name := "rinawarptech.com";
       cf_content := "mx1.improvmx.com"; cf_ttl := None; cf_priority := None |}
    "rinawarptech.com" {| world := 0%nat; trace := [] |}
  = (Ok (Some {| Action := "UPSERT";
                 ResourceRecordSet :=
                   {| rrs_Name := "rinawarptech.com."; rrs_Type := "MX"; rrs_TTL := 300;
                      rrs_ResourceRecords := ["10 mx1.improvmx.com"] |} |}),
     {| world := 0%nat; trace := [] |}).
Proof.
  exact (mx_priority_in_value (E := dns_down)
           {| cf_id := "f1"; cf_type := "MX"; cf_name := "rinawarptech.com";
              cf_content := "mx1.improvmx.com"; cf_ttl := None; cf_priority := None |}
           "rinawarptech.com" {| world := 0%nat; trace := [] |} eq_refl).
Defined.

Lemma converter_pure_unless_railway_witness :
  snd (sync_dns_records.cloudflare_to_route53_record (E := dns_up "35.212.94.98")
         (sample_record "CNAME" "www.rinawarptech.com" "rinawarptech.com")
         "rinawarptech.com" {| world := 0%nat; trace := [] |})
  = {| world := 0%nat; trace := [] |}.
Proof.
  exact (proj1 (converter_pure_unless_railway (E := dns_up "35.212.94.98")
                  (sample_record "CNAME" "www.rinawarptech.com" "rinawarptech.com")
                  "rinawarptech.com" {| world := 0%nat; trace := [] |} eq_refl)).
Defined.

(** ** The shape of the batches and a failing batch *)

Section BatchShape.
Context {W : Type} {E : Env W}.

Import sync_dns_records.

Lemma range_go_lookup (n : nat) :
  forall fuel i k j,
    range_go fuel i n batch_size !! k = Some j ->
    j = (i + k * batch_size)%nat /\ (j < n)%nat.
Proof.
  induction fuel as [|fuel IH]; intros i k j; cbn [range_go]; [discriminate|].
  destruct (i <? n)%nat eqn:Hi; [|discriminate].
  apply Nat.ltb_lt in Hi. destruct k as [|k]; cbn.
  - intros [= <-]. lia.
  - intros H. apply IH in H. unfold batch_size in *. lia.
Qed.

Lemma range_go_length (n : nat) :
  forall fuel i,
    (n - i <= fuel)%nat ->
    length (range_go fuel i n batch_size) = ((n - i + 99) / 100)%nat.
Proof.
  induction fuel as [|fuel IH]; intros i Hfuel; cbn [range_go].
  - replace (n - i)%nat with 0%nat by lia. reflexivity.
  - destruct (i <? n)%nat eqn:Hi.
    + apply Nat.ltb_lt in Hi. cbn [length]. rewrite IH by (unfold batch_size; lia).
      unfold batch_size.
      destruct (Nat.le_gt_cases (n - i) 100) as [Hsmall|Hbig].
      * replace (n - (i + 100))%nat with 0%nat by lia.
        replace (n - i + 99)%nat with ((n - i - 1) + 1 * 100)%nat by lia.
        rewrite Nat.div_add by lia. rewrite (Nat.div_small (n - i - 1)) by lia.
        reflexivity.
      * replace (n - i + 99)%nat with ((n - (i + 100) + 99) + 1 * 100)%nat by lia.
        rewrite Nat.div_add by lia. lia.
    + apply Nat.ltb_ge in Hi. replace (n - i)%nat with 0%nat by lia. reflexivity.
Qed.

(** X5.  The batches of [sync_to_route53] are never empty, there are as
    many as the length of the list divided by 100 and rounded up (none for
    an empty list), and every batch but the last holds exactly 100
    changes. *)
Theorem batches_shape (records : list change) :
  Forall (fun batch => batch <> []) (batches_of records)
  /\ length (batches_of records) = ((length records + 99) / 100)%nat
  /\ (forall i batch,
        batches_of records !! i = Some batch ->
        is_Some (batches_of records !! S i) ->
        length batch = 100%nat).
Proof.
  unfold batches_of, range. repeat split.
  - apply Forall_forall. intros b Hb.
    apply list_elem_of_lookup in Hb as [k Hk].
    rewrite list_lookup_fmap in Hk.
    destruct (range_go _ _ _ _ !! k) as [j|] eqn:Hj; [|discriminate].
    apply range_go_lookup in Hj as [_ Hlt]. injection Hk as <-.
    unfold slice. intros Hnil. apply (f_equal (@length change)) in Hnil.
    rewrite length_take, length_drop in Hnil. cbn in Hnil. unfold batch_size in Hnil. lia.
  - rewrite length_map, range_go_length by lia. rewrite Nat.sub_0_r. reflexivity.
  - intros i b Hi [b' Hi']. rewrite list_lookup_fmap in Hi, Hi'.
    destruct (range_go _ _ _ _ !! i) as [j|] eqn:Hj; [|discriminate].
    destruct (range_go _ _ _ _ !! S i) as [j'|] eqn:Hj'; [|discriminate].
    apply range_go_lookup in Hj as [-> _]. apply range_go_lookup in Hj' as [-> Hlt].
    injection Hi as <-. unfold slice. rewrite length_take, length_drop.
    unfold batch_size in *. lia.
Qed.

(** The loop over the batches, when the first batches are accepted and the
    next one is turned down. *)
Lemma for_each_batches_failing (zone_id : string) (e : exc) (b : list change)
    (post : list (list change)) :
  (forall w, fst (change_resource_record_sets zone_id b w) = inl e) ->
  forall pre : list (list change),
    (forall batch w, In batch pre ->
                     fst (change_resource_record_sets zone_id batch w) = inr tt) ->
    forall s : @st W, exists w',
      for_each (pre ++ b :: post) (fun batch =>
        call (EvChangeRRS zone_id batch) (change_resource_record_sets zone_id batch)) s
      = (Raise (Exc e),
         logged s w' (map (EvChangeRRS zone_id) (pre ++ [b]))).
Proof.
  intros Hbad. induction pre as [|x pre IH]; intros Hpre s.
  - cbn [app for_each map]. specialize (Hbad (world s)).
    destruct (change_resource_record_sets zone_id b (world s)) as [r w1] eqn:Hc.
    cbn in Hbad. subst r. exists w1.
    apply bind_raises. apply call_raises. exact Hc.
  - cbn [app for_each map].
    pose proof (Hpre x (world s) (or_introl eq_refl)) as Hx.
    destruct (change_resource_record_sets zone_id x (world s)) as [r w1] eqn:Hc.
    cbn in Hx. subst r.
    rewrite (bind_ok _ _ _ _ _ (call_ok (EvChangeRRS zone_id x) _ s tt w1 Hc)).
    destruct (IH (fun batch w Hin => Hpre batch w (or_intror Hin))
                (logged s w1 [EvChangeRRS zone_id x])) as (w' & ->).
    exists w'. rewrite logged_logged. reflexivity.
Qed.

(** X6.  When Route 53 turns a batch down, [sync_to_route53] stops there:
    the exception leaves the function, the batches before it have been
    sent and stay applied, and no later batch is sent. *)
Theorem sync_to_route53_stops_at_failure (records : list change) (zone_id : string)
    (s : @st W) (pre post : list (list change)) (b : list change) (e : exc) :
  batches_of records = pre ++ b :: post ->
  fst (boto3_client "route53" (world s)) = inr tt ->
  (forall batch w, In batch pre ->
                   fst (change_resource_record_sets zone_id batch w) = inr tt) ->
  (forall w, fst (change_resource_record_sets zone_id b w) = inl e) ->
  fst (sync_to_route53 records zone_id s) = Raise (Exc e)
  /\ trace (snd (sync_to_route53 records zone_id s)) =
       trace s ++ EvBotoClient "route53" :: map (EvChangeRRS zone_id) (pre ++ [b]).
Proof.
  intros Hsplit Hclient Hpre Hbad. unfold sync_to_route53.
  destruct (boto3_client "route53" (world s)) as [r w1] eqn:Hc. cbn in Hclient. subst r.
  rewrite (bind_ok _ _ _ _ _ (call_ok (EvBotoClient "route53") _ s tt w1 Hc)).
  rewrite Hsplit.
  destruct (for_each_batches_failing zone_id e b post Hbad pre Hpre
              (logged s w1 [EvBotoClient "route53"])) as (w' & ->).
  rewrite logged_logged. split; reflexivity.
Qed.

End BatchShape.

Lemma sync_to_route53_stops_at_failure_witness :
  let records := map sample_change (seq 0 250) in
  fst (sync_dns_records.sync_to_route53 (E := route53_rejecting starts_at_100)
         records "Z0713202NJO49ZHK5ER1" {| world := 0%nat; trace := [] |})
  = Raise (Exc (an_exc ClientError "InvalidChangeBatch"))
  /\ trace (snd (sync_dns_records.sync_to_route53 (E := route53_rejecting starts_at_100)
                   records "Z0713202NJO49ZHK5ER1" {| world := 0%nat; trace := [] |}))
     = [EvBotoClient "route53";
        EvChangeRRS "Z0713202NJO49ZHK5ER1" (take 100 records);
        EvChangeRRS "Z0713202NJO49ZHK5ER1" (take 100 (drop 100 records))].
Proof.
  intros records.
  apply (sync_to_route53_stops_at_failure (E := route53_rejecting starts_at_100)
           records "Z0713202NJO49ZHK5ER1" {| world := 0%nat; trace := [] |}
           [take 100 records] [drop 200 records] (take 100 (drop 100 records))
           (an_exc ClientError "InvalidChangeBatch")).
  - vm_compute. reflexivity.
  - reflexivity.
  - intros batch w [<- | []]. reflexivity.
  - intros w. reflexivity.
Defined.

(** ** What a computation adds to the trace *)

Section TraceFrames.
Context {W : Type} {E : Env W}.

Lemma emits_list_ret (Q : list event -> Prop) {A} (a : A) :
  Q [] -> emits_list (W := W) Q (ret a).
Proof. intros HQ s. exists []. cbn. rewrite app_nil_r. auto. Qed.

Lemma emits_list_raise (Q : list event -> Prop) {A} (e : raised) :
  Q [] -> emits_list (W := W) (A := A) Q (raise e).
Proof. intros HQ s. exists []. cbn. rewrite app_nil_r. auto. Qed.

Lemma emits_list_weaken (Q Q' : list event -> Prop) {A} (m : @M W A) :
  (forall evs, Q evs -> Q' evs) -> emits_list Q m -> emits_list Q' m.
Proof. intros HQ Hm s. destruct (Hm s) as (evs & Ht & Hq). exists evs. auto. Qed.

(** A prefix whose events satisfy [P], then a continuation satisfying
    [Q], when [Q] survives such prefixes. *)
Lemma emits_list_bind (P : event -> Prop) (Q : list event -> Prop) {A B}
    (m : @M W A) (k : A -> @M W B) :
  (forall pre evs, Forall P pre -> Q evs -> Q (pre ++ evs)) ->
  Q [] ->
  emits P m -> (forall a, emits_list Q (k a)) -> emits_list Q (bind m k).
Proof.
  intros Hpre Hnil Hm Hk s. unfold bind.
  destruct (Hm s) as (evs & Ht & Hp).
  destruct (m s) as [[a| e |] s1]; cbn [snd] in *.
  - destruct (Hk a s1) as (evs' & Ht' & Hq).
    exists (evs ++ evs'). rewrite Ht', Ht, <- app_assoc. auto.
  - exists evs. split; [exact Ht|]. rewrite <- (app_nil_r evs). auto.
  - exists evs. split; [exact Ht|]. rewrite <- (app_nil_r evs). auto.
Qed.

Lemma emits_ret (P : event -> Prop) {A} (a : A) : emits (W := W) P (ret a).
Proof. apply emits_list_ret. constructor. Qed.

Lemma emits_raise (P : event -> Prop) {A} (e : raised) : emits (W := W) (A := A) P (raise e).
Proof. apply emits_list_raise. constructor. Qed.

Lemma emits_lift (P : event -> Prop) {A} (r : exc + A) : emits (W := W) P (lift_res r).
Proof. destruct r; [apply emits_raise | apply emits_ret]. Qed.

Lemma emits_print (P : event -> Prop) (msg : string) :
  P (EvPrint msg) -> emits (W := W) P (print msg).
Proof. intros HP s. exists [EvPrint msg]. split; [reflexivity|]. repeat constructor. exact HP. Qed.

Lemma emits_sleep (P : event -> Prop) (secs : Z) :
  P (EvSleep secs) -> emits (W := W) P (sleep secs).
Proof. intros HP s. exists [EvSleep secs]. split; [reflexivity|]. repeat constructor. exact HP. Qed.

Lemma emits_call (P : event -> Prop) {A} (ev : event) (op : W -> (exc + A) * W) :
  P ev -> emits P (call ev op).
Proof.
  intros HP s. exists [ev]. unfold call.
  destruct (op (world s)) as [[e|a] w']; (split; [reflexivity|]); repeat constructor; exact HP.
Qed.

Lemma emits_bind (P : event -> Prop) {A B} (m : @M W A) (k : A -> @M W B) :
  emits P m -> (forall a, emits P (k a)) -> emits P (bind m k).
Proof.
  intros Hm Hk. apply (emits_list_bind P); [| | exact Hm | exact Hk].
  - intros pre evs H1 H2. apply Forall_app. auto.
  - constructor.
Qed.

(** After an external call the continuation only matters for the answers
    the call can give. *)
Lemma emits_bind_call (P : event -> Prop) {A B} (ev : event) (op : W -> (exc + A) * W)
    (k : A -> @M W B) :
  P ev ->
  (forall a w w', op w = (inr a, w') -> emits P (k a)) ->
  emits P (bind (call ev op) k).
Proof.
  intros HP Hk s. unfold bind, call.
  destruct (op (world s)) as [[e|a] w'] eqn:Hop.
  - exists [ev]. split; [reflexivity|]. repeat constructor. exact HP.
  - destruct (Hk a (world s) w' Hop {| world := w'; trace := trace s ++ [ev] |})
      as (evs & Ht & Hp).
    exists (ev :: evs). rewrite Ht. cbn [trace]. rewrite <- app_assoc.
    split; [reflexivity|]. constructor; assumption.
Qed.

Lemma emits_try (P : event -> Prop) {A} (m : @M W A) (h : raised -> option (@M W A)) :
  emits P m ->
  (forall e handler, h e = Some handler -> emits P handler) ->
  emits P (try_except m h).
Proof.
  intros Hm Hh s. unfold try_except.
  destruct (Hm s) as (evs & Ht & Hp).
  destruct (m s) as [[a| e |] s1]; cbn [snd] in *; try (exists evs; auto; fail).
  destruct (h e) as [handler|] eqn:He; [|exists evs; auto].
  destruct (Hh e handler He s1) as (evs' & Ht' & Hp').
  exists (evs ++ evs'). rewrite Ht', Ht, <- app_assoc. split; [reflexivity|].
  apply Forall_app. auto.
Qed.

Lemma emits_for_each (P : event -> Prop) {A} (l : list A) (body : A -> @M W unit) :
  (forall x, In x l -> emits P (body x)) -> emits P (for_each l body).
Proof.
  induction l as [|x l IH]; intros Hb; cbn [for_each].
  - apply emits_ret.
  - apply emits_bind; [apply Hb; left; reflexivity|].
    intros _. apply IH. intros y Hy. apply Hb. right. exact Hy.
Qed.

Lemma emits_while_true (P : event -> Prop) (fuel : nat) (body : @M W ctl) :
  emits P body -> emits P (while_true fuel body).
Proof.
  intros Hb. induction fuel as [|fuel IH]; cbn [while_true].
  - intros s. exists []. cbn. rewrite app_nil_r. split; [reflexivity | constructor].
  - apply emits_bind; [exact Hb|]. intros [|]; [apply emits_ret | exact IH].
Qed.

Lemma emits_raise_for_status (P : event -> Prop) (r : response) :
  emits (W := W) P (raise_for_status r).
Proof. unfold raise_for_status. destruct (_ && _); [apply emits_raise | apply emits_ret]. Qed.

Lemma emits_mono (P P' : event -> Prop) {A} (m : @M W A) :
  (forall ev, P ev -> P' ev) -> emits P m -> emits P' m.
Proof.
  intros HP. apply emits_list_weaken. intros evs H.
  eapply Forall_impl; [exact H | exact HP].
Qed.

End TraceFrames.

Ltac emits_step :=
  lazymatch goal with
  | |- emits _ (bind _ _) => apply emits_bind; [|intros ?]
  | |- emits _ (ret _) => apply emits_ret
  | |- emits _ (print _) => apply emits_print; try exact I; try reflexivity
  | |- emits _ (sleep _) => apply emits_sleep; try exact I; try reflexivity
  | |- emits _ (call _ _) => apply emits_call; try exact I; try reflexivity
  | |- emits _ (requests _) => apply emits_call; try exact I; try reflexivity
  | |- emits _ (lift_res _) => apply emits_lift
  | |- emits _ (raise _) => apply emits_raise
  | |- emits _ (raise_Exception _) => apply emits_raise
  | |- emits _ (raise_for_status _) => apply emits_raise_for_status
  | |- emits _ (for_each _ _) => apply emits_for_each; intros ? ?
  | |- emits _ (try_except _ (except_Exception _)) =>
      apply emits_try; [|intros [?|?] ?; cbn [except_Exception]; [discriminate|intros [= <-]]]
  | |- emits _ (if ?b then _ else _) => destruct b
  | |- emits _ (match ?x with _ => _ end) => destruct x
  end.

Ltac emits_tac := repeat emits_step.

(** ** What sync_dns_records.py sends, and when *)

Section SyncTrace.
Context {W : Type} {E : Env W}.

Import sync_dns_records.

Lemma token_emits (P : event -> Prop) :
  P (EvRun kubectl_get_secret) -> emits (W := W) P get_cloudflare_token.
Proof.
  intros HP. unfold get_cloudflare_token. apply emits_try.
  - apply emits_bind; [apply emits_call, HP|]. intros stdout.
    apply emits_bind; [apply emits_lift | intros token; apply emits_ret].
  - intros e handler. unfold except_class. destruct e as [c|x]; [discriminate|].
    destruct (exc_class_eqb _ _); [|discriminate]. intros [= <-]. apply emits_ret.
Qed.

Lemma records_emits (P : event -> Prop) (zone_name token : string) :
  (forall r, req_method r = GET -> P (EvHttp r)) ->
  emits (W := W) P (get_cloudflare_records zone_name token).
Proof.
  intros HP. unfold get_cloudflare_records.
  apply emits_bind; [apply emits_call, HP; reflexivity|]. intros response.
  apply emits_bind; [apply emits_raise_for_status|]. intros _.
  destruct (success (json response)), (result (json response)); try apply emits_raise.
  apply emits_bind; [apply emits_call, HP; reflexivity|]. intros response'.
  apply emits_bind; [apply emits_raise_for_status|]. intros _.
  destruct (negb _); [apply emits_raise | apply emits_ret].
Qed.

Lemma converter_emits (P : event -> Prop) (r : cf_record) (zone_name : string) :
  (forall h, P (EvResolve h)) ->
  emits (W := W) P (cloudflare_to_route53_record r zone_name).
Proof.
  intros HP. unfold cloudflare_to_route53_record.
  destruct (existsb _ _); [apply emits_ret|].
  apply emits_bind.
  - destruct (_ && _); [|apply emits_ret].
    unfold resolve_railway_cname. apply emits_try.
    + apply emits_bind; [apply emits_call, HP | intros ip; apply emits_ret].
    + intros e handler [= <-]. apply emits_ret.
  - intros [c|]; apply emits_ret.
Qed.

Lemma convert_records_emits (P : event -> Prop) (cf_records : list cf_record) :
  (forall h, P (EvResolve h)) ->
  forall r53_records skipped_records,
    emits (W := W) P (convert_records cf_records r53_records skipped_records).
Proof.
  intros HP. induction cf_records as [|x l IH]; intros acc sk; cbn [convert_records].
  - apply emits_ret.
  - destruct (is_apex_cname x); [apply IH|].
    apply emits_bind; [apply converter_emits, HP|]. intros [c|]; apply IH.
Qed.

(** The part of [main_body] before the question to the operator adds
    prints, the kubectl call, GET requests and resolver calls only. *)
Ltac sync_prefix :=
  repeat lazymatch goal with
    | |- emits _ (bind (call (EvInput _) _) _) => fail
    | |- emits _ (bind get_cloudflare_token _) =>
        apply emits_bind; [apply token_emits; try exact I; reflexivity | intros ?]
    | |- emits _ (bind (get_cloudflare_records _ _) _) =>
        apply emits_bind; [apply records_emits; intros ? ?; try assumption; try exact I;
                           reflexivity | intros ?]
    | |- emits _ (bind (convert_records _ _ _) _) =>
        apply emits_bind; [apply convert_records_emits; intros ?; try exact I; reflexivity
                          | intros ?]
    | |- emits _ (let (_, _) := ?c in _) => destruct c
    | |- _ => emits_step
    end.

(** X7.  sync_dns_records.py only reads from Cloudflare: in every run each
    HTTP request it makes is a GET, and it never posts a record. *)
Theorem sync_reads_cloudflare_only (w : W) :
  Forall reads_cloudflare_only (trace (snd (run main w))).
Proof.
  assert (H : emits (W := W) reads_cloudflare_only main).
  { unfold main. apply emits_try.
    - unfold main_body. sync_prefix.
      apply emits_bind; [apply emits_call; exact I|]. intros response.
      unfold sync_to_route53. emits_tac.
    - intros [c|x] handler; cbn [except_Exception]; [discriminate|].
      intros [= <-]. apply emits_print. exact I. }
  destruct (H {| world := w; trace := [] |}) as (evs & Ht & Hp).
  unfold run. rewrite Ht. exact Hp.
Qed.

(** X8.  When the operator answers anything that is not yes in some
    casing, sync_dns_records.py makes no call to Route 53 at all. *)
Theorem declined_sync_sends_nothing (w : W) :
  (forall prompt w0 answer w1,
      builtin_input prompt w0 = (inr answer, w1) -> PyStr.lower answer <> "yes") ->
  Forall no_route53_call (trace (snd (run main w))).
Proof.
  intros Hno.
  assert (H : emits (W := W) no_route53_call main).
  { unfold main. apply emits_try.
    - unfold main_body. sync_prefix.
      apply emits_bind_call; [reflexivity|]. intros answer w0 w1 Hanswer.
      apply Hno in Hanswer. apply String.eqb_neq in Hanswer. rewrite Hanswer.
      cbn [negb]. apply emits_print. reflexivity.
    - intros [c|x] handler; cbn [except_Exception]; [discriminate|].
      intros [= <-]. apply emits_print. reflexivity. }
  destruct (H {| world := w; trace := [] |}) as (evs & Ht & Hp).
  unfold run. rewrite Ht. exact Hp.
Qed.

End SyncTrace.

Lemma declined_sync_sends_nothing_witness :
  Forall no_route53_call
    (trace (snd (run (sync_dns_records.main (E := declining)) 0%nat))).
Proof.
  apply (declined_sync_sends_nothing (E := declining) 0%nat).
  intros prompt w0 answer w1 [= <- _]. discriminate.
Defined.

Section SyncAsksFirst.
Context {W : Type} {E : Env W}.

Import sync_dns_records.

Lemma asked_first_prefix (pre evs : list event) :
  Forall no_route53_call pre -> asked_first evs -> asked_first (pre ++ evs).
Proof.
  intros Hpre [Hall | (before & after & prompt & -> & Hb)].
  - left. apply Forall_app. auto.
  - right. exists (pre ++ before), after, prompt. rewrite <- app_assoc.
    split; [reflexivity|]. apply Forall_app. auto.
Qed.

Lemma asked_first_suffix (evs post : list event) :
  asked_first evs -> Forall no_route53_call post -> asked_first (evs ++ post).
Proof.
  intros [Hall | (before & after & prompt & -> & Hb)] Hpost.
  - left. apply Forall_app. auto.
  - right. exists before, (after ++ post), prompt. rewrite <- app_assoc.
    split; [reflexivity | exact Hb].
Qed.

(** Whatever follows the question comes after it. *)
Lemma asked_then (prompt : string) {A B} (op : W -> (exc + A) * W) (k : A -> @M W B) :
  (forall a, emits (fun _ => True) (k a)) ->
  emits_list asked_first (bind (call (EvInput prompt) op) k).
Proof.
  intros Hk s. unfold bind, call.
  destruct (op (world s)) as [[e|a] w'].
  - exists [EvInput prompt]. split; [reflexivity|]. left. repeat constructor.
  - destruct (Hk a {| world := w'; trace := trace s ++ [EvInput prompt] |})
      as (evs & Ht & _).
    exists (EvInput prompt :: evs). rewrite Ht. cbn [trace]. rewrite <- app_assoc.
    split; [reflexivity|]. right. exists [], evs, prompt. split; [reflexivity | constructor].
Qed.

Lemma asked_try {A} (m : @M W A) (h : exc -> @M W A) :
  emits_list asked_first m ->
  (forall e, emits no_route53_call (h e)) ->
  emits_list asked_first (try_except m (except_Exception h)).
Proof.
  intros Hm Hh s. unfold try_except.
  destruct (Hm s) as (evs & Ht & Hq).
  destruct (m s) as [[a| [c|e] |] s1]; cbn [snd except_Exception] in *;
    try (exists evs; auto; fail).
  destruct (Hh e s1) as (evs' & Ht' & Hp').
  exists (evs ++ evs'). rewrite Ht', Ht, <- app_assoc. split; [reflexivity|].
  apply asked_first_suffix; assumption.
Qed.

Ltac asked_prefix :=
  repeat lazymatch goal with
    | |- emits_list asked_first (bind (call (EvInput _) _) _) => fail
    | |- emits_list asked_first (bind _ _) =>
        apply (emits_list_bind no_route53_call asked_first);
        [ apply asked_first_prefix
        | left; constructor
        | first [ apply token_emits; reflexivity
                | apply records_emits; intros ? ?; reflexivity
                | apply convert_records_emits; intros ?; reflexivity
                | emits_tac ]
        | intros ? ]
    | |- emits_list asked_first (raise_Exception _) =>
        apply emits_list_raise; left; constructor
    | |- emits_list asked_first (if ?b then _ else _) => destruct b
    | |- emits_list asked_first (let (_, _) := ?c in _) => destruct c
    end.

(** X9.  sync_dns_records.py never reaches Route 53 before it has asked
    the operator: in every run, either the trace holds no Route 53 call,
    or the question comes before the first of them. *)
Theorem sync_asks_first (w : W) : asked_first (trace (snd (run main w))).
Proof.
  assert (H : emits_list (W := W) asked_first main).
  { unfold main. apply asked_try.
    - unfold main_body. asked_prefix.
      apply asked_then. intros response. unfold sync_to_route53. emits_tac.
    - intros e. apply emits_print. reflexivity. }
  destruct (H {| world := w; trace := [] |}) as (evs & Ht & Hq).
  unfold run. rewrite Ht. exact Hq.
Qed.

End SyncAsksFirst.

(** ** Credentials: an empty secret *)

Section EmptySecret.
Context {W : Type} {E : Env W}.

(** X10.  When kubectl succeeds but the secret decodes to the empty
    string, sync_dns_records.py does not fall back to the environment
    variable: it stops with the token-not-found error before any request,
    whatever CLOUDFLARE_API_TOKEN holds. *)
Theorem empty_secret_no_fallback (s : @st W) (stdout : string) (w' : W) :
  subprocess_run kubectl_get_secret (world s) = (inr stdout, w') ->
  decode_secret stdout = inr EmptyString ->
  sync_dns_records.main s =
    (Ok tt, logged s w' [EvRun kubectl_get_secret;
                         EvPrint "Error: Cloudflare API token not found"]).
Proof.
  intros Hrun Hdec. unfold sync_dns_records.main.
  assert (Htok : sync_dns_records.get_cloudflare_token s
                 = (Ok (Some EmptyString), logged s w' [EvRun kubectl_get_secret])).
  { unfold sync_dns_records.get_cloudflare_token. apply try_ok.
    rewrite (bind_ok _ _ _ _ _ (call_ok (EvRun kubectl_get_secret) _ s stdout w' Hrun)).
    rewrite Hdec. reflexivity. }
  erewrite try_raises.
  2:{ unfold sync_dns_records.main_body. rewrite (bind_ok _ _ _ _ _ Htok). reflexivity. }
  cbn [except_Exception]. rewrite print_logged, logged_logged. reflexivity.
Qed.

End EmptySecret.

Lemma empty_secret_no_fallback_witness :
  environ (Env := empty_secret) !! "CLOUDFLARE_API_TOKEN" = Some "cf-token-from-env"
  /\ sync_dns_records.main (E := empty_secret) {| world := 0%nat; trace := [] |}
     = (Ok tt, {| world := 1%nat;
                  trace := [EvRun kubectl_get_secret;
                            EvPrint "Error: Cloudflare API token not found"] |}).
Proof.
  split; [vm_compute; reflexivity|].
  exact (empty_secret_no_fallback (E := empty_secret) {| world := 0%nat; trace := [] |}
           EmptyString 1%nat eq_refl eq_refl).
Defined.

(** ** The polling loop of cleanup_dns.py, in general *)

Section PollerTurns.
Context {W : Type} {E : Env W}.

Import cleanup_dns.


Lemma poll_once_returns : returns (W := W) poll_once.
Proof.
  unfold poll_once. apply returns_try_Exception.
  - only_exceptions_tac. intros s. exact I.
  - intros e. apply returns_bind; [apply returns_print | intros _; apply returns_ret].
Qed.

Lemma no_exit_of_only_exceptions {A} (m : @M W A) : only_exceptions m -> no_exit m.
Proof.
  intros H s. specialize (H s). destruct (fst (m s)) as [a|[c|e]|]; auto.
Qed.

Lemma no_exit_bind {A B} (m : @M W A) (k : A -> @M W B) :
  no_exit m -> (forall a, no_exit (k a)) -> no_exit (bind m k).
Proof.
  intros Hm Hk s. unfold bind. specialize (Hm s).
  destruct (m s) as [[a|[c|e]|] s1]; cbn in *; try contradiction; try exact I.
  apply Hk.
Qed.

Lemma poll_certificate_ends (fuel : nat) :
  forall s : @st W,
    exists s', poll_certificate fuel s = (Ok tt, s')
               \/ poll_certificate fuel s = (OutOfFuel, s').
Proof.
  unfold poll_certificate. induction fuel as [|fuel IH]; intros s; cbn [while_true].
  - exists s. right. reflexivity.
  - destruct (poll_once_returns s) as ([|] & s1 & Hturn);
      rewrite (bind_ok _ _ _ _ _ Hturn); [exists s1; left; reflexivity | apply IH].
Qed.

Lemma cleanup_token_only_exceptions : only_exceptions (W := W) get_cloudflare_token.
Proof.
  unfold get_cloudflare_token.
  apply only_exceptions_try; [only_exceptions_tac|].
  intros e handler. unfold except_class.
  destruct (exc_class_eqb _ _); [|discriminate].
  intros [= <-]. apply only_exceptions_ret.
Qed.

(** X11.  cleanup_dns.py never raises out of its polling loop nor out of
    [main]: whatever the fetch does, [poll_certificate] either returns or
    is still polling, and [main] ends normally (exit code 0) or is still
    polling. *)
Theorem cleanup_never_raises (fuel : nat) (s : @st W) :
  (exists s', poll_certificate fuel s = (Ok tt, s') \/ poll_certificate fuel s = (OutOfFuel, s'))
  /\ (exists s', main fuel s = (Ok tt, s') \/ main fuel s = (OutOfFuel, s')).
Proof.
  split; [apply poll_certificate_ends|].
  assert (Hpoll : no_exit (W := W) (poll_certificate fuel)).
  { intros s0. destruct (poll_certificate_ends fuel s0) as (s1 & [-> | ->]); exact I. }
  unfold main, try_except.
  match goal with
  | |- exists s', (let (r, s1) := ?body s in _) = _ \/ _ =>
      assert (Hbody : no_exit body)
  end.
  { apply no_exit_bind;
      [apply no_exit_of_only_exceptions, cleanup_token_only_exceptions | intros token].
    destruct (negb (truthy_opt token));
      [apply no_exit_of_only_exceptions, only_exceptions_raise|].
    unfold get_zone_id, get_dns_records, remove_route53_ns, delete_dns_record,
      create_dns_record.
    repeat lazymatch goal with
      | |- no_exit (bind _ (fun _ => poll_certificate _)) =>
          apply no_exit_bind;
          [apply no_exit_of_only_exceptions; only_exceptions_tac | intros _; exact Hpoll]
      | |- no_exit (bind _ _) =>
          apply no_exit_bind;
          [apply no_exit_of_only_exceptions; only_exceptions_tac | intros ?]
      end. }
  specialize (Hbody s).
  match goal with
  | |- exists s', (let (r, s1) := ?body s in _) = _ \/ _ =>
      destruct (body s) as [[[]|[c|e]|] sb]
  end; cbn in Hbody; try contradiction.
  - exists sb. left. reflexivity.
  - cbn [except_Exception]. eexists. left. reflexivity.
  - exists sb. right. reflexivity.
Qed.

End PollerTurns.




(** ** The NS clean-up of cleanup_dns.py *)

Section NsRemoval.
Context {W : Type} {E : Env W}.

Import cleanup_dns.

Lemma bind_assoc_run {A B C} (m : @M W A) (k : A -> @M W B) (k2 : B -> @M W C) (s : @st W) :
  bind (bind m k) k2 s = bind m (fun a => bind (k a) k2) s.
Proof. unfold bind. destruct (m s) as [[a|e|] s1]; reflexivity. Qed.

Lemma requests_of_app (evs1 evs2 : list event) :
  requests_of (evs1 ++ evs2) = requests_of evs1 ++ requests_of evs2.
Proof. unfold requests_of. apply omap_app. Qed.

Lemma delete_accepted (zone_id token record_id : string) (s : @st W) :
  (forall r w, exists resp w', requests_send r w = (inr resp, w') /\ status_ok resp = true) ->
  exists resp w',
    delete_dns_record zone_id token record_id s =
      (Ok (json resp), logged s w' [EvHttp (delete_request zone_id token record_id)]).
Proof.
  intros Hok. unfold delete_dns_record.
  destruct (Hok (delete_request zone_id token record_id) (world s)) as (resp & w' & Hsend & Hst).
  exists resp, w'.
  rewrite (bind_ok _ _ _ _ _ (call_ok (EvHttp (delete_request zone_id token record_id))
                                 _ s resp w' Hsend)).
  rewrite (bind_ok _ _ _ _ _ (raise_for_status_ok resp _ Hst)). reflexivity.
Qed.

(** X13.  The clean-up loop of cleanup_dns.py deletes nothing but NS
    records that point at one of the four Route 53 name servers: every
    request it makes is a DELETE on the id of such a record of the
    listing; and when Cloudflare accepts the requests, these records are
    deleted one by one, in the order of the listing. *)
Theorem ns_removal_only_route53 (zone_id token : string) (records : list cf_record) :
  (forall s : @st W, exists evs,
      trace (snd (remove_route53_ns zone_id token records s)) = trace s ++ evs
      /\ Forall (removal_event zone_id token records) evs)
  /\ ((forall r w, exists resp w',
          requests_send r w = (inr resp, w') /\ status_ok resp = true) ->
      forall s : @st W, exists evs,
        fst (remove_route53_ns zone_id token records s) = Ok tt
        /\ trace (snd (remove_route53_ns zone_id token records s)) = trace s ++ evs
        /\ requests_of evs =
           map (fun record => delete_request zone_id token (cf_id record))
             (List.filter is_route53_ns records)).
Proof.
  split.
  - change (emits (removal_event zone_id token records)
              (remove_route53_ns zone_id token records)).
    unfold remove_route53_ns. apply emits_for_each. intros record Hin.
    destruct (existsb _ _) eqn:Hns; [|apply emits_ret].
    apply emits_bind; [apply emits_print; exact I | intros _].
    apply emits_bind.
    + unfold delete_dns_record. apply emits_bind.
      * apply emits_call. exists record. auto.
      * intros response. apply emits_bind; [apply emits_raise_for_status|].
        intros _. apply emits_ret.
    + intros result. destruct (success result); apply emits_print; exact I.
  - intros Hok. unfold remove_route53_ns.
    induction records as [|record records IH]; intros s.
    + exists []. cbn. rewrite app_nil_r. auto.
    + cbn [for_each List.filter]. cbv beta.
      change (existsb (String.eqb (cf_content record)) route53_nameservers)
        with (is_route53_ns record).
      destruct (is_route53_ns record) eqn:Hns.
      * destruct (delete_accepted zone_id token (cf_id record)
                    (logged s (world s) [EvPrint ("Deleting NS record: " +:+ cf_content record)])
                    Hok) as (resp & w' & Hdel).
        rewrite print_then. cbv beta. rewrite bind_assoc_run.
        rewrite (bind_ok _ _ _ _ _ Hdel). cbv beta.
        assert (Hprint : exists line,
                   (if success (json resp)
                    then print (check_mark +:+ " Successfully deleted NS record")
                    else print (cross_mark +:+ " Failed to delete NS record"))
                   = print (W := W) line).
        { destruct (success (json resp)); eexists; reflexivity. }
        destruct Hprint as (line & ->).
        rewrite (bind_ok _ _ _ _ _ (print_logged line _)).
        match goal with
        | |- context [for_each records ?body ?s1] =>
            destruct (IH s1) as (evs & Hfst & Htr & Hreq)
        end.
        exists ([EvPrint ("Deleting NS record: " +:+ cf_content record);
                 EvHttp (delete_request zone_id token (cf_id record));
                 EvPrint line] ++ evs).
        rewrite Hfst, Htr. split; [reflexivity|]. split.
        -- unfold logged. cbn [trace]. rewrite <- !app_assoc. reflexivity.
        -- rewrite requests_of_app, Hreq. reflexivity.
      * unfold bind at 1. cbn [ret]. apply IH.
Qed.

End NsRemoval.

Lemma ns_removal_only_route53_witness :
  requests_of
    (trace (snd (cleanup_dns.remove_route53_ns (E := zone_missing)
                   "023e105f4ecef8ad9ca31a8372d0c353" "cf-token-from-env" ns_listing
                   {| world := 0%nat; trace := [] |})))
  = [delete_request "023e105f4ecef8ad9ca31a8372d0c353" "cf-token-from-env" "ns-b";
     delete_request "023e105f4ecef8ad9ca31a8372d0c353" "cf-token-from-env" "ns-c"].
Proof.
  destruct (proj2 (ns_removal_only_route53 (E := zone_missing)
                     "023e105f4ecef8ad9ca31a8372d0c353" "cf-token-from-env" ns_listing)
              (fun r w => ex_intro _ _ (ex_intro _ (S w) (conj eq_refl eq_refl)))
              {| world := 0%nat; trace := [] |}) as (evs & _ & Htr & Hreq).
  rewrite Htr. cbn [trace app]. rewrite Hreq. reflexivity.
Defined.

(** ** Create or update: failed lookups, and the third variant *)

Section UpsertFailures.
Context {W : Type} {E : Env W}.

(** A request that does not get through, followed by [raise_for_status]:
    an exception, and the request as the only new event. *)
Lemma failed_request_raises {A} (r : request) (k : response -> @M W A) (s : @st W)
    (reply : exc + response) (w1 : W) :
  requests_send r (world s) = (reply, w1) ->
  lookup_failed reply = true ->
  exists e,
    (response <- requests r ;; raise_for_status response ;; k response) s
    = (Raise (Exc e), logged s w1 [EvHttp r]).
Proof.
  intros Hsend Hfail. destruct reply as [e|resp].
  - exists e. apply bind_raises. apply call_raises. exact Hsend.
  - cbn in Hfail. unfold status_ok in Hfail. rewrite negb_involutive in Hfail.
    eexists. rewrite (bind_ok _ _ _ _ _ (call_ok (EvHttp r) _ s resp w1 Hsend)).
    apply bind_raises. unfold raise_for_status. rewrite Hfail. reflexivity.
Qed.

(** X14.  In all three [update_dns_record] functions a lookup that does
    not get through (the request raises, or the answer has an HTTP error
    status) ends the function with an exception before anything is
    written: the lookup is the only request made. *)
Theorem failed_lookup_writes_nothing (zone_id token : string) (s : @st W) :
  (forall record reply w1,
      requests_send (lookup_request zone_id token (dr_name record) (dr_type record)) (world s)
        = (reply, w1) ->
      lookup_failed reply = true ->
      exists e,
        update_cloudflare_dns.update_dns_record zone_id token record s =
          (Raise (Exc e),
           logged s w1 [EvHttp (lookup_request zone_id token (dr_name record)
                                  (dr_type record))]))
  /\ (forall record reply w1,
        requests_send (list_request zone_id token) (world s) = (reply, w1) ->
        lookup_failed reply = true ->
        exists e,
          update_cloudfront_dns.update_dns_record zone_id token record s =
            (Raise (Exc e), logged s w1 [EvHttp (list_request zone_id token)]))
  /\ (forall name type reply w1,
        requests_send (lookup_request zone_id token (name +:+ ".rinawarptech.com") type)
          (world s) = (reply, w1) ->
        lookup_failed reply = true ->
        exists e,
          setup_cloudflare_redirects.update_dns_record zone_id token name type s =
            (Raise (Exc e),
             logged s w1 [EvHttp (lookup_request zone_id token
                                    (name +:+ ".rinawarptech.com") type)])).
Proof.
  repeat apply conj.
  - intros record reply w1 Hsend Hfail.
    apply (failed_request_raises _ _ s reply w1 Hsend Hfail).
  - intros record reply w1 Hsend Hfail.
    unfold update_cloudfront_dns.update_dns_record, update_cloudfront_dns.get_dns_records.
    destruct (failed_request_raises (list_request zone_id token)
                (fun response => ret (json response)) s reply w1 Hsend Hfail) as (e & He).
    exists e. apply bind_raises. exact He.
  - intros name type reply w1 Hsend Hfail.
    apply (failed_request_raises _ _ s reply w1 Hsend Hfail).
Qed.

(** X15.  [update_dns_record] of setup_cloudflare_redirects.py looks the
    record up under its full name, [name.rinawarptech.com], and the type.
    An answer with [success] false raises without any write; otherwise
    the first record found is updated by a PUT on its id, and when none is
    found (or its id is empty) the record is created by a POST.  In both
    cases the body is the proxied record pointing at rinawarptech.com,
    under the short name. *)
Theorem setup_update_or_create (zone_id token name type : string) (s : @st W)
    (resp : response) (w1 : W) :
  requests_send (lookup_request zone_id token (name +:+ ".rinawarptech.com") type) (world s)
    = (inr resp, w1) ->
  status_ok resp = true ->
  let lookup := EvHttp (lookup_request zone_id token (name +:+ ".rinawarptech.com") type) in
  if success (json resp)
  then trace (snd (setup_cloudflare_redirects.update_dns_record zone_id token name type s)) =
         trace s ++
         [lookup;
          EvHttp (match result (json resp) with
                  | existing :: _ =>
                      if PyStr.truthy (cf_id existing)
                      then put_request zone_id token (cf_id existing)
                             (redirect_record name type)
                      else post_request zone_id token (redirect_record name type)
                  | [] => post_request zone_id token (redirect_record name type)
                  end)]
  else setup_cloudflare_redirects.update_dns_record zone_id token name type s =
         (Raise (Exc (an_exc Exception "Failed to get DNS records")), logged s w1 [lookup]).
Proof.
  intros Hsend Hok lookup. unfold setup_cloudflare_redirects.update_dns_record.
  erewrite bind_ok by (apply call_ok; exact Hsend).
  erewrite bind_ok by (apply raise_for_status_ok; exact Hok).
  destruct (success (json resp)); cbn [negb]; [|reflexivity].
  destruct (result (json resp)) as [|existing rest]; cbn [truthy_opt default].
  - rewrite send_trace. unfold logged. cbn [trace]. rewrite <- app_assoc. reflexivity.
  - destruct (PyStr.truthy (cf_id existing));
      rewrite send_trace; unfold logged; cbn [trace]; rewrite <- app_assoc; reflexivity.
Qed.

End UpsertFailures.

Lemma failed_lookup_writes_nothing_witness :
  exists e,
    update_cloudfront_dns.update_dns_record (E := cloudflare_down)
      "023e105f4ecef8ad9ca31a8372d0c353" "cf-token-from-env" cloudfront_record
      {| world := 0%nat; trace := [] |}
    = (Raise (Exc e),
       {| world := 1%nat;
          trace := [EvHttp (list_request "023e105f4ecef8ad9ca31a8372d0c353"
                              "cf-token-from-env")] |}).
Proof.
  exact (proj1 (proj2 (failed_lookup_writes_nothing (E := cloudflare_down)
                         "023e105f4ecef8ad9ca31a8372d0c353" "cf-token-from-env"
                         {| world := 0%nat; trace := [] |}))
           cloudfront_record _ 1%nat eq_refl eq_refl).
Defined.

Lemma setup_update_or_create_witness :
  trace (snd (setup_cloudflare_redirects.update_dns_record (E := zone_filtered)
                "023e105f4ecef8ad9ca31a8372d0c353" "cf-token-from-env" "api" "CNAME"
                {| world := 0%nat; trace := [] |}))
  = [EvHttp (lookup_request "023e105f4ecef8ad9ca31a8372d0c353" "cf-token-from-env"
               "api.rinawarptech.com" "CNAME");
     EvHttp (put_request "023e105f4ecef8ad9ca31a8372d0c353" "cf-token-from-env"
               "9a7806061c88ada191ed06f989cc3dac" (redirect_record "api" "CNAME"))].
Proof.
  exact (setup_update_or_create (E := zone_filtered)
           "023e105f4ecef8ad9ca31a8372d0c353" "cf-token-from-env" "api" "CNAME"
           {| world := 0%nat; trace := [] |} (listing [api_record]) 1%nat eq_refl eq_refl).
Defined.

(** ** cf-dns.py: adding the CNAME *)

Section AddCname.
Context {W : Type} {E : Env W}.

(** X16.  Once its client object is built, [add_cname_record] never
    raises.  It posts a record only when the zone lookup found a zone:
    then exactly one, the proxied CNAME, into the first zone found, and
    the function returns True exactly when that post went through.  When
    the lookup fails or finds nothing it prints the error and returns
    False without posting. *)
Theorem add_cname_record_outcome (token zone_name record_name target : string)
    (s : @st W) (w1 : W) :
  cf_client token (world s) = (inr tt, w1) ->
  exists ok evs w',
    cf_dns.add_cname_record token zone_name record_name target s =
      (Ok ok, logged s w' (EvCfClient token :: EvCfZonesGet zone_name :: evs))
    /\ match cf_zones_get zone_name w1 with
       | (inr (zone :: _), w2) =>
           exists line,
             evs = [EvCfRecordPost (cf_id zone) (cname_record record_name target);
                    EvPrint line]
             /\ ok = match fst (cf_dns_records_post (cf_id zone)
                                  (cname_record record_name target) w2) with
                     | inr _ => true
                     | inl _ => false
                     end
       | _ => ok = false /\ exists line, evs = [EvPrint line]
       end.
Proof.
  intros Hclient.
  unfold cf_dns.add_cname_record, try_except, bind, call, print, ret, except_Exception, logged.
  cbv beta. rewrite Hclient. cbn [world trace].
  fold (cname_record record_name target).
  destruct (cf_zones_get zone_name w1) as [[e|[|zone zones]] w2] eqn:Hz; cbn [world trace].
  - eexists false, _, w2. split; [|split; [reflexivity | eexists; reflexivity]].
    rewrite <- !app_assoc. reflexivity.
  - eexists false, _, w2. split; [|split; [reflexivity | eexists; reflexivity]].
    rewrite <- !app_assoc. reflexivity.
  - destruct (cf_dns_records_post (cf_id zone) (cname_record record_name target) w2)
      as [[e|[]] w3] eqn:Hp; cbn [world trace fst].
    + eexists false, _, w3. split; [|eexists; split; reflexivity].
      rewrite <- !app_assoc. reflexivity.
    + eexists true, _, w3. split; [|eexists; split; reflexivity].
      rewrite <- !app_assoc. reflexivity.
Qed.

End AddCname.

Lemma add_cname_record_outcome_witness :
  exists evs w',
    cf_dns.add_cname_record (E := sdk_ready) "cf-token" "rinawarptech.com" "docs"
      "548iv9i4.up.railway.app" {| world := 0%nat; trace := [] |}
    = (Ok true, logged {| world := 0%nat; trace := [] |} w'
                  (EvCfClient "cf-token" :: EvCfZonesGet "rinawarptech.com" :: evs)).
Proof.
  destruct (add_cname_record_outcome (E := sdk_ready) "cf-token" "rinawarptech.com" "docs"
              "548iv9i4.up.railway.app" {| world := 0%nat; trace := [] |} 1%nat eq_refl)
    as (ok & evs & w' & Hrun & Hcase).
  cbn in Hcase. destruct Hcase as (line & _ & ->).
  exists evs, w'. exact Hrun.
Defined.

(** ** setup_cloudflare_redirects.py: one failure does not stop the rest *)

Section SetupIsolation.
Context {W : Type} {E : Env W}.

Lemma completes_bind (Q1 Q2 Q : list event -> Prop) (m1 m2 : @M W unit) :
  (forall evs1 evs2, Q1 evs1 -> Q2 evs2 -> Q (evs1 ++ evs2)) ->
  completes_with Q1 m1 -> completes_with Q2 m2 ->
  completes_with Q (bind m1 (fun _ => m2)).
Proof.
  intros HQ H1 H2 s. destruct (H1 s) as (evs1 & s1 & Hm1 & Ht1 & Hq1).
  destruct (H2 s1) as (evs2 & s2 & Hm2 & Ht2 & Hq2).
  exists (evs1 ++ evs2), s2. rewrite (bind_ok _ _ _ _ _ Hm1), Hm2, Ht2, Ht1, <- app_assoc.
  auto.
Qed.

Lemma completes_print (msg : string) :
  completes_with (W := W) (fun evs => attempts_of evs = []) (print msg).
Proof. intros s. exists [EvPrint msg], (logged s (world s) [EvPrint msg]). auto. Qed.

Lemma attempts_of_app (evs1 evs2 : list event) :
  attempts_of (evs1 ++ evs2) = attempts_of evs1 ++ attempts_of evs2.
Proof. unfold attempts_of, requests_of. rewrite omap_app, List.filter_app. reflexivity. Qed.

Lemma completes_attempts (t1 t2 : list request) (m1 m2 : @M W unit) :
  completes_with (fun evs => attempts_of evs = t1) m1 ->
  completes_with (fun evs => attempts_of evs = t2) m2 ->
  completes_with (fun evs => attempts_of evs = t1 ++ t2) (bind m1 (fun _ => m2)).
Proof.
  apply completes_bind. intros evs1 evs2 H1 H2. rewrite attempts_of_app, H1, H2. reflexivity.
Qed.

Lemma completes_split (t t1 t2 : list request) (m1 m2 : @M W unit) :
  completes_with (fun evs => attempts_of evs = t1) m1 ->
  completes_with (fun evs => attempts_of evs = t2) m2 ->
  t = t1 ++ t2 ->
  completes_with (fun evs => attempts_of evs = t) (bind m1 (fun _ => m2)).
Proof. intros H1 H2 ->. apply completes_attempts; assumption. Qed.

Lemma completes_ret :
  completes_with (W := W) (fun evs => attempts_of evs = []) (ret tt).
Proof. intros s. exists [], s. cbn. rewrite app_nil_r. auto. Qed.

Ltac crunch_requests :=
  repeat (cbv beta; cbn [world trace fst snd negb truthy_opt default];
          lazymatch goal with
          | |- context [requests_send ?r ?w] => destruct (requests_send r w) as [[?|?] ?]
          | |- context [(400 <=? ?c) && (?c <? 600)] => destruct ((400 <=? c) && (c <? 600))
          | |- context [success ?b] => destruct (success b)
          | |- context [result ?b] => destruct (result b) as [|? ?]
          | |- context [PyStr.truthy ?i] => destruct (PyStr.truthy i)
          end).

Ltac close_attempt :=
  eexists _, _; split; [reflexivity|]; cbn [trace]; rewrite <- ?app_assoc;
  split; reflexivity.

(** The [try] statement around one DNS update: it always completes, and
    the lookup is attempted. *)
Lemma update_attempted (zone_id token subdomain : string) :
  completes_with (W := W)
    (fun evs => attempts_of evs =
                [lookup_request zone_id token (subdomain +:+ ".rinawarptech.com") "CNAME"])
    (try_except
       (result <- setup_cloudflare_redirects.update_dns_record zone_id token subdomain "CNAME" ;;
        if success result
        then print (check_mark +:+ " Successfully updated DNS record")
        else print (cross_mark +:+ " Failed to update DNS record") ;;
             print ("Error: " +:+ errors result))
       (except_Exception (fun e =>
          print (cross_mark +:+ " Error updating DNS record: " +:+ exc_msg e)))).
Proof.
  intros s.
  unfold setup_cloudflare_redirects.update_dns_record, try_except, bind, requests, call,
    raise_for_status, raise_Exception, raise, print, ret, except_Exception.
  crunch_requests; close_attempt.
Qed.

Lemma page_rule_attempted (zone_id token pattern target : string) :
  completes_with (W := W)
    (fun evs => attempts_of evs = [page_rule_request zone_id token pattern target])
    (try_except
       (result <- setup_cloudflare_redirects.create_page_rule zone_id token pattern
                    [{| pa_id := "forwarding_url";
                        pa_url := "https://" +:+ target;
                        pa_status_code := 301 |}] ;;
        if success result
        then print (check_mark +:+ " Successfully created page rule")
        else print (cross_mark +:+ " Failed to create page rule") ;;
             print ("Error: " +:+ errors result))
       (except_Exception (fun e =>
          print (cross_mark +:+ " Error creating page rule: " +:+ exc_msg e)))).
Proof.
  intros s.
  unfold setup_cloudflare_redirects.create_page_rule, try_except, bind, requests, call,
    raise_for_status, raise_Exception, raise, print, ret, except_Exception.
  crunch_requests; close_attempt.
Qed.

Ltac completes_tac :=
  lazymatch goal with
  | |- completes_with _ (bind _ _) =>
      eapply completes_split; [completes_tac | completes_tac | reflexivity]
  | |- completes_with _ (print _) => apply completes_print
  | |- completes_with _ (ret _) => apply completes_ret
  | |- completes_with _ (try_except _ _) =>
      first [apply update_attempted | apply page_rule_attempted]
  end.

(** X17.  Once setup_cloudflare_redirects.py has its token and zone id,
    no failure stops it: [main] returns normally and has attempted, in
    this order, the lookup for api, the lookup for docs, the page rule
    for api and the page rule for docs, whatever Cloudflare answered to
    each of them. *)
Theorem setup_attempts_everything (s : @st W) (token : option string) (s1 : @st W)
    (zone_id : string) (s2 : @st W) :
  setup_cloudflare_redirects.get_cloudflare_token s = (Ok token, s1) ->
  truthy_opt token = true ->
  setup_cloudflare_redirects.get_zone_id (default EmptyString token)
    (logged s1 (world s1) [EvPrint "Getting zone ID..."]) = (Ok zone_id, s2) ->
  exists evs s',
    setup_cloudflare_redirects.main s = (Ok tt, s')
    /\ trace s' = trace s2 ++ evs
    /\ attempts_of evs =
       [lookup_request zone_id (default EmptyString token) "api.rinawarptech.com" "CNAME";
        lookup_request zone_id (default EmptyString token) "docs.rinawarptech.com" "CNAME";
        page_rule_request zone_id (default EmptyString token)
          "api.rinawarptech.com/*" "rinawarptech.com/api/$1";
        page_rule_request zone_id (default EmptyString token)
          "docs.rinawarptech.com/*" "rinawarptech.com/docs/$1"].
Proof.
  intros Htok Htruthy Hzone. unfold setup_cloudflare_redirects.main.
  rewrite (bind_ok _ _ _ _ _ Htok), Htruthy. cbn [negb].
  rewrite (bind_ok _ _ _ _ _ (print_logged _ _)).
  rewrite (bind_ok _ _ _ _ _ Hzone).
  unfold setup_cloudflare_redirects.redirects. cbn [for_each fst snd].
  clear Hzone. revert s2.
  match goal with
  | |- forall s2, exists evs s', ?m s2 = _ /\ _ /\ attempts_of evs = ?t =>
      change (completes_with (fun evs => attempts_of evs = t) m)
  end.
  completes_tac.
Qed.

End SetupIsolation.

Lemma setup_attempts_everything_witness :
  exists evs s',
    setup_cloudflare_redirects.main (E := cloudflare_flaky) {| world := 0%nat; trace := [] |}
    = (Ok tt, s')
    /\ attempts_of evs =
       [lookup_request "372e67954025e0ba6aaa6d586b9e0b59" "cf-token-from-env"
          "api.rinawarptech.com" "CNAME";
        lookup_request "372e67954025e0ba6aaa6d586b9e0b59" "cf-token-from-env"
          "docs.rinawarptech.com" "CNAME";
        page_rule_request "372e67954025e0ba6aaa6d586b9e0b59" "cf-token-from-env"
          "api.rinawarptech.com/*" "rinawarptech.com/api/$1";
        page_rule_request "372e67954025e0ba6aaa6d586b9e0b59" "cf-token-from-env"
          "docs.rinawarptech.com/*" "rinawarptech.com/docs/$1"].
Proof.
  destruct (setup_attempts_everything (E := cloudflare_flaky)
              {| world := 0%nat; trace := [] |} (Some "cf-token-from-env")
              {| world := 1%nat; trace := [EvRun kubectl_get_secret] |}
              "372e67954025e0ba6aaa6d586b9e0b59"
              (snd (setup_cloudflare_redirects.get_zone_id (E := cloudflare_flaky)
                      "cf-token-from-env"
                      {| world := 1%nat;
                         trace := [EvRun kubectl_get_secret; EvPrint "Getting zone ID..."] |})))
    as (evs & s' & Hrun & _ & Hatt).
  - vm_compute. reflexivity.
  - reflexivity.
  - vm_compute. reflexivity.
  - exists evs, s'. split; [exact Hrun | exact Hatt].
Defined.

(** ** update_cloudfront_dns.py: names and the loop over the distributions *)

Section CloudfrontNames.

Lemma string_length_app (a b : string) :
  String.length (a +:+ b) = (String.length a + String.length b)%nat.
Proof. induction a as [|c a IH]; simpl; [reflexivity | f_equal; exact IH]. Qed.

Lemma no_dot_cons (c : ascii) (label : string) :
  no_dot (String c label) = true -> Ascii.eqb c "."%char = false /\ no_dot label = true.
Proof.
  unfold no_dot. cbn [PyStr.contains PyStr.startswith].
  destruct (Ascii.eqb c "."%char); cbn [andb negb]; [discriminate | auto].
Qed.

Lemma replace_suffix_of_label (label : string) :
  no_dot label = true ->
  forall fuel,
    (String.length label < fuel)%nat ->
    PyStr.replace_go fuel (label +:+ ".rinawarptech.com") ".rinawarptech.com" EmptyString
    = label.
Proof.
  induction label as [|c label IH]; intros Hdot fuel Hfuel;
    (destruct fuel as [|fuel]; [cbn in Hfuel; lia|]).
  - cbn. destruct fuel; reflexivity.
  - apply no_dot_cons in Hdot as [Hc Hdot].
    change (String c label +:+ ".rinawarptech.com")
      with (String c (label +:+ ".rinawarptech.com")).
    cbn [PyStr.replace_go PyStr.startswith]. rewrite Hc. cbn [andb].
    rewrite IH; [reflexivity | exact Hdot | cbn in Hfuel; lia].
Qed.

(** X18.  The name [main] of update_cloudfront_dns.py cuts from a domain
    and the full name [update_dns_record] builds back from it agree: for
    a subdomain made of one label, and for the apex, the record is looked
    up under the very domain of the distribution.  So it is for the four
    distributions of the script. *)
Theorem cloudfront_name_round_trip (label cloudfront : string) :
  no_dot label = true ->
  dr_name (update_cloudfront_dns.record_for (label +:+ ".rinawarptech.com") cloudfront) = label
  /\ update_cloudfront_dns.full_name_of
       (update_cloudfront_dns.record_for (label +:+ ".rinawarptech.com") cloudfront)
     = label +:+ ".rinawarptech.com"
  /\ update_cloudfront_dns.full_name_of
       (update_cloudfront_dns.record_for "rinawarptech.com" cloudfront)
     = "rinawarptech.com"
  /\ map (fun dist => update_cloudfront_dns.full_name_of
                         (update_cloudfront_dns.record_for (fst dist) (snd dist)))
       update_cloudfront_dns.distributions
     = map fst update_cloudfront_dns.distributions.
Proof.
  intros Hdot.
  assert (Hname : dr_name (update_cloudfront_dns.record_for
                             (label +:+ ".rinawarptech.com") cloudfront) = label).
  { unfold update_cloudfront_dns.record_for. cbn [dr_name].
    destruct (String.eqb (label +:+ ".rinawarptech.com") "rinawarptech.com") eqn:Heq.
    - apply String.eqb_eq in Heq. apply (f_equal String.length) in Heq.
      rewrite string_length_app in Heq. cbn in Heq. lia.
    - unfold PyStr.replace. apply replace_suffix_of_label; [exact Hdot|].
      rewrite string_length_app. cbn. lia. }
  split; [exact Hname|]. split; [|split; [reflexivity | vm_compute; reflexivity]].
  unfold update_cloudfront_dns.full_name_of. rewrite Hname.
  destruct (String.eqb label "rinawarptech.com") eqn:Heq; [|reflexivity].
  apply String.eqb_eq in Heq. subst label. discriminate Hdot.
Qed.

End CloudfrontNames.

Lemma cloudfront_name_round_trip_witness :
  update_cloudfront_dns.full_name_of
    (update_cloudfront_dns.record_for ("www" +:+ ".rinawarptech.com")
       "d361asqhi0ugoo.cloudfront.net")
  = "www.rinawarptech.com".
Proof.
  exact (proj1 (proj2 (cloudfront_name_round_trip "www" "d361asqhi0ugoo.cloudfront.net"
                         eq_refl))).
Defined.

Section CloudfrontLoop.
Context {W : Type} {E : Env W}.

Import update_cloudfront_dns.

Lemma cloudfront_token_only_exceptions : only_exceptions (W := W) get_cloudflare_token.
Proof.
  unfold get_cloudflare_token.
  apply only_exceptions_try; [only_exceptions_tac|].
  intros e handler. unfold except_class.
  destruct (exc_class_eqb _ _); [|discriminate].
  intros [= <-]. apply only_exceptions_ret.
Qed.

(** One update inside its [try]: it always completes, and the zone has
    been listed once. *)
Lemma update_one_attempted (dumps : dns_record -> string) (zone_id token : string)
    (record : dns_record) :
  completes_with (W := W)
    (fun evs => attempts_of evs = [list_request zone_id token])
    (update_one dumps zone_id token record).
Proof.
  intros s.
  unfold update_one, update_dns_record, get_dns_records, find_record_id,
    try_except, bind, requests, call, raise_for_status, raise, print, ret, except_Exception.
  repeat (cbv beta;
          cbn [world trace fst snd negb truthy_opt default fmap option_fmap option_map];
          lazymatch goal with
          | |- context [requests_send ?r ?w] => destruct (requests_send r w) as [[?|?] ?]
          | |- context [(400 <=? ?c) && (?c <? 600)] => destruct ((400 <=? c) && (c <? 600))
          | |- context [List.find ?f ?l] => destruct (List.find f l)
          | |- context [PyStr.truthy ?i] => destruct (PyStr.truthy i)
          | |- context [success ?b] => destruct (success b)
          end);
    (eexists _, _; split; [reflexivity|]; cbn [trace]; rewrite <- ?app_assoc;
     split; reflexivity).
Qed.

Lemma update_one_returns (dumps : dns_record -> string) (zone_id token : string)
    (record : dns_record) :
  returns (W := W) (update_one dumps zone_id token record).
Proof.
  intros s. destruct (update_one_attempted dumps zone_id token record s)
    as (evs & s' & Hrun & _). eauto.
Qed.

(** X1.  update_cloudfront_dns.py always ends normally (exit code 0):
    every exception is caught and printed.  And once the token, the zone
    id and the first listing are there, all four distributions are gone
    through whatever fails on the way: the zone is listed once more for
    each of them. *)
Theorem cloudfront_goes_through_all (dumps : dns_record -> string) (s : @st W) :
  (exists s', main dumps s = (Ok tt, s'))
  /\ (forall token s1 zone_id s2 current_records s3,
        get_cloudflare_token s = (Ok token, s1) ->
        truthy_opt token = true ->
        get_zone_id (default EmptyString token)
          (logged s1 (world s1) [EvPrint "Getting zone ID..."]) = (Ok zone_id, s2) ->
        get_dns_records zone_id (default EmptyString token)
          (logged s2 (world s2) [EvPrint (nl +:+ "Updating DNS records to use CloudFront:");
                                 EvPrint "Fetching current DNS records..."])
          = (Ok current_records, s3) ->
        exists evs s',
          main dumps s = (Ok tt, s')
          /\ trace s' = trace s3 ++ evs
          /\ attempts_of evs = repeat (list_request zone_id (default EmptyString token)) 4).
Proof.
  split.
  - assert (H : returns (main dumps)); [|destruct (H s) as ([] & s' & Hrun); eauto].
    unfold main. apply returns_try_Exception; [|intros e; apply returns_print].
    apply only_exceptions_bind; [apply cloudfront_token_only_exceptions|].
    intros token. destruct (negb (truthy_opt token)); [apply only_exceptions_raise|].
    unfold get_zone_id, get_dns_records.
    repeat lazymatch goal with
      | |- only_exceptions (bind (for_each _ _) _) =>
          apply only_exceptions_bind;
          [apply only_exceptions_for_each; intros dist;
           apply only_exceptions_bind; [apply only_exceptions_print|];
           intros _; apply returns_only_exceptions, update_one_returns
          | intros _]
      | |- _ => only_exceptions_step
      end.
  - intros token s1 zone_id s2 current s3 Htok Htruthy Hzone Hlist.
    assert (Hbody :
      exists evs s',
        (token <- get_cloudflare_token ;;
         if negb (truthy_opt token) then raise_Exception "Cloudflare API token not found"
         else
           let token := default EmptyString token in
           print "Getting zone ID..." ;;
           zone_id <- get_zone_id token ;;
           print (nl +:+ "Updating DNS records to use CloudFront:") ;;
           print "Fetching current DNS records..." ;;
           current_records <- get_dns_records zone_id token ;;
           print ("Found " +:+ pretty (length (result current_records)) +:+ " records") ;;
           for_each distributions (fun dist =>
             let domain := fst dist in
             let cloudfront := snd dist in
             let record := record_for domain cloudfront in
             print (nl +:+ "Updating " +:+ domain +:+ " to point to CloudFront distribution "
                    +:+ cloudfront +:+ "...") ;;
             update_one dumps zone_id token record) ;;
           print (nl +:+ "DNS update complete!") ;;
           print (nl +:+ "Please note:") ;;
           print "1. DNS changes may take a few minutes to propagate" ;;
           print "2. CloudFront distributions may take 15-30 minutes to fully deploy" ;;
           print "3. Keep Cloudflare proxy enabled (orange cloud) for added protection") s
        = (Ok tt, s')
        /\ trace s' = trace s3 ++ evs
        /\ attempts_of evs = repeat (list_request zone_id (default EmptyString token)) 4).
    { rewrite (bind_ok _ _ _ _ _ Htok), Htruthy. cbn [negb]. cbv zeta.
      rewrite (bind_ok _ _ _ _ _ (print_logged _ _)).
      rewrite (bind_ok _ _ _ _ _ Hzone).
      rewrite (bind_ok _ _ _ _ _ (print_logged _ _)).
      rewrite (bind_ok _ _ _ _ _ (print_logged _ _)).
      rewrite logged_logged. cbn [app].
      rewrite (bind_ok _ _ _ _ _ Hlist).
      unfold distributions. cbn [for_each fst snd repeat]. cbv zeta.
      clear Hlist. revert s3.
      match goal with
      | |- forall s3, exists evs s', ?m s3 = _ /\ _ /\ attempts_of evs = ?t =>
          change (completes_with (fun evs => attempts_of evs = t) m)
      end.
      repeat lazymatch goal with
        | |- completes_with _ (bind _ _) => eapply completes_split
        | |- completes_with _ (print _) => apply completes_print
        | |- completes_with _ (ret _) => apply completes_ret
        | |- completes_with _ (update_one _ _ _ _) => apply update_one_attempted
        | |- _ = _ => reflexivity
        end. }
    destruct Hbody as (evs & s' & Hrun & Htr & Hatt).
    exists evs, s'. split; [|auto]. unfold main. apply try_ok. exact Hrun.
Qed.

End CloudfrontLoop.

Lemma cloudfront_goes_through_all_witness :
  exists s',
    update_cloudfront_dns.main (E := cloudflare_flaky) (fun _ => EmptyString)
      {| world := 0%nat; trace := [] |} = (Ok tt, s').
Proof.
  exact (proj1 (cloudfront_goes_through_all (E := cloudflare_flaky) (fun _ => EmptyString)
                  {| world := 0%nat; trace := [] |})).
Defined.

(** ** Names in Route 53 form *)

Section Route53Names.

Import sync_dns_records.

Lemma last_char_app (a b : string) :
  last_char (a +:+ b) = match last_char b with
                        | Some c => Some c
                        | None => last_char a
                        end.
Proof.
  induction a as [|x a IH].
  - change (EmptyString +:+ b) with b. destruct (last_char b); reflexivity.
  - change (String x a +:+ b) with (String x (a +:+ b)). cbn [last_char].
    rewrite IH. destruct (last_char b); reflexivity.
Qed.

Lemma endswith_inv (s p : string) :
  PyStr.endswith s p = true -> exists a, s = a +:+ p.
Proof.
  induction s as [|c s IH]; rewrite endswith_unfold.
  - destruct (String.eqb EmptyString p) eqn:Heq; [|discriminate].
    apply String.eqb_eq in Heq. subst p. exists EmptyString. reflexivity.
  - destruct (String.eqb (String c s) p) eqn:Heq.
    + apply String.eqb_eq in Heq. subst p. exists EmptyString. reflexivity.
    + intros H. destruct (IH H) as (a & ->). exists (String c a). reflexivity.
Qed.

(** X3.  [route53_name] appends the final dot exactly to the names that
    end with the zone name (the apex among them) and leaves every other
    name alone; and for a zone name that does not itself end with a dot,
    as rinawarptech.com, a name already in Route 53 form is left as it
    is, so the dot is never doubled. *)
Theorem route53_name_dot_once (name zone_name : string) (c : ascii) :
  last_char zone_name = Some c ->
  c <> "."%char ->
  route53_name name zone_name
    = (if PyStr.endswith name zone_name then name +:+ "." else name)
  /\ route53_name (route53_name name zone_name) zone_name = route53_name name zone_name.
Proof.
  intros Hlast Hc.
  assert (Hform : forall n, route53_name n zone_name
                            = if PyStr.endswith n zone_name then n +:+ "." else n).
  { intros n. unfold route53_name. destruct (String.eqb n zone_name) eqn:Heq; [|reflexivity].
    apply String.eqb_eq in Heq. subst n. rewrite endswith_self. reflexivity. }
  split; [apply Hform|].
  rewrite (Hform name). destruct (PyStr.endswith name zone_name) eqn:Hends.
  - rewrite Hform.
    destruct (PyStr.endswith (name +:+ ".") zone_name) eqn:Hdot; [|reflexivity].
    apply endswith_inv in Hdot as (a & Ha).
    apply (f_equal last_char) in Ha. rewrite !last_char_app, Hlast in Ha.
    cbn in Ha. injection Ha as <-. exfalso. apply Hc. reflexivity.
  - rewrite Hform, Hends. reflexivity.
Qed.

End Route53Names.

Lemma route53_name_dot_once_witness :
  sync_dns_records.route53_name
    (sync_dns_records.route53_name "docs.rinawarptech.com" sync_dns_records.ZONE_NAME)
    sync_dns_records.ZONE_NAME
  = "docs.rinawarptech.com.".
Proof.
  rewrite (proj2 (route53_name_dot_once "docs.rinawarptech.com" sync_dns_records.ZONE_NAME
                    "m"%char eq_refl ltac:(discriminate))).
  reflexivity.
Defined.
